(** * Residencia NNA: authorization, authentication gate, RUT validator,
      alert generators and account deletion

    A shallow embedding of the decision logic of the FastAPI backend
    ([backend/app/middleware], [backend/app/utils], [backend/app/routers]).
    Python dictionaries and MongoDB documents are finite maps from field
    names to dynamically typed values; handlers that can raise return a
    [result]; handlers that touch the database thread it explicitly. *)

From Stdlib Require Import ZArith Lia List Bool Ascii String.
From stdpp Require Import base option list gmap strings pretty.

Local Open Scope string_scope.
Local Open Scope list_scope.
Local Open Scope Z_scope.

(** ** Python values, exceptions and results *)

Module Py.

(** The values a BSON document or a decoded JWT payload holds in this
    program: [None], booleans, integers, strings, ObjectIds (a 96-bit
    number) and timestamps. *)
Inductive value :=
  | VNone
  | VBool (b : bool)
  | VInt (z : Z)
  | VStr (s : string)
  | VOid (o : N)
  | VTime (t : Z).

#[global] Instance value_eq_dec : EqDecision value.
Proof. solve_decision. Defined.

(** A [dict] with string keys. *)
Abbreviation dict := (gmap string value).

(** The exceptions that reach the framework. [HTTPException] carries the
    status code and the detail message; the others are unhandled and end
    the request with a 500. *)
Inductive exn :=
  | HTTPException (status_code : Z) (detail : string)
  | KeyError (key : string)
  | ValueError
  | TypeError
  | InvalidId
  | OverflowError
  | ValidationError.

#[global] Instance exn_eq_dec : EqDecision exn.
Proof. solve_decision. Defined.

Inductive result (A : Type) :=
  | Ok (a : A)
  | Raise (e : exn).
Arguments Ok {A} a.
Arguments Raise {A} e.

#[global] Instance result_ret : MRet result := λ A a, Ok a.
#[global] Instance result_bind : MBind result := λ A B k r,
  match r with
  | Ok a => k a
  | Raise e => Raise e
  end.

(** [d[k]]: subscripting raises [KeyError] on a missing key. *)
Definition getitem (d : dict) (k : string) : result value :=
  match d !! k with
  | Some v => Ok v
  | None => Raise (KeyError k)
  end.

(** [d.get(k)] and [d.get(k, dflt)]. *)
Definition get (d : dict) (k : string) : value := default VNone (d !! k).
Definition get_or (d : dict) (k : string) (dflt : value) : value :=
  default dflt (d !! k).

(** Truth value testing: [None], [False], [0] and [""] are false. *)
Definition truthy (v : value) : bool :=
  match v with
  | VNone => false
  | VBool b => b
  | VInt z => negb (z =? 0)%Z
  | VStr s => negb (bool_decide (s = ""))
  | VOid _ => true
  | VTime _ => true
  end.

(** [x == "literal"]: only a string with the same characters is equal. *)
Definition eq_str (v : value) (s : string) : bool := bool_decide (v = VStr s).

End Py.

Import Py.

(** ** Role hierarchy ([middleware/rbac.py]) *)

Module Rbac.

Definition ROLE_HIERARCHY : gmap string Z :=
  <["viewer" := 1]> (<["tecnico" := 2]> (<["coordinador" := 3]> (<["admin" := 4]> ∅))).

Definition has_permission (user_role required_role : string) : bool :=
  let user_level := default 0 (ROLE_HIERARCHY !! user_role) in
  let required_level := default 0 (ROLE_HIERARCHY !! required_role) in
  (user_level >=? required_level)%Z.

(** The closed set of role tags ([UserRole] in [models/user.py]) in
    increasing order of privilege. *)
Inductive role := Viewer | Tecnico | Coordinador | Admin.

Definition role_name (r : role) : string :=
  match r with
  | Viewer => "viewer"
  | Tecnico => "tecnico"
  | Coordinador => "coordinador"
  | Admin => "admin"
  end.

Definition role_level (r : role) : Z :=
  match r with
  | Viewer => 1
  | Tecnico => 2
  | Coordinador => 3
  | Admin => 4
  end.

Definition known_role (s : string) : Prop :=
  s = "viewer" ∨ s = "tecnico" ∨ s = "coordinador" ∨ s = "admin".

#[global] Instance known_role_dec (s : string) : Decision (known_role s).
Proof. unfold known_role. apply _. Defined.

End Rbac.

(** ** ObjectIds ([bson.ObjectId]) *)

Module Bson.

Definition hex_val (c : ascii) : option N :=
  let n := N_of_ascii c in
  if ((48 <=? n) && (n <=? 57))%N then Some (n - 48)%N
  else if ((97 <=? n) && (n <=? 102))%N then Some (n - 87)%N
  else if ((65 <=? n) && (n <=? 70))%N then Some (n - 55)%N
  else None.

Fixpoint hex_parse (s : string) (acc : N) : option N :=
  match s with
  | EmptyString => Some acc
  | String c s' =>
      match hex_val c with
      | Some d => hex_parse s' (16 * acc + d)%N
      | None => None
      end
  end.

Definition hex_char (d : N) : ascii :=
  ascii_of_N (if (d <? 10)%N then 48 + d else 87 + d)%N.

Fixpoint hex_render (digits : nat) (n : N) (acc : string) : string :=
  match digits with
  | O => acc
  | S k => hex_render k (n / 16)%N (String (hex_char (n mod 16)%N) acc)
  end.

(** [ObjectId.is_valid(s)] for a string: 24 hexadecimal characters. *)
Definition is_valid (s : string) : bool :=
  (String.length s =? 24)%nat && bool_decide (is_Some (hex_parse s 0)).

(** [str(oid)]: 24 lower-case hexadecimal digits. *)
Definition oid_str (o : N) : string := hex_render 24 o "".

(** [ObjectId(v)]. [None] asks for a newly generated identifier, which is
    the [None] of the result; a string must be 24 hexadecimal characters
    ([InvalidId] otherwise); an ObjectId is copied; any other type is a
    [TypeError]. *)
Definition ObjectId (v : value) : result (option N) :=
  match v with
  | VNone => Ok None
  | VOid o => Ok (Some o)
  | VStr s => if is_valid s then Ok (hex_parse s 0) else Raise InvalidId
  | _ => Raise TypeError
  end.

(** [str(v)] for the values stored in documents. *)
Definition str (v : value) : string :=
  match v with
  | VNone => "None"
  | VBool true => "True"
  | VBool false => "False"
  | VInt z => pretty z
  | VStr s => s
  | VOid o => oid_str o
  | VTime t => pretty t
  end.

End Bson.

(** ** The document store (the part of MongoDB the handlers use) *)

Module Mongo.

(** Conditions on one field: equality, [{"$in": [...]}], and the string
    range [{"$gte": lo, "$lte": hi}]. *)
Inductive cond :=
  | CEq (v : value)
  | CIn (vs : list value)
  | CRange (lo hi : string).

Definition query := list (string * cond).

(** Equality with [null] also matches a missing field; a range with string
    bounds matches string values only, compared byte by byte. *)
Definition holds (c : cond) (field : option value) : bool :=
  match c with
  | CEq v => bool_decide (default VNone field = v)
  | CIn vs => bool_decide (default VNone field ∈ vs)
  | CRange lo hi =>
      match field with
      | Some (VStr s) => String.leb lo s && String.leb s hi
      | _ => false
      end
  end.

Definition matches (q : query) (d : dict) : bool :=
  forallb (λ fc, holds fc.2 (d !! fc.1)) q.

Definition find (q : query) (coll : list dict) : list dict :=
  List.filter (matches q) coll.

Definition find_one (q : query) (coll : list dict) : option dict :=
  head (find q coll).

(** [cursor.to_list(n)]. *)
Definition to_list (n : nat) (cursor : list dict) : list dict := take n cursor.

(** [update_one(q, {"$set": fields})]: the first matching document gets
    the fields; nothing happens when none matches. *)
Fixpoint update_one (q : query) (fields : dict) (coll : list dict) : list dict :=
  match coll with
  | [] => []
  | d :: rest =>
      if matches q d then (fields ∪ d) :: rest
      else d :: update_one q fields rest
  end.

(** [delete_one(q)]: the first matching document is removed. *)
Fixpoint delete_one (q : query) (coll : list dict) : list dict :=
  match coll with
  | [] => []
  | d :: rest =>
      if matches q d then rest else d :: delete_one q rest
  end.

(** The collections the modelled handlers touch, and the source of the
    identifiers that [insert_one] gives to new documents. *)
Record db := mk_db {
  usuarios : list dict;
  nna : list dict;
  intervenciones : list dict;
  talleres : list dict;
  medidas_judiciales : list dict;
  alertas : list dict;
  next_oid : N
}.

Definition set_usuarios (f : list dict → list dict) (st : db) : db :=
  mk_db (f (usuarios st)) (nna st) (intervenciones st) (talleres st)
        (medidas_judiciales st) (alertas st) (next_oid st).

(** [db.alertas.insert_one(doc)]: the document gets a new [_id]. *)
Definition insert_alerta (doc : dict) (st : db) : db :=
  mk_db (usuarios st) (nna st) (intervenciones st) (talleres st)
        (medidas_judiciales st)
        (alertas st ++ [<["_id" := VOid (next_oid st)]> doc])
        (N.succ (next_oid st)).

(** [db.usuarios.insert_one(doc)]. *)
Definition insert_usuario (doc : dict) (st : db) : db :=
  mk_db (usuarios st ++ [<["_id" := VOid (next_oid st)]> doc]) (nna st)
        (intervenciones st) (talleres st) (medidas_judiciales st)
        (alertas st) (N.succ (next_oid st)).

(** A handler reads and writes the store and may raise; what it wrote
    before raising stays written (there is no transaction). *)
Definition handler (A : Type) : Type := db → db * result A.

Definition ret {A} (a : A) : handler A := λ st, (st, Ok a).
Definition raise {A} (e : exn) : handler A := λ st, (st, Raise e).
Definition lift {A} (r : result A) : handler A := λ st, (st, r).
Definition read {A} (f : db → A) : handler A := λ st, (st, Ok (f st)).
Definition write (f : db → db) : handler unit := λ st, (f st, Ok tt).
Definition hbind {A B} (m : handler A) (k : A → handler B) : handler B :=
  λ st, match m st with
        | (st', Ok a) => k a st'
        | (st', Raise e) => (st', Raise e)
        end.

End Mongo.

#[global] Instance handler_ret : MRet Mongo.handler := @Mongo.ret.
#[global] Instance handler_bind : MBind Mongo.handler :=
  λ A B k m, Mongo.hbind m k.

(** ** Calendar dates ([datetime.date]) *)

Module Dates.

Record date := mk_date { year : Z; month : Z; day : Z }.

#[global] Instance date_eq_dec : EqDecision date.
Proof. solve_decision. Defined.

Definition is_leap (y : Z) : bool :=
  (y mod 4 =? 0) && (negb (y mod 100 =? 0) || (y mod 400 =? 0)).

Definition days_in_month (y m : Z) : Z :=
  if m =? 2 then (if is_leap y then 29 else 28)
  else if (m =? 4) || (m =? 6) || (m =? 9) || (m =? 11) then 30
  else 31.

Definition days_before_year (y : Z) : Z :=
  let y1 := y - 1 in y1 * 365 + y1 / 4 - y1 / 100 + y1 / 400.

Fixpoint days_before_month_aux (y : Z) (k : nat) : Z :=
  match k with
  | O => 0
  | S k' => days_before_month_aux y k' + days_in_month y (Z.of_nat k)
  end.

Definition days_before_month (y m : Z) : Z :=
  days_before_month_aux y (Z.to_nat (m - 1)).

(** [d.toordinal()]: the day number, 1 for 0001-01-01. *)
Definition toordinal (d : date) : Z :=
  days_before_year (year d) + days_before_month (year d) (month d) + day d.

Definition valid (d : date) : bool :=
  (1 <=? year d) && (year d <=? 9999) &&
  (1 <=? month d) && (month d <=? 12) &&
  (1 <=? day d) && (day d <=? days_in_month (year d) (month d)).

(** Month and day are those of a calendar date. *)
Definition in_calendar (d : date) : Prop :=
  1 ≤ month d ≤ 12 ∧ 1 ≤ day d ≤ days_in_month (year d) (month d).

(** [(a - b).days] *)
Definition days_between (a b : date) : Z := toordinal a - toordinal b.

Definition next_day (d : date) : date :=
  if day d <? days_in_month (year d) (month d)
  then mk_date (year d) (month d) (day d + 1)
  else if month d <? 12 then mk_date (year d) (month d + 1) 1
  else mk_date (year d + 1) 1 1.

(** [d + timedelta(days=n)]; past 9999-12-31 it is an [OverflowError]. *)
Definition add_days (d : date) (n : nat) : result date :=
  let d' := Nat.iter n next_day d in
  if year d' <=? 9999 then Ok d' else Raise OverflowError.

Definition pad2 (n : Z) : string :=
  if n <? 10 then "0" +:+ pretty n else pretty n.

Definition pad4 (n : Z) : string :=
  if n <? 10 then "000" +:+ pretty n
  else if n <? 100 then "00" +:+ pretty n
  else if n <? 1000 then "0" +:+ pretty n
  else pretty n.

(** [d.isoformat()]: YYYY-MM-DD. *)
Definition isoformat (d : date) : string :=
  pad4 (year d) +:+ "-" +:+ pad2 (month d) +:+ "-" +:+ pad2 (day d).

Definition digit (c : ascii) : option Z :=
  let n := Z.of_N (N_of_ascii c) in
  if (48 <=? n) && (n <=? 57) then Some (n - 48) else None.

(** The directive [%Y]: four digits. *)
Definition parse_Y (s : string) : option (Z * string) :=
  match s with
  | String a (String b (String c (String d rest))) =>
      match digit a, digit b, digit c, digit d with
      | Some a, Some b, Some c, Some d =>
          Some (1000 * a + 100 * b + 10 * c + d, rest)
      | _, _, _, _ => None
      end
  | _ => None
  end.

(** The directive [%m]: [1[0-2]|0[1-9]|[1-9]], two characters first. *)
Definition parse_m (s : string) : option (Z * string) :=
  let two :=
    match s with
    | String a (String b rest) =>
        match digit a, digit b with
        | Some 1, Some b => if b <=? 2 then Some (10 + b, rest) else None
        | Some 0, Some b => if 1 <=? b then Some (b, rest) else None
        | _, _ => None
        end
    | _ => None
    end in
  match two, s with
  | Some r, _ => Some r
  | None, String a rest =>
      match digit a with
      | Some a => if 1 <=? a then Some (a, rest) else None
      | None => None
      end
  | None, _ => None
  end.

(** The directive [%d]: [3[01]|[12]\d|0[1-9]|[1-9]| [1-9]]. *)
Definition parse_d (s : string) : option (Z * string) :=
  let two :=
    match s with
    | String a (String b rest) =>
        match digit a, digit b with
        | Some 3, Some b => if b <=? 1 then Some (30 + b, rest) else None
        | Some 1, Some b => Some (10 + b, rest)
        | Some 2, Some b => Some (20 + b, rest)
        | Some 0, Some b => if 1 <=? b then Some (b, rest) else None
        | None, Some b =>
            if bool_decide (a = " "%char) && (1 <=? b) then Some (b, rest)
            else None
        | _, _ => None
        end
    | _ => None
    end in
  match two, s with
  | Some r, _ => Some r
  | None, String a rest =>
      match digit a with
      | Some a => if 1 <=? a then Some (a, rest) else None
      | None => None
      end
  | None, _ => None
  end.

Definition expect_dash (s : string) : option string :=
  match s with
  | String c rest => if bool_decide (c = "-"%char) then Some rest else None
  | EmptyString => None
  end.

(** [datetime.strptime(s, "%Y-%m-%d").date()] on a string of ASCII
    characters: the text must match the three directives and nothing may
    remain; the year 0 and a day the month does not have are rejected. *)
Definition strptime_ymd (s : string) : result date :=
  match
    '(y, s1) ← parse_Y s; s2 ← expect_dash s1;
    '(m, s3) ← parse_m s2; s4 ← expect_dash s3;
    '(d, s5) ← parse_d s4;
    Some (mk_date y m d, s5)
  with
  | Some (dt, EmptyString) => if valid dt then Ok dt else Raise ValueError
  | _ => Raise ValueError
  end.

(** [datetime.strptime(v, ...)] on a stored value: only a string parses. *)
Definition strptime_value (v : value) : result date :=
  match v with
  | VStr s => strptime_ymd s
  | _ => Raise TypeError
  end.

End Dates.

(** ** External collaborators

    The JWT codec, the password hasher and the response-model validation
    are libraries used as black boxes. A [None] result stands for the
    library raising. *)

Class Externals := {
  (** [jwt.decode] with the configured key: the claims of a token whose
      signature and expiry verify. *)
  jwt_decode : string → option dict;
  (** [jwt.encode] of a claim set. *)
  jwt_encode : dict → option string;
  (** [pwd_context.verify(plain, stored)]. *)
  pwd_verify : string → value → option bool;
  (** [pwd_context.hash(plain)]. *)
  pwd_hash : string → string;
  (** Validation of the keyword arguments of [UserResponse(...)]: the
      validated fields. *)
  UserResponse : dict → option dict
}.

(** ** Tokens ([utils/security.py]) *)

Module Security.
Section security.
Context `{!Externals}.

Definition ACCESS_TOKEN_EXPIRE_MINUTES : Z := 30.
Definition REFRESH_TOKEN_EXPIRE_DAYS : Z := 7.

Definition hash_password (password : string) : string := pwd_hash password.

Definition verify_password (plain_password : string) (hashed_password : value)
  : result bool :=
  match pwd_verify plain_password hashed_password with
  | Some b => Ok b
  | None => Raise ValueError
  end.

Definition create_access_token (data : dict) (now : Z) : result string :=
  let expire := now + ACCESS_TOKEN_EXPIRE_MINUTES * 60 in
  let to_encode :=
    <["exp" := VTime expire]> (<["iat" := VTime now]>
      (<["type" := VStr "access"]> data)) in
  match jwt_encode to_encode with
  | Some t => Ok t
  | None => Raise TypeError
  end.

Definition create_refresh_token (data : dict) (now : Z) : result string :=
  let expire := now + REFRESH_TOKEN_EXPIRE_DAYS * 86400 in
  let to_encode :=
    <["exp" := VTime expire]> (<["iat" := VTime now]>
      (<["type" := VStr "refresh"]> data)) in
  match jwt_encode to_encode with
  | Some t => Ok t
  | None => Raise TypeError
  end.

(** [None] when the library raises [JWTError]. *)
Definition decode_token (token : string) : option dict := jwt_decode token.

Definition verify_token_type (payload : dict) (expected_type : string) : bool :=
  eq_str (get payload "type") expected_type.

End security.
End Security.

(** ** Authentication gate ([middleware/auth.py]) *)

Module Auth.
Section auth.
Context `{!Externals}.
Import Mongo.

(** [TokenData]: three optional strings. *)
Record TokenData := mk_TokenData {
  user_id : option string;
  email : option string;
  rol : option string
}.

(** Validation of an [Optional[str]] field. *)
Definition optional_str (v : value) : result (option string) :=
  match v with
  | VNone => Ok None
  | VStr s => Ok (Some s)
  | _ => Raise ValidationError
  end.

Definition value_of (o : option string) : value :=
  match o with Some s => VStr s | None => VNone end.

Definition credentials_exception : exn :=
  HTTPException 401 "Credenciales inválidas".

Definition get_current_user (token : string) : result TokenData :=
  match Security.decode_token token with
  | None => Raise credentials_exception
  | Some payload =>
      if negb (Security.verify_token_type payload "access")
      then Raise (HTTPException 401 "Tipo de token inválido")
      else
        let user_id := get payload "sub" in
        let email := get payload "email" in
        let rol := get payload "rol" in
        if bool_decide (user_id = VNone) || bool_decide (email = VNone)
        then Raise credentials_exception
        else
          u ← optional_str user_id;
          e ← optional_str email;
          r ← optional_str rol;
          Ok (mk_TokenData u e r)
  end.

Definition get_current_active_user (current_user : TokenData)
  : handler TokenData :=
  user ← read (λ st,
    find_one [("_id", CEq (value_of (user_id current_user)))] (usuarios st));
  match user with
  | None => raise (HTTPException 404 "Usuario no encontrado")
  | Some user =>
      if negb (truthy (get_or user "activo" (VBool true)))
      then raise (HTTPException 403 "Usuario desactivado")
      else ret current_user
  end.

End auth.
End Auth.


(** [if not doc:] on the result of [find_one]. *)
Definition not_found (o : option dict) : bool :=
  match o with
  | None => true
  | Some d => bool_decide (d = ∅)
  end.

(** [len(s)]: the number of characters of a UTF-8 encoded string, that is
    of the bytes that are not continuation bytes. *)
Fixpoint py_len (s : string) : Z :=
  match s with
  | EmptyString => 0
  | String c s' =>
      let n := N_of_ascii c in
      (if ((128 <=? n) && (n <? 192))%N then 0 else 1) + py_len s'
  end.

(** ** Login ([routers/auth.py]) *)

Module AuthRouter.
Section auth_router.
Context `{!Externals}.
Import Mongo.

Record Token := mk_Token {
  access_token : string;
  refresh_token : string;
  token_type : string;
  expires_in : Z;
  user : dict
}.

Definition bad_login : exn := HTTPException 401 "Email o contraseña incorrectos".

Definition validated (fields : dict) : result dict :=
  match UserResponse fields with
  | Some r => Ok r
  | None => Raise ValidationError
  end.

Definition login (email password : string) (now : Z) : handler Token :=
  found ← read (λ st, find_one [("email", CEq (VStr email))] (usuarios st));
  if not_found found then raise bad_login
  else
    let user := default ∅ found in
    if negb (truthy (get_or user "activo" (VBool true)))
    then raise (HTTPException 403
                  "Usuario desactivado. Contacte al administrador.")
    else
      stored ← lift (getitem user "password_hash");
      ok ← lift (Security.verify_password password stored);
      if negb ok then raise bad_login
      else
        uid ← lift (getitem user "_id");
        _ ← write (set_usuarios
               (update_one [("_id", CEq uid)] {["ultimo_acceso" := VTime now]}));
        uid ← lift (getitem user "_id");
        mail ← lift (getitem user "email");
        role ← lift (getitem user "rol");
        name ← lift (getitem user "nombre");
        let token_data : dict :=
          <["sub" := VStr (Bson.str uid)]> (<["email" := mail]>
            (<["rol" := role]> (<["nombre" := name]> ∅))) in
        access ← lift (Security.create_access_token token_data now);
        refresh ← lift (Security.create_refresh_token token_data now);
        uid ← lift (getitem user "_id");
        mail ← lift (getitem user "email");
        name ← lift (getitem user "nombre");
        role ← lift (getitem user "rol");
        resp ← lift (validated
          (<["id" := VStr (Bson.str uid)]> (<["email" := mail]>
            (<["nombre" := name]> (<["rol" := role]>
              (<["activo" := get_or user "activo" (VBool true)]>
                (<["ultimo_acceso" := VTime now]>
                  (<["creado_en" := get_or user "creado_en" (VTime now)]> ∅))))))));
        ret (mk_Token access refresh "bearer" (30 * 60) resp)
  .

(** [change_password] of the current user. *)
Definition change_password (current_password new_password : string)
    (current_user : Auth.TokenData) (now : Z) : handler string :=
  let me := Auth.value_of (Auth.user_id current_user) in
  found ← read (λ st, find_one [("_id", CEq me)] (usuarios st));
  if not_found found
  then raise (HTTPException 404 "Usuario no encontrado")
  else
    let user := default ∅ found in
    stored ← lift (getitem user "password_hash");
    ok ← lift (Security.verify_password current_password stored);
    if negb ok
    then raise (HTTPException 400 "Contraseña actual incorrecta")
    else if py_len new_password <? 8
    then raise (HTTPException 400
                  "La nueva contraseña debe tener al menos 8 caracteres")
    else
      _ ← write (set_usuarios (update_one [("_id", CEq me)]
             (<["password_hash" := VStr (Security.hash_password new_password)]>
               {["actualizado_en" := VTime now]})));
      ret "Contraseña cambiada correctamente".

End auth_router.
End AuthRouter.

(** ** Account management ([routers/users.py], [database.py]) *)

Module Users.
Section users.
Context `{!Externals}.
Import Mongo.

Definition ROOT_ADMIN_EMAIL : string := "admin@residencia.cl".

(** [UserCreate] and [UserUpdate], already validated by the framework. *)
Record UserCreate := mk_UserCreate {
  uc_email : string;
  uc_nombre : string;
  uc_rol : string;
  uc_activo : bool;
  uc_password : string
}.

Record UserUpdate := mk_UserUpdate {
  uu_nombre : option string;
  uu_rol : option string;
  uu_activo : option bool;
  uu_password : option string
}.

Definition by_id (user_id : string) : query :=
  [("_id", CEq (VOid (default 0%N (Bson.hex_parse user_id 0))))].

Definition user_response (u : dict) (now : Z) : result dict :=
  uid ← getitem u "_id";
  mail ← getitem u "email";
  name ← getitem u "nombre";
  role ← getitem u "rol";
  AuthRouter.validated
    (<["id" := VStr (Bson.str uid)]> (<["email" := mail]>
      (<["nombre" := name]> (<["rol" := role]>
        (<["activo" := get_or u "activo" (VBool true)]>
          (<["ultimo_acceso" := get u "ultimo_acceso"]>
            (<["creado_en" := get_or u "creado_en" (VTime now)]> ∅))))))).

Definition create_user (user_data : UserCreate)
    (current_user : Auth.TokenData) (now : Z) : handler dict :=
  existing ← read (λ st,
    find_one [("email", CEq (VStr (uc_email user_data)))] (usuarios st));
  if negb (not_found existing)
  then raise (HTTPException 400 "Ya existe un usuario con este email")
  else
    let new_user : dict :=
      <["email" := VStr (uc_email user_data)]>
      (<["nombre" := VStr (uc_nombre user_data)]>
      (<["rol" := VStr (uc_rol user_data)]>
      (<["activo" := VBool (uc_activo user_data)]>
      (<["password_hash" :=
           VStr (Security.hash_password (uc_password user_data))]>
      (<["creado_en" := VTime now]>
      (<["ultimo_acceso" := VNone]> ∅)))))) in
    inserted_id ← read next_oid;
    _ ← write (insert_usuario new_user);
    lift (AuthRouter.validated
      (<["id" := VStr (Bson.oid_str inserted_id)]>
      (<["email" := VStr (uc_email user_data)]>
      (<["nombre" := VStr (uc_nombre user_data)]>
      (<["rol" := VStr (uc_rol user_data)]>
      (<["activo" := VBool (uc_activo user_data)]>
      (<["ultimo_acceso" := VNone]>
      (<["creado_en" := VTime now]> ∅)))))))).

Definition set_field (k : string) (o : option value) (d : dict) : dict :=
  match o with Some v => <[k := v]> d | None => d end.

Definition update_user (user_id : string) (user_data : UserUpdate)
    (current_user : Auth.TokenData) (now : Z) : handler dict :=
  if negb (Bson.is_valid user_id)
  then raise (HTTPException 400 "ID de usuario inválido")
  else
    existing ← read (λ st, find_one (by_id user_id) (usuarios st));
    if not_found existing
    then raise (HTTPException 404 "Usuario no encontrado")
    else
      mail ← lift (getitem (default ∅ existing) "email");
      if eq_str mail ROOT_ADMIN_EMAIL
         && negb (bool_decide (Auth.email current_user = Some ROOT_ADMIN_EMAIL))
      then raise (HTTPException 403
                    "No se puede editar el usuario administrador principal")
      else
        let update_data : dict :=
          set_field "password_hash"
            (VStr ∘ Security.hash_password <$> uu_password user_data)
          (set_field "activo" (VBool <$> uu_activo user_data)
          (set_field "rol" (VStr <$> uu_rol user_data)
          (set_field "nombre" (VStr <$> uu_nombre user_data)
            {["actualizado_en" := VTime now]}))) in
        _ ← write (set_usuarios (update_one (by_id user_id) update_data));
        updated ← read (λ st, find_one (by_id user_id) (usuarios st));
        match updated with
        | None => raise TypeError
        | Some updated =>
            _ ← lift (getitem updated "email");
            lift (user_response updated now)
        end.

Definition delete_user (user_id : string) (current_user : Auth.TokenData)
  : handler string :=
  if negb (Bson.is_valid user_id)
  then raise (HTTPException 400 "ID de usuario inválido")
  else
    existing ← read (λ st, find_one (by_id user_id) (usuarios st));
    if not_found existing
    then raise (HTTPException 404 "Usuario no encontrado")
    else
      let existing := default ∅ existing in
      mail ← lift (getitem existing "email");
      if eq_str mail ROOT_ADMIN_EMAIL
      then raise (HTTPException 403
                    "No se puede eliminar el usuario administrador principal")
      else
        uid ← lift (getitem existing "_id");
        if bool_decide (Some (Bson.str uid) = Auth.user_id current_user)
        then raise (HTTPException 400 "No puede eliminar su propio usuario")
        else
          _ ← write (set_usuarios (delete_one (by_id user_id)));
          _ ← lift (getitem existing "email");
          ret "Usuario eliminado correctamente".

Definition reset_password (user_id new_password : string)
    (current_user : Auth.TokenData) (now : Z) : handler string :=
  if negb (Bson.is_valid user_id)
  then raise (HTTPException 400 "ID de usuario inválido")
  else if py_len new_password <? 8
  then raise (HTTPException 400
                "La contraseña debe tener al menos 8 caracteres")
  else
    found ← read (λ st, find_one (by_id user_id) (usuarios st));
    if not_found found
    then raise (HTTPException 404 "Usuario no encontrado")
    else
      _ ← write (set_usuarios (update_one (by_id user_id)
             (<["password_hash" := VStr (Security.hash_password new_password)]>
               {["actualizado_en" := VTime now]})));
      _ ← lift (getitem (default ∅ found) "email");
      ret "Contraseña reseteada correctamente".

(** [init_admin_user] at start-up, with the configured [ADMIN_EMAIL],
    [ADMIN_PASSWORD] and [ADMIN_NOMBRE]; every exception is caught. *)
Definition init_admin_user (now : Z) : handler unit :=
  existing ← read (λ st,
    find_one [("email", CEq (VStr ROOT_ADMIN_EMAIL))] (usuarios st));
  if not_found existing
  then
    write (insert_usuario
      (<["email" := VStr ROOT_ADMIN_EMAIL]>
      (<["nombre" := VStr "Administrador del Sistema"]>
      (<["rol" := VStr "admin"]>
      (<["password_hash" := VStr (Security.hash_password "AdminNNA2025!")]>
      (<["activo" := VBool true]>
      (<["ultimo_acceso" := VNone]>
      (<["creado_en" := VTime now]> ∅))))))))
  else ret tt.

(** Every request that writes to the accounts collection. *)
Inductive request :=
  | Login (email password : string) (now : Z)
  | ChangePassword (current new : string) (who : Auth.TokenData) (now : Z)
  | CreateUser (data : UserCreate) (who : Auth.TokenData) (now : Z)
  | UpdateUser (user_id : string) (data : UserUpdate)
      (who : Auth.TokenData) (now : Z)
  | DeleteUser (user_id : string) (who : Auth.TokenData)
  | ResetPassword (user_id new : string) (who : Auth.TokenData) (now : Z)
  | InitAdmin (now : Z).

(** The store after a request, whether it answered or raised. *)
Definition serve (r : request) (st : db) : db :=
  match r with
  | Login e p now => (AuthRouter.login e p now st).1
  | ChangePassword c n who now => (AuthRouter.change_password c n who now st).1
  | CreateUser d who now => (create_user d who now st).1
  | UpdateUser i d who now => (update_user i d who now st).1
  | DeleteUser i who => (delete_user i who st).1
  | ResetPassword i n who now => (reset_password i n who now st).1
  | InitAdmin now => (init_admin_user now st).1
  end.

Definition serve_all (rs : list request) (st : db) : db :=
  foldl (λ st r, serve r st) st rs.

(** The root administrator's account document is stored. *)
Definition root_admin_stored (uid : value) (st : db) : Prop :=
  ∃ d, d ∈ usuarios st ∧
       d !! "_id" = Some uid ∧ d !! "email" = Some (VStr ROOT_ADMIN_EMAIL).

End users.
End Users.

(** ** RUT validator ([utils/validators.py])

    A Python [str] is a sequence of Unicode code points. The character
    functions are written out for the code points below 256 (ASCII and
    Latin-1); above, they are those of the Unicode character database, a
    parameter of the model. *)

Class UnicodeData := {
  (** [c.upper()], possibly several characters. *)
  ucd_upper : N → list N;
  (** [c.isdigit()]: Numeric_Type is Digit or Decimal. *)
  ucd_isdigit : N → bool;
  (** The value of a decimal digit (category Nd), which [int] accepts. *)
  ucd_decimal : N → option Z
}.

Module PyStr.

Abbreviation pystr := (list N).

Definition is_ascii (c : N) : Prop := (c < 128)%N.

Section pystr.
Context `{!UnicodeData}.

(** The code points of a literal of ASCII characters. *)
Fixpoint of_string (s : string) : pystr :=
  match s with
  | EmptyString => []
  | String c s' => N_of_ascii c :: of_string s'
  end.

Definition upper_char (c : N) : list N :=
  if (c <? 256)%N then
    if ((97 <=? c) && (c <=? 122))%N then [(c - 32)%N]
    else if (c =? 181)%N then [924%N]
    else if (c =? 223)%N then [83%N; 83%N]
    else if ((224 <=? c) && (c <=? 254) && negb (c =? 247))%N then [(c - 32)%N]
    else if (c =? 255)%N then [376%N]
    else [c]
  else ucd_upper c.

Definition upper (s : pystr) : pystr := flat_map upper_char s.

(** [s.replace(c, "")] for a one-character [c]. *)
Definition remove_char (c : N) (s : pystr) : pystr :=
  List.filter (λ x, negb (x =? c)%N) s.

Definition isdigit_char (c : N) : bool :=
  if (c <? 256)%N then
    ((48 <=? c) && (c <=? 57))%N || (c =? 178)%N || (c =? 179)%N || (c =? 185)%N
  else ucd_isdigit c.

(** [s.isdigit()]: at least one character, and all of them digits. *)
Definition isdigit (s : pystr) : bool :=
  negb (bool_decide (s = [])) && forallb isdigit_char s.

(** [int(d)] for a one-character string [d] that is not white space:
    the value of a decimal digit, [ValueError] for anything else. *)
Definition int_char (c : N) : result Z :=
  if (c <? 256)%N then
    if ((48 <=? c) && (c <=? 57))%N then Ok (Z.of_N c - 48) else Raise ValueError
  else match ucd_decimal c with
       | Some v => Ok v
       | None => Raise ValueError
       end.

End pystr.
End PyStr.

Module Validators.
Section validators.
Context `{!UnicodeData}.
Import PyStr.

(** The loop over [reversed(cuerpo)], with its two variables. *)
Fixpoint suma_loop (ds : pystr) (suma multiplo : Z) : result Z :=
  match ds with
  | [] => Ok suma
  | d :: ds' =>
      n ← int_char d;
      suma_loop ds' (suma + n * multiplo)
                (if multiplo <? 7 then multiplo + 1 else 2)
  end.

Definition dv_of (dv_calculado : Z) : pystr :=
  if dv_calculado =? 11 then of_string "0"
  else if dv_calculado =? 10 then of_string "K"
  else of_string (pretty dv_calculado).

Definition validate_rut_chile (rut : pystr) : result bool :=
  if bool_decide (rut = []) then Ok true
  else
    let rut := remove_char 45 (remove_char 46 (upper rut)) in
    if (length rut <? 2)%nat then Ok false
    else
      let cuerpo := removelast rut in
      let dv := drop (length rut - 1) rut in
      if negb (isdigit cuerpo) then Ok false
      else
        suma ← suma_loop (rev cuerpo) 0 2;
        let dv_calculado := 11 - suma mod 11 in
        Ok (bool_decide (dv = dv_of dv_calculado)).

(** *** The checksum as the specification words it *)

Definition is_separator (c : N) : bool := ((c =? 46) || (c =? 45))%N.

Definition ascii_digit (c : N) : option Z :=
  if ((48 <=? c) && (c <=? 57))%N then Some (Z.of_N c - 48) else None.

(** The weight of the [i]-th body digit, counted from the least
    significant one: 2, 3, 4, 5, 6, 7, 2, 3, ... *)
Definition weight (i : nat) : Z := 2 + Z.of_nat i mod 6.

Fixpoint weighted_sum (i : nat) (digits_from_least : list Z) : Z :=
  match digits_from_least with
  | [] => 0
  | d :: ds => d * weight i + weighted_sum (S i) ds
  end.

(** The check digit of a body: ['0'] for 11, ['K'] for 10. *)
Definition check_digit (digits_from_least : list Z) : N :=
  let r := 11 - weighted_sum 0 digits_from_least mod 11 in
  if r =? 11 then 48%N else if r =? 10 then 75%N else (48 + Z.to_N r)%N.

(** Upper case of an ASCII letter. *)
Definition fold_case (c : N) : N :=
  if ((97 <=? c) && (c <=? 122))%N then (c - 32)%N else c.

Definition rut_checksum_spec (rut : pystr) : bool :=
  match rut with
  | [] => true
  | _ =>
      let stripped := List.filter (λ c, negb (is_separator c)) rut in
      match rev stripped with
      | dv :: (_ :: _) as body_from_least =>
          match mapM ascii_digit body_from_least with
          | Some digits => bool_decide (fold_case dv = check_digit digits)
          | None => false
          end
      | _ => false
      end
  end.

End validators.
End Validators.

(** ** Alert generators ([routers/alertas.py], [routers/juridico.py]) *)

Module Alertas.
Import Mongo.

(** The answer of a generator. *)
Record respuesta := mk_respuesta {
  message : string;
  alertas_creadas : Z
}.

(** The query that looks for a live alert on a subject. *)
Definition alerta_existente (entidad_tipo entidad_id tipo : string) : query :=
  [("entidad_tipo", CEq (VStr entidad_tipo));
   ("entidad_id", CEq (VStr entidad_id));
   ("tipo", CEq (VStr tipo));
   ("estado", CIn [VStr "activa"; VStr "en_proceso"])].

(** [nna = find_one({"_id": ObjectId(ref)})] and the name shown in the
    title, ["NNA"] when no resident is found. A newly generated ObjectId
    matches no stored document. *)
Definition nna_nombre (ref : value) : handler string :=
  oid ← lift (Bson.ObjectId ref);
  found ← read (λ st,
    match oid with
    | Some o => find_one [("_id", CEq (VOid o))] (nna st)
    | None => None
    end);
  if not_found found then ret "NNA"
  else
    let nna := default ∅ found in
    nombre ← lift (getitem nna "nombre");
    apellido ← lift (getitem nna "apellido");
    ret (Bson.str nombre +:+ " " +:+ Bson.str apellido).

Definition prioridad_seguimiento (interv : dict) : string :=
  if eq_str (get interv "prioridad") "urgente" then "alta" else "media".

(** The body of the loop over follow-ups: [true] when an alert was
    inserted. *)
Definition alerta_seguimiento (current_user : Auth.TokenData) (now : Z)
    (interv : dict) : handler bool :=
  id ← lift (getitem interv "_id");
  existing ← read (λ st,
    find_one (alerta_existente "intervencion" (Bson.str id)
                "seguimiento_pendiente") (alertas st));
  if negb (not_found existing) then ret false
  else
    ref ← lift (getitem interv "nna_id");
    nombre ← nna_nombre ref;
    nna_id ← lift (getitem interv "nna_id");
    fecha ← lift (getitem interv "fecha");
    id ← lift (getitem interv "_id");
    _ ← write (insert_alerta
      (<["nna_id" := nna_id]>
      (<["titulo" := VStr ("Seguimiento pendiente: " +:+ nombre)]>
      (<["mensaje" := VStr ("La intervención del " +:+ Bson.str fecha
           +:+ " requiere seguimiento antes del "
           +:+ Bson.str (get_or interv "fecha_proximo_seguimiento" (VStr "N/A")))]>
      (<["tipo" := VStr "seguimiento_pendiente"]>
      (<["prioridad" := VStr (prioridad_seguimiento interv)]>
      (<["fecha_vencimiento" := get interv "fecha_proximo_seguimiento"]>
      (<["estado" := VStr "activa"]>
      (<["entidad_tipo" := VStr "intervencion"]>
      (<["entidad_id" := VStr (Bson.str id)]>
      (<["creado_en" := VTime now]>
      (<["creado_por" := Auth.value_of (Auth.user_id current_user)]>
         ∅))))))))))));
    ret true.

(** The body of the loop over workshops. *)
Definition alerta_taller (current_user : Auth.TokenData) (now : Z)
    (taller : dict) : handler bool :=
  id ← lift (getitem taller "_id");
  existing ← read (λ st,
    find_one (alerta_existente "taller" (Bson.str id) "taller_proximo")
             (alertas st));
  if negb (not_found existing) then ret false
  else
    nombre ← lift (getitem taller "nombre");
    fecha ← lift (getitem taller "fecha");
    id ← lift (getitem taller "_id");
    _ ← write (insert_alerta
      (<["titulo" := VStr ("Taller próximo: " +:+ Bson.str nombre)]>
      (<["mensaje" := VStr ("El taller '" +:+ Bson.str nombre
           +:+ "' está programado para el " +:+ Bson.str fecha
           +:+ " a las "
           +:+ Bson.str (get_or taller "hora_inicio" (VStr "N/A")))]>
      (<["tipo" := VStr "taller_proximo"]>
      (<["prioridad" := VStr "media"]>
      (<["fecha_vencimiento" := fecha]>
      (<["estado" := VStr "activa"]>
      (<["entidad_tipo" := VStr "taller"]>
      (<["entidad_id" := VStr (Bson.str id)]>
      (<["creado_en" := VTime now]>
      (<["creado_por" := Auth.value_of (Auth.user_id current_user)]>
         ∅)))))))))));
    ret true.

(** [for x in xs: ...; alertas_creadas += 1]: the first exception ends
    the loop and the request. *)
Fixpoint for_each (body : dict → handler bool) (xs : list dict)
    (creadas : Z) : handler Z :=
  match xs with
  | [] => ret creadas
  | x :: xs' =>
      body x ≫= λ created : bool,
        for_each body xs' (if created then creadas + 1 else creadas)
  end.

Definition seguimientos_por_vencer (hoy limite : Dates.date) (st : db)
  : list dict :=
  to_list 100 (find
    [("fecha_proximo_seguimiento",
        CRange (Dates.isoformat hoy) (Dates.isoformat limite));
     ("estado", CIn [VStr "pendiente"; VStr "en_proceso"])]
    (intervenciones st)).

Definition talleres_proximos (hoy limite : Dates.date) (st : db)
  : list dict :=
  to_list 100 (find
    [("fecha", CRange (Dates.isoformat hoy) (Dates.isoformat limite));
     ("estado", CIn [VStr "programado"])]
    (talleres st)).

(** [POST /alertas/generar/vencimientos]. [today] is the value of
    [date.today()] during the request and [now] its clock time. *)
Definition generar_alertas_vencimientos (current_user : Auth.TokenData)
    (today : Dates.date) (now : Z) : handler respuesta :=
  fecha_limite ← lift (Dates.add_days today 7);
  intervenciones ← read (seguimientos_por_vencer today fecha_limite);
  creadas ← for_each (alerta_seguimiento current_user now) intervenciones 0;
  talleres ← read (talleres_proximos today fecha_limite);
  creadas ← for_each (alerta_taller current_user now) talleres creadas;
  ret (mk_respuesta
         ("Se generaron " +:+ pretty creadas +:+ " alertas automáticas")
         creadas).

(** A candidate has a live alert of the given kind. *)
Definition cubierta (entidad_tipo tipo : string) (st : db) (c : dict) : Prop :=
  ∃ id, c !! "_id" = Some id ∧
    existsb (matches (alerta_existente entidad_tipo (Bson.str id) tipo))
            (alertas st) = true.

(** [st'] is [st] with [n] more alerts and nothing else changed but the
    identifier source. *)
Definition crece (st st' : db) (n : Z) : Prop :=
  usuarios st' = usuarios st ∧ nna st' = nna st ∧
  intervenciones st' = intervenciones st ∧ talleres st' = talleres st ∧
  medidas_judiciales st' = medidas_judiciales st ∧
  ∃ nuevas, alertas st' = alertas st ++ nuevas ∧ Z.of_nat (length nuevas) = n.

(** A loop body that looks for the live alert of its candidate first, and
    inserts one alert when there is none. *)
Record deduplica (entidad_tipo tipo : string) (body : dict → handler bool)
  : Prop := {
  dedup_omite : ∀ c st,
    cubierta entidad_tipo tipo st c → body c st = (st, Ok false);
  dedup_paso : ∀ c st st' (b : bool),
    body c st = (st', Ok b) →
    cubierta entidad_tipo tipo st' c ∧ crece st st' (if b then 1 else 0)
}.

(** The resident link of a candidate is an identifier [ObjectId] accepts
    (it need not resolve), and every stored resident has a name. *)
Definition enlace_valido (c : dict) : Prop :=
  ∃ ref o, c !! "nna_id" = Some ref ∧ Bson.ObjectId ref = Ok o.

Definition residentes_con_nombre (st : db) : Prop :=
  Forall (λ d, is_Some (d !! "nombre") ∧ is_Some (d !! "apellido")) (nna st).

Definition seguimiento_procesable (c : dict) : Prop :=
  is_Some (c !! "_id") ∧ is_Some (c !! "fecha") ∧ enlace_valido c.

Definition taller_procesable (c : dict) : Prop :=
  is_Some (c !! "_id") ∧ is_Some (c !! "nombre") ∧ is_Some (c !! "fecha").

End Alertas.

Module Juridico.
Import Mongo.

Definition prioridad_vencimiento (dias_restantes : Z) : string :=
  if dias_restantes <=? 7 then "critica"
  else if dias_restantes <=? 15 then "alta"
  else "media".

(** The body of the loop over judicial measures. *)
Definition alerta_medida (current_user : Auth.TokenData)
    (today : Dates.date) (now : Z) (medida : dict) : handler bool :=
  id ← lift (getitem medida "_id");
  existing ← read (λ st,
    find_one (Alertas.alerta_existente "medida_judicial" (Bson.str id)
                "vencimiento_plazo") (alertas st));
  if negb (not_found existing) then ret false
  else
    ref ← lift (getitem medida "nna_id");
    nombre ← Alertas.nna_nombre ref;
    termino ← lift (getitem medida "fecha_termino");
    fecha_termino ← lift (Dates.strptime_value termino);
    let dias_restantes := Dates.days_between fecha_termino today in
    let prioridad := prioridad_vencimiento dias_restantes in
    nna_id ← lift (getitem medida "nna_id");
    id ← lift (getitem medida "_id");
    _ ← write (insert_alerta
      (<["nna_id" := nna_id]>
      (<["titulo" := VStr ("Medida próxima a vencer: " +:+ nombre)]>
      (<["mensaje" := VStr ("La medida judicial vence el "
           +:+ Bson.str termino +:+ ". Quedan "
           +:+ pretty dias_restantes +:+ " días.")]>
      (<["tipo" := VStr "vencimiento_plazo"]>
      (<["prioridad" := VStr prioridad]>
      (<["fecha_vencimiento" := termino]>
      (<["estado" := VStr "activa"]>
      (<["entidad_tipo" := VStr "medida_judicial"]>
      (<["entidad_id" := VStr (Bson.str id)]>
      (<["creado_en" := VTime now]>
      (<["creado_por" := Auth.value_of (Auth.user_id current_user)]>
         ∅))))))))))));
    ret true.

Definition medidas_por_vencer (hoy limite : Dates.date) (st : db)
  : list dict :=
  to_list 100 (find
    [("fecha_termino",
        CRange (Dates.isoformat hoy) (Dates.isoformat limite));
     ("estado", CIn [VStr "vigente"; VStr "dictada"])]
    (medidas_judiciales st)).

(** [POST /juridico/generar-alertas-vencimiento]. *)
Definition generar_alertas_vencimiento (current_user : Auth.TokenData)
    (today : Dates.date) (now : Z) : handler Alertas.respuesta :=
  fecha_limite ← lift (Dates.add_days today 30);
  medidas ← read (medidas_por_vencer today fecha_limite);
  creadas ← Alertas.for_each (alerta_medida current_user today now) medidas 0;
  ret (Alertas.mk_respuesta
         ("Se generaron " +:+ pretty creadas +:+ " alertas de vencimiento")
         creadas).

Definition medida_procesable (c : dict) : Prop :=
  is_Some (c !! "_id") ∧ Alertas.enlace_valido c ∧
  ∃ termino fecha,
    c !! "fecha_termino" = Some termino ∧
    Dates.strptime_value termino = Ok fecha.

End Juridico.

(** ** What a generated alert says about its candidate *)

Module Prioridades.
Import Mongo.

(** The thresholds on the days that remain. *)
Definition por_umbral (prioridad : string) (dias_restantes : Z) : Prop :=
  (dias_restantes ≤ 7 → prioridad = "critica") ∧
  (8 ≤ dias_restantes ≤ 15 → prioridad = "alta") ∧
  (15 < dias_restantes → prioridad = "media").

(** [a] is the alert of the judicial measure [m]: it names the measure,
    and its priority follows the thresholds on the days from [today] to
    the measure's [fecha_termino]. *)
Definition alerta_de_medida (today : Dates.date) (m a : dict) : Prop :=
  ∃ id termino fecha prioridad,
    m !! "_id" = Some id ∧
    m !! "fecha_termino" = Some termino ∧
    Dates.strptime_value termino = Ok fecha ∧
    a !! "entidad_tipo" = Some (VStr "medida_judicial") ∧
    a !! "entidad_id" = Some (VStr (Bson.str id)) ∧
    a !! "prioridad" = Some (VStr prioridad) ∧
    por_umbral prioridad (Dates.toordinal fecha - Dates.toordinal today).

(** [a] is the alert of the follow-up [c]: "alta" exactly when the
    intervention is "urgente", "media" otherwise. *)
Definition alerta_de_seguimiento (c a : dict) : Prop :=
  ∃ id prioridad,
    c !! "_id" = Some id ∧
    a !! "entidad_tipo" = Some (VStr "intervencion") ∧
    a !! "entidad_id" = Some (VStr (Bson.str id)) ∧
    a !! "prioridad" = Some (VStr prioridad) ∧
    (prioridad = "alta" ↔ c !! "prioridad" = Some (VStr "urgente")) ∧
    (prioridad = "media" ↔ c !! "prioridad" ≠ Some (VStr "urgente")).

(** [a] is the alert of the workshop [t]. *)
Definition alerta_de_taller (t a : dict) : Prop :=
  ∃ id,
    t !! "_id" = Some id ∧
    a !! "entidad_tipo" = Some (VStr "taller") ∧
    a !! "entidad_id" = Some (VStr (Bson.str id)) ∧
    a !! "prioridad" = Some (VStr "media").

(** No other candidate of the list shares the identifier of [c], as
    written in [entidad_id]. *)
Definition unico (cs : list dict) (c : dict) : Prop :=
  ∀ c' id id',
    c' ∈ cs → c !! "_id" = Some id → c' !! "_id" = Some id' →
    Bson.str id' = Bson.str id → c' = c.

End Prioridades.

(** ** Other readers of the [activo] flag
    ([routers/reportes.py], [routers/users.py]) *)

Module Listados.
Import Mongo.



End Listados.

(** ** Role checks on endpoints ([middleware/rbac.py]) *)

Module RoleChecks.
Section role_checks.
Context `{!Externals}.
Import Mongo.

(** [role in allowed_roles] for an optional role. *)
Definition rol_in (rol : option string) (roles : list string) : bool :=
  match rol with
  | Some r => bool_decide (r ∈ roles)
  | None => false
  end.

Definition rol_str (rol : option string) : string :=
  match rol with Some r => r | None => "None" end.

(** [RoleChecker(allowed_roles).__call__(user)], the principal being
    the one [get_current_active_user] returned. *)
Definition RoleChecker (allowed_roles : list string) (user : Auth.TokenData)
  : result Auth.TokenData :=
  if negb (rol_in (Auth.rol user) allowed_roles)
  then Raise (HTTPException 403
         ("Rol '" +:+ rol_str (Auth.rol user)
          +:+ "' no tiene permisos para esta operación"))
  else Ok user.

Definition require_admin : list string := ["admin"].
Definition require_coordinador : list string := ["admin"; "coordinador"].
Definition require_tecnico : list string := ["admin"; "coordinador"; "tecnico"].
Definition require_any_user : list string :=
  ["admin"; "coordinador"; "tecnico"; "viewer"].

(** A separator-joined list, [', '.join(roles)]. *)
Fixpoint join (sep : string) (xs : list string) : string :=
  match xs with
  | [] => ""
  | [x] => x
  | x :: rest => x +:+ sep +:+ join sep rest
  end.

(** The wrapper that the decorator [require_role] puts around a handler;
    [current_user] is the keyword argument of that name, if any. *)
Definition require_role {A} (roles : list string)
    (current_user : option Auth.TokenData) (func : handler A) : handler A :=
  match current_user with
  | None => raise (HTTPException 401 "Usuario no autenticado")
  | Some user =>
      if negb (rol_in (Auth.rol user) roles)
      then raise (HTTPException 403
             ("Se requiere uno de los roles: " +:+ join ", " roles))
      else func
  end.

Definition can_edit_any_record (user_role : string) : bool :=
  bool_decide (user_role ∈ ["admin"; "coordinador"]).
Definition can_delete_records (user_role : string) : bool :=
  bool_decide (user_role = "admin").
Definition can_manage_users (user_role : string) : bool :=
  bool_decide (user_role = "admin").
Definition can_generate_reports (user_role : string) : bool :=
  bool_decide (user_role ∈ ["admin"; "coordinador"]).

(** The dependency chain of a protected endpoint,
    [Depends(RoleChecker(...))] over [get_current_active_user] over
    [get_current_user], from the bearer token. *)
Definition protected (allowed_roles : list string) (token : string)
  : handler Auth.TokenData :=
  current_user ← lift (Auth.get_current_user token);
  user ← Auth.get_current_active_user current_user;
  lift (RoleChecker allowed_roles user).

End role_checks.
End RoleChecks.

(** ** Token refresh ([routers/auth.py]) *)

Module Refresh.
Section refresh.
Context `{!Externals}.

Record AccessToken := mk_AccessToken {
  new_access_token : string;
  new_token_type : string;
  new_expires_in : Z
}.

Definition refresh_token (refresh_token : string) (now : Z)
  : result AccessToken :=
  match Security.decode_token refresh_token with
  | None => Raise (HTTPException 401 "Refresh token inválido o expirado")
  | Some payload =>
      if negb (eq_str (get payload "type") "refresh")
      then Raise (HTTPException 401 "Tipo de token inválido")
      else
        let token_data : dict :=
          <["sub" := get payload "sub"]> (<["email" := get payload "email"]>
            (<["rol" := get payload "rol"]>
              (<["nombre" := get payload "nombre"]> ∅))) in
        new_access_token ← Security.create_access_token token_data now;
        Ok (mk_AccessToken new_access_token "bearer" (30 * 60))
  end.

(** What the handlers rely on from the JWT codec: a token that was
    issued decodes, while it is valid, to claims with the [type], [sub],
    [email], [rol] and [nombre] it was issued with. *)
Definition codec_roundtrip : Prop :=
  ∀ claims token,
    jwt_encode claims = Some token →
    ∃ payload,
      jwt_decode token = Some payload ∧
      ∀ k, k ∈ ["type"; "sub"; "email"; "rol"; "nombre"] →
           payload !! k = claims !! k.

End refresh.
End Refresh.

(** ** RUT formatting ([utils/validators.py]) *)

Module RutFormat.
Section rut_format.
Context `{!UnicodeData}.
Import PyStr.

(** The loop over [enumerate(reversed(cuerpo))]: a dot goes in front of
    what is built so far before every third digit. *)
Fixpoint formatear (ds : pystr) (i : nat) (cuerpo_formateado : pystr)
  : pystr :=
  match ds with
  | [] => cuerpo_formateado
  | d :: ds' =>
      let con_punto :=
        if (0 <? i)%nat && (i mod 3 =? 0)%nat
        then 46%N :: cuerpo_formateado else cuerpo_formateado in
      formatear ds' (S i) (d :: con_punto)
  end.

Definition format_rut (rut : pystr) : pystr :=
  if bool_decide (rut = []) then []
  else
    let rut := remove_char 45 (remove_char 46 (upper rut)) in
    if (length rut <? 2)%nat then rut
    else
      let cuerpo := removelast rut in
      let dv := drop (length rut - 1) rut in
      formatear (rev cuerpo) 0 [] ++ [45%N] ++ dv.

Definition clean_rut (rut : pystr) : pystr :=
  if bool_decide (rut = []) then []
  else remove_char 45 (remove_char 46 (upper rut)).

(** Cleaned text: ASCII, upper case, without dots or hyphens. *)
Definition limpio (s : pystr) : Prop :=
  Forall (λ c, is_ascii c ∧ Validators.is_separator c = false ∧
               Validators.fold_case c = c) s.

End rut_format.
End RutFormat.

(** ** Views of the accounts collection *)

Module Accounts.
Import Mongo.

(** The emails of the stored accounts, in order. *)
Definition emails (st : db) : list value :=
  omap (λ d : dict, d !! "email") (usuarios st).

(** No two accounts share an email. *)
Definition emails_unique (st : db) : Prop := NoDup (emails st).

(** The identifier and the email of every stored account, in order. *)
Definition identities (st : db) : list (option value * option value) :=
  (λ d : dict, (d !! "_id", d !! "email")) <$> usuarios st.

End Accounts.

(** ** Alert life cycle ([routers/alertas.py]) *)

Module AlertasEstado.
Import Mongo.

Definition set_alertas (f : list dict → list dict) (st : db) : db :=
  mk_db (usuarios st) (nna st) (intervenciones st) (talleres st)
        (medidas_judiciales st) (f (alertas st)) (next_oid st).

Definition by_oid (id : string) : query :=
  [("_id", CEq (VOid (default 0%N (Bson.hex_parse id 0))))].

Definition resolver_alerta (alerta_id : string) (comentario : option string)
    (current_user : Auth.TokenData) (now : Z) : handler string :=
  if negb (Bson.is_valid alerta_id)
  then raise (HTTPException 400 "ID de alerta inválido")
  else
    existing ← read (λ st, find_one (by_oid alerta_id) (alertas st));
    if not_found existing
    then raise (HTTPException 404 "Alerta no encontrada")
    else
      _ ← write (set_alertas (update_one (by_oid alerta_id)
             (<["estado" := VStr "resuelta"]>
             (<["resuelta_en" := VTime now]>
             (<["resuelta_por" := Auth.value_of (Auth.user_id current_user)]>
             (<["actualizado_en" := VTime now]>
             {["comentario_resolucion" := Auth.value_of comentario]}))))));
      ret "Alerta resuelta correctamente".

Definition asignar_alerta (alerta_id usuario_id : string)
    (current_user : Auth.TokenData) (now : Z) : handler string :=
  if negb (Bson.is_valid alerta_id)
  then raise (HTTPException 400 "ID de alerta inválido")
  else
    oid ← lift (Bson.ObjectId (VStr usuario_id));
    usuario ← read (λ st,
      find_one [("_id", CEq (VOid (default 0%N oid)))] (usuarios st));
    if not_found usuario
    then raise (HTTPException 404 "Usuario no encontrado")
    else
      _ ← write (set_alertas (update_one (by_oid alerta_id)
             (<["asignado_a" := VStr usuario_id]>
             {["actualizado_en" := VTime now]})));
      nombre ← lift (getitem (default ∅ usuario) "nombre");
      ret ("Alerta asignada a " +:+ Bson.str nombre).

Definition delete_alerta (alerta_id : string) (current_user : Auth.TokenData)
  : handler string :=
  if negb (Bson.is_valid alerta_id)
  then raise (HTTPException 400 "ID de alerta inválido")
  else
    existing ← read (λ st, find_one (by_oid alerta_id) (alertas st));
    if not_found existing
    then raise (HTTPException 404 "Alerta no encontrada")
    else
      _ ← write (set_alertas (delete_one (by_oid alerta_id)));
      ret "Alerta eliminada correctamente".

(** The subject key of a live alert: type and identifier of the entity
    and category, when the state is active or in progress. *)
Definition clave_viva (d : dict) : option (string * string * string) :=
  match d !! "entidad_tipo", d !! "entidad_id", d !! "tipo", d !! "estado" with
  | Some (VStr t), Some (VStr i), Some (VStr k), Some (VStr e) =>
      if bool_decide (e = "activa") || bool_decide (e = "en_proceso")
      then Some (t, i, k) else None
  | _, _, _, _ => None
  end.

(** At most one live alert per subject and category. *)
Definition sin_duplicados (st : db) : Prop :=
  NoDup (omap clave_viva (alertas st)).

End AlertasEstado.

(** ** Sample data

    A stand-in for the external libraries and a few small databases, used
    to run the handlers on concrete inputs. *)

Module Samples.
Import Mongo.

(** Tokens are named after their [type] claim; the only password is
    ["secreto123"]; every response model validates. *)
#[export] Instance externals : Externals := {|
  jwt_decode token :=
    if bool_decide (token = "refresh-token")
    then Some (<["type" := VStr "refresh"]> (<["sub" := VStr "u1"]>
                 {["email" := VStr "ana@residencia.cl"]}))
    else if bool_decide (token = "access-token")
    then Some (<["type" := VStr "access"]> (<["sub" := VStr "u1"]>
                 {["email" := VStr "ana@residencia.cl"]}))
    else None;
  jwt_encode claims := Some (Bson.str (get claims "type") +:+ "-token");
  pwd_verify plain stored := Some (bool_decide (stored = VStr ("h:" +:+ plain)));
  pwd_hash plain := "h:" +:+ plain;
  UserResponse fields := Some fields
|}.

#[export] Instance unicode : UnicodeData := {|
  ucd_upper c := [c];
  ucd_isdigit _ := false;
  ucd_decimal _ := None
|}.

Definition coordinadora : Auth.TokenData :=
  Auth.mk_TokenData (Some "u1") (Some "ana@residencia.cl") (Some "coordinador").

(** An account stored without the [activo] field. *)
Definition ana : dict :=
  <["_id" := VStr "u1"]> (<["email" := VStr "ana@residencia.cl"]>
  (<["nombre" := VStr "Ana"]> (<["rol" := VStr "coordinador"]>
    {["password_hash" := VStr "h:secreto123"]}))).

Definition root : dict :=
  <["_id" := VOid 1]> (<["email" := VStr "admin@residencia.cl"]>
  (<["nombre" := VStr "Administrador del Sistema"]> (<["rol" := VStr "admin"]>
  (<["activo" := VBool true]> {["password_hash" := VStr "h:AdminNNA2025!"]})))).

Definition cuentas : db := mk_db [root; ana] [] [] [] [] [] 100.

Definition hoy : Dates.date := Dates.mk_date 2026 11 4.

Definition medida (i : N) (fecha_termino : string) : dict :=
  <["_id" := VOid i]> (<["nna_id" := VStr "5f1d7f5e1c9d440000a1b2c3"]>
  (<["fecha_termino" := VStr fecha_termino]> {["estado" := VStr "vigente"]})).

Definition seguimiento (i : N) (prioridad : string) : dict :=
  <["_id" := VOid i]> (<["nna_id" := VStr "5f1d7f5e1c9d440000a1b2c3"]>
  (<["fecha" := VStr "2026-10-20"]>
  (<["fecha_proximo_seguimiento" := VStr "2026-11-06"]>
  (<["prioridad" := VStr prioridad]> {["estado" := VStr "pendiente"]})))).

(** The same follow-up stored without its [nna_id]. *)
Definition seguimiento_sin_nna (i : N) : dict :=
  delete "nna_id" (seguimiento i "media").

Definition medida_sin_nna (i : N) (fecha_termino : string) : dict :=
  delete "nna_id" (medida i fecha_termino).

Definition taller (i : N) : dict :=
  <["_id" := VOid i]> (<["nombre" := VStr "Huerto"]>
  (<["fecha" := VStr "2026-11-08"]> {["estado" := VStr "programado"]})).

(** No resident is stored: every [nna_id] fails to resolve. *)
Definition vencimientos : db :=
  mk_db [] []
    [seguimiento 7 "urgente"; seguimiento 8 "media"]
    [taller 9]
    [medida 1 "2026-11-09"; medida 2 "2026-11-16"; medida 3 "2026-11-29"]
    [] 100.

Definition con_registro_incompleto : db :=
  mk_db [] []
    [seguimiento_sin_nna 7; seguimiento 8 "media"]
    []
    [medida_sin_nna 1 "2026-11-09"; medida 2 "2026-11-16"]
    [] 100.

(** A first run over [vencimientos] that ends in [st1] with three alerts
    created. *)
Definition generar_alertas_vencimientos_first_run (st1 : db) : Prop :=
  Alertas.generar_alertas_vencimientos coordinadora hoy 0 vencimientos
  = (st1, Ok (Alertas.mk_respuesta "Se generaron 3 alertas automáticas" 3)) ∧
  Alertas.crece vencimientos st1 3.

End Samples.

(** ** Sample tokens and stores

    A codec with two tokens, the access and the refresh token of the
    account [Samples.ana] issued at time 1000: no other claim set is
    encoded and no other token decodes. *)

Module SampleTokens.
Import Mongo.

Definition token_data : dict :=
  <["sub" := VStr "u1"]> (<["email" := VStr "ana@residencia.cl"]>
  (<["rol" := VStr "coordinador"]> (<["nombre" := VStr "Ana"]> ∅))).

Definition access_claims : dict :=
  <["exp" := VTime 2800]> (<["iat" := VTime 1000]>
  (<["type" := VStr "access"]> token_data)).

Definition refresh_claims : dict :=
  <["exp" := VTime 605800]> (<["iat" := VTime 1000]>
  (<["type" := VStr "refresh"]> token_data)).

Definition codec : Externals := {|
  jwt_decode token :=
    if bool_decide (token = "A") then Some access_claims
    else if bool_decide (token = "R") then Some refresh_claims
    else None;
  jwt_encode claims :=
    if bool_decide (claims = access_claims) then Some "A"
    else if bool_decide (claims = refresh_claims) then Some "R"
    else None;
  pwd_verify plain stored :=
    Some (bool_decide (stored = VStr ("h:" +:+ plain)));
  pwd_hash plain := "h:" +:+ plain;
  UserResponse fields := Some fields
|}.

(** Only the root administrator, keyed by an ObjectId as [insert_one]
    keys it. *)
Definition solo_root : db := mk_db [Samples.root] [] [] [] [] [] 100.

(** A live alert about the judicial measure 1. *)
Definition alerta_activa : dict :=
  <["_id" := VOid 5]> (<["tipo" := VStr "vencimiento_plazo"]>
  (<["entidad_tipo" := VStr "medida_judicial"]>
  (<["entidad_id" := VStr "000000000000000000000001"]>
    {["estado" := VStr "activa"]}))).

Definition con_alerta : db :=
  mk_db [Samples.root] [] [] [] [] [alerta_activa] 100.

End SampleTokens.

(** An account keyed by an ObjectId and stored without the [activo]
    field, beside the root administrator. *)
Module SampleAccounts.
Import Mongo.




End SampleAccounts.

(** * Properties *)

Section rbac_properties.
Import Rbac.

Lemma ROLE_HIERARCHY_role (r : role) :
  ROLE_HIERARCHY !! role_name r = Some (role_level r).
Proof. by destruct r. Qed.

Lemma ROLE_HIERARCHY_unknown (s : string) :
  ¬ known_role s → ROLE_HIERARCHY !! s = None.
Proof.
  intros Hs. unfold ROLE_HIERARCHY, known_role in *.
  rewrite !lookup_insert_ne, lookup_empty; intuition congruence.
Qed.

Lemma ROLE_HIERARCHY_known (s : string) :
  known_role s → ∃ r, s = role_name r.
Proof.
  intros [-> | [-> | [-> | ->]]];
    [by exists Viewer | by exists Tecnico | by exists Coordinador | by exists Admin].
Qed.

Lemma has_permission_roles (r1 r2 : role) :
  has_permission (role_name r2) (role_name r1)
  = bool_decide (role_level r1 ≤ role_level r2).
Proof.
  unfold has_permission. rewrite !ROLE_HIERARCHY_role. simpl.
  rewrite Z.geb_leb. by destruct r1, r2.
Qed.

(** C1. In the order viewer < tecnico < coordinador < admin, with the levels
    1, 2, 3, 4 of [ROLE_HIERARCHY], a principal whose role is at least the
    required one passes [has_permission], and a principal whose role is
    strictly below the required one fails it. *)
Theorem has_permission_monotone (r1 r2 : role) :
  ROLE_HIERARCHY !! role_name r1 = Some (role_level r1) ∧
  ROLE_HIERARCHY !! role_name r2 = Some (role_level r2) ∧
  (role_level r1 ≤ role_level r2 →
     has_permission (role_name r2) (role_name r1) = true) ∧
  (role_level r1 < role_level r2 →
     has_permission (role_name r1) (role_name r2) = false).
Proof.
  rewrite !ROLE_HIERARCHY_role, !has_permission_roles.
  repeat split.
  - intros. by apply bool_decide_eq_true.
  - intros. apply bool_decide_eq_false. lia.
Qed.

Lemma has_permission_monotone_witness :
  has_permission "coordinador" "tecnico" = true ∧
  has_permission "tecnico" "coordinador" = false.
Proof.
  destruct (has_permission_monotone Tecnico Coordinador) as (_ & _ & Hge & Hlt).
  split; [apply Hge | apply Hlt]; simpl; lia.
Defined.

Lemma has_permission_unknown_user (u r : string) :
  ¬ known_role u →
  has_permission u r = bool_decide (ROLE_HIERARCHY !! r = None).
Proof.
  intros Hu. unfold has_permission.
  rewrite (ROLE_HIERARCHY_unknown u Hu). simpl.
  destruct (decide (known_role r)) as [Hr|Hr].
  - destruct (ROLE_HIERARCHY_known r Hr) as [r' ->].
    rewrite ROLE_HIERARCHY_role. by destruct r'.
  - by rewrite (ROLE_HIERARCHY_unknown r Hr).
Qed.

(** C2, as stated, fails: when the required role is itself unknown both
    levels are 0 and the comparison [0 >= 0] grants the permission. *)
Lemma has_permission_unknown_counterexample :
  ¬ (∀ u r : string, ¬ known_role u → has_permission u r = false).
Proof.
  intros H. specialize (H "invitado" "superadmin").
  assert (Hu : ¬ known_role "invitado") by (unfold known_role; intuition discriminate).
  specialize (H Hu). vm_compute in H. discriminate.
Qed.

(** C2, amended. A role outside the four known ones has level 0, and it is
    denied exactly when the required role is one of the four known roles. *)
Theorem has_permission_unknown_denied (u r : string) :
  ¬ known_role u →
  default 0 (ROLE_HIERARCHY !! u) = 0 ∧
  (has_permission u r = false ↔ known_role r).
Proof.
  intros Hu. split.
  - by rewrite (ROLE_HIERARCHY_unknown u Hu).
  - rewrite (has_permission_unknown_user u r Hu), bool_decide_eq_false.
    split.
    + intros Hr. destruct (decide (known_role r)) as [|Hn]; [done|].
      destruct Hr. by apply ROLE_HIERARCHY_unknown.
    + intros Hr. destruct (ROLE_HIERARCHY_known r Hr) as [r' ->].
      by rewrite ROLE_HIERARCHY_role.
Qed.

Lemma has_permission_unknown_denied_witness :
  default 0 (ROLE_HIERARCHY !! "invitado") = 0 ∧
  (has_permission "invitado" "viewer" = false ↔ known_role "viewer").
Proof.
  apply (has_permission_unknown_denied "invitado" "viewer").
  unfold known_role. intuition discriminate.
Defined.

End rbac_properties.




(** Unfolding of the handler combinators. *)
Ltac run :=
  unfold mbind, mret, handler_bind, handler_ret, Mongo.hbind, Mongo.read,
    Mongo.write, Mongo.lift, Mongo.raise, Mongo.ret; simpl.

Section store_facts.
Import Mongo.

Lemma find_one_matches (q : query) (coll : list dict) (d : dict) :
  find_one q coll = Some d → matches q d = true ∧ d ∈ coll.
Proof.
  unfold find_one, find. intros Hd.
  assert (Hin : In d (List.filter (matches q) coll)).
  { destruct (List.filter (matches q) coll); simplify_eq/=. by left. }
  apply filter_In in Hin as [Hin Hm]. split; [done|].
  by apply list_elem_of_In.
Qed.

Lemma holds_eq_str (k s : string) (d : dict) :
  holds (CEq (VStr s)) (d !! k) = true → d !! k = Some (VStr s).
Proof.
  simpl. intros Hd%bool_decide_eq_true.
  destruct (d !! k); simpl in *; by simplify_eq.
Qed.

End store_facts.

Section auth_properties.
Context `{!Externals}.
Import Mongo Auth.

Lemma verify_token_type_false (payload : dict) (t : string) :
  payload !! "type" ≠ Some (VStr t) →
  Security.verify_token_type payload t = false.
Proof.
  intros Hne. unfold Security.verify_token_type, eq_str, get.
  apply bool_decide_eq_false. intros Heq.
  destruct (payload !! "type") as [v|]; simpl in *; by simplify_eq.
Qed.

(** C3. A decoded payload whose ["type"] claim is anything but the string
    ["access"], or is absent, is rejected by [get_current_user] with the
    401 error, whatever its other claims; no principal is returned. *)
Theorem get_current_user_rejects_non_access (token : string) (payload : dict) :
  Security.decode_token token = Some payload →
  payload !! "type" ≠ Some (VStr "access") →
  get_current_user token = Raise (HTTPException 401 "Tipo de token inválido")
  ∧ ∀ principal, get_current_user token ≠ Ok principal.
Proof.
  intros Hdec Hty.
  assert (Hr : get_current_user token
               = Raise (HTTPException 401 "Tipo de token inválido")).
  { unfold get_current_user.
    by rewrite Hdec, (verify_token_type_false _ _ Hty). }
  split; [done|]. intros principal. by rewrite Hr.
Qed.



Lemma login_found (mail password : string) (now : Z) (st : db) (user : dict) :
  find_one [("email", CEq (VStr mail))] (usuarios st) = Some user →
  not_found (Some user) = false ∧ user !! "email" = Some (VStr mail).
Proof.
  intros [Hm _]%find_one_matches.
  unfold matches in Hm. simpl in Hm. rewrite andb_true_r in Hm.
  apply bool_decide_eq_true in Hm.
  assert (He : user !! "email" = Some (VStr mail)).
  { destruct (user !! "email"); simpl in *; by simplify_eq. }
  split; [|done]. simpl. apply bool_decide_eq_false.
  intros ->. by rewrite lookup_empty in He.
Qed.







End auth_properties.


Section users_properties.
Context `{!Externals}.
Import Mongo Users.

Lemma update_one_keeps (q : query) (fields : dict) (coll : list dict) (d : dict) :
  fields !! "_id" = None → fields !! "email" = None → d ∈ coll →
  ∃ d', d' ∈ update_one q fields coll ∧
        d' !! "_id" = d !! "_id" ∧ d' !! "email" = d !! "email".
Proof.
  intros Hid Hmail. induction coll as [|x coll IH]; intros Hin.
  - by apply elem_of_nil in Hin.
  - simpl. apply elem_of_cons in Hin as [->|Hin].
    + destruct (matches q x).
      * exists (fields ∪ x). split; [left|].
        by rewrite !lookup_union_r.
      * exists x. split; [left|done].
    + destruct (matches q x).
      * exists d. split; [by right|done].
      * destruct (IH Hin) as (d' & Hd' & ?). exists d'. split; [by right|done].
Qed.

Lemma delete_one_keeps (q : query) (coll : list dict) (d : dict) :
  d ∈ coll → d ∈ delete_one q coll ∨ find_one q coll = Some d.
Proof.
  induction coll as [|x coll IH]; intros Hin.
  - by apply elem_of_nil in Hin.
  - unfold find_one, find in *. simpl.
    apply elem_of_cons in Hin as [->|Hin].
    + destruct (matches q x); [by right | left; left].
    + destruct (matches q x); [by left; done|].
      destruct (IH Hin) as [?|?]; [left; by right | by right].
Qed.

Lemma keep_update (uid : value) (q : query) (fields : dict) (st : db) :
  fields !! "_id" = None → fields !! "email" = None →
  root_admin_stored uid st →
  root_admin_stored uid (set_usuarios (update_one q fields) st).
Proof.
  intros Hid Hmail (d & Hin & Hd_id & Hd_mail).
  destruct (update_one_keeps q fields (usuarios st) d Hid Hmail Hin)
    as (d' & Hin' & Hid' & Hmail').
  exists d'. simpl. by rewrite Hid', Hmail'.
Qed.

Lemma keep_insert (uid : value) (doc : dict) (st : db) :
  root_admin_stored uid st → root_admin_stored uid (insert_usuario doc st).
Proof.
  intros (d & Hin & ?). exists d. split; [|done].
  simpl. apply elem_of_app. by left.
Qed.

Lemma keep_delete (uid : value) (q : query) (st : db) (e : dict) :
  find_one q (usuarios st) = Some e →
  e !! "email" ≠ Some (VStr ROOT_ADMIN_EMAIL) →
  root_admin_stored uid st →
  root_admin_stored uid (set_usuarios (delete_one q) st).
Proof.
  intros Hf Hne (d & Hin & Hd_id & Hd_mail).
  destruct (delete_one_keeps q (usuarios st) d Hin) as [Hkept|Hgone].
  - by exists d.
  - rewrite Hf in Hgone. by simplify_eq.
Qed.

Lemma set_field_lookup_ne (k k' : string) (o : option value) (d : dict) :
  k ≠ k' → set_field k o d !! k' = d !! k'.
Proof. intros Hne. destruct o; simpl; [by rewrite lookup_insert_ne|done]. Qed.

Lemma delete_user_root (user_id : string) (cu : Auth.TokenData) (st : db)
    (existing : dict) :
  Bson.is_valid user_id = true →
  find_one (by_id user_id) (usuarios st) = Some existing →
  existing !! "email" = Some (VStr ROOT_ADMIN_EMAIL) →
  delete_user user_id cu st
  = (st, Raise (HTTPException 403
       "No se puede eliminar el usuario administrador principal")).
Proof.
  intros Hv Hf Hmail. unfold delete_user. rewrite Hv. run. rewrite Hf.
  assert (Hnf : not_found (Some existing) = false).
  { simpl. apply bool_decide_eq_false. intros ->.
    by rewrite lookup_empty in Hmail. }
  rewrite Hnf. simpl. unfold getitem. by rewrite Hmail.
Qed.

Lemma delete_user_keeps (uid : value) (user_id : string)
    (cu : Auth.TokenData) (st : db) :
  root_admin_stored uid st →
  root_admin_stored uid (delete_user user_id cu st).1.
Proof.
  intros Hroot. unfold delete_user.
  destruct (Bson.is_valid user_id); simpl; [|done]. run.
  destruct (find_one (by_id user_id) (usuarios st)) as [e|] eqn:Hf;
    simpl; [|done].
  case_bool_decide; simpl; [done|].
  unfold getitem. destruct (e !! "email") as [mail|] eqn:Hmail; simpl; [|done].
  unfold eq_str. case_bool_decide as Hroot_mail; simpl; [done|].
  destruct (e !! "_id") as [i|]; simpl; [|done].
  case_bool_decide; simpl; [done|].
  eapply keep_delete; [done| |done].
  rewrite Hmail. intros [= ->]. by apply Hroot_mail.
Qed.

Lemma serve_keeps (uid : value) (r : request) (st : db) :
  root_admin_stored uid st → root_admin_stored uid (serve r st).
Proof.
  intros Hroot. destruct r; simpl.
  - unfold AuthRouter.login, Security.verify_password,
      Security.create_access_token, Security.create_refresh_token,
      AuthRouter.validated, getitem. run.
    repeat (case_match; simplify_eq/=); try done;
      by apply keep_update.
  - unfold AuthRouter.change_password, Security.verify_password, getitem. run.
    repeat (case_match; simplify_eq/=); try done;
      by apply keep_update.
  - unfold create_user, AuthRouter.validated. run.
    repeat (case_match; simplify_eq/=); try done;
      by apply keep_insert.
  - unfold update_user, user_response, AuthRouter.validated, getitem. run.
    repeat (case_match; simplify_eq/=); try done;
      (apply keep_update; [..|done];
       by rewrite !set_field_lookup_ne).
  - by apply delete_user_keeps.
  - unfold reset_password, getitem. run.
    repeat (case_match; simplify_eq/=); try done;
      by apply keep_update.
  - unfold init_admin_user. run.
    repeat (case_match; simplify_eq/=); try done;
      by apply keep_insert.
Qed.

(** C9. The account of the root administrator is never hard-deleted:
    [delete_user] on an identifier whose account has the root
    administrator's email raises the 403 error and leaves the accounts
    collection as it was, for every caller; and whatever sequence of
    requests that write to the accounts collection is served, the root
    administrator's document is still stored afterwards. *)
Theorem root_admin_never_deleted :
  (∀ (user_id : string) (caller : Auth.TokenData) (st : db) (target : dict),
     Bson.is_valid user_id = true →
     find_one (by_id user_id) (usuarios st) = Some target →
     target !! "email" = Some (VStr "admin@residencia.cl") →
     delete_user user_id caller st
     = (st, Raise (HTTPException 403
          "No se puede eliminar el usuario administrador principal"))) ∧
  (∀ (requests : list request) (st : db) (uid : value),
     root_admin_stored uid st →
     root_admin_stored uid (serve_all requests st)).
Proof.
  split.
  - apply delete_user_root.
  - intros requests. unfold serve_all.
    induction requests as [|r rs IH]; intros st uid Hroot; simpl; [done|].
    apply IH. by apply serve_keeps.
Qed.

End users_properties.

Section validators_properties.
Context `{!UnicodeData}.
Import PyStr Validators.

Lemma upper_char_ascii (c : N) : is_ascii c → upper_char c = [fold_case c].
Proof.
  unfold is_ascii, upper_char, fold_case. intros Hc.
  assert ((c <? 256)%N = true) as -> by (apply N.ltb_lt; lia).
  destruct ((97 <=? c)%N && (c <=? 122)%N); [done|].
  repeat (case_match; try done);
    repeat match goal with
    | H : (_ =? _)%N = true |- _ => apply N.eqb_eq in H
    | H : _ && _ = true |- _ => apply andb_true_iff in H as [H ?]
    | H : (_ <=? _)%N = true |- _ => apply N.leb_le in H
    end; lia.
Qed.

Lemma upper_ascii (s : pystr) : Forall is_ascii s → upper s = map fold_case s.
Proof.
  unfold upper. induction 1 as [|c s Hc _ IH]; simpl; [done|].
  by rewrite (upper_char_ascii c Hc), IH.
Qed.

Lemma is_separator_fold_case (c : N) :
  is_separator (fold_case c) = is_separator c.
Proof.
  unfold is_separator, fold_case.
  destruct ((97 <=? c)%N && (c <=? 122)%N) eqn:Hc; [|done].
  apply andb_true_iff in Hc as [H1%N.leb_le H2%N.leb_le].
  assert ((c - 32 =? 46)%N = false) as -> by (apply N.eqb_neq; lia).
  assert ((c - 32 =? 45)%N = false) as -> by (apply N.eqb_neq; lia).
  assert ((c =? 46)%N = false) as -> by (apply N.eqb_neq; lia).
  by assert ((c =? 45)%N = false) as -> by (apply N.eqb_neq; lia).
Qed.

Lemma strip_fold_case (s : pystr) :
  remove_char 45 (remove_char 46 (map fold_case s))
  = map fold_case (List.filter (λ c, negb (is_separator c)) s).
Proof.
  unfold remove_char. induction s as [|c s IH]; simpl; [done|].
  rewrite <- (is_separator_fold_case c). unfold is_separator at 1.
  destruct (fold_case c =? 46)%N; simpl; [done|].
  destruct (fold_case c =? 45)%N; simpl; [done|]. by rewrite IH.
Qed.

Lemma filter_ascii (p : N → bool) (s : pystr) :
  Forall is_ascii s → Forall is_ascii (List.filter p s).
Proof.
  induction 1 as [|c s Hc _ IH]; simpl; [done|].
  destruct (p c); [by constructor|done].
Qed.

Lemma weight_next (i : nat) :
  weight (S i) = if weight i <? 7 then weight i + 1 else 2.
Proof.
  unfold weight. rewrite Nat2Z.inj_succ.
  pose proof (Z.mod_pos_bound (Z.of_nat i) 6 ltac:(lia)) as Hb.
  pose proof (Z.div_mod (Z.of_nat i) 6 ltac:(lia)) as Hd.
  destruct (Z.ltb_spec (2 + Z.of_nat i mod 6) 7) as [Hlt|Hge].
  - assert (Z.succ (Z.of_nat i) mod 6 = Z.of_nat i mod 6 + 1) as ->; [|lia].
    symmetry. apply (Z.mod_unique_pos _ _ (Z.of_nat i / 6)); lia.
  - assert (Z.succ (Z.of_nat i) mod 6 = 0) as ->; [|lia].
    symmetry. apply (Z.mod_unique_pos _ _ (Z.of_nat i / 6 + 1)); lia.
Qed.

Lemma digit_char_ascii (c : N) :
  is_ascii c →
  match ascii_digit c with
  | Some v => isdigit_char (fold_case c) = true ∧ int_char (fold_case c) = Ok v
  | None => isdigit_char (fold_case c) = false
  end.
Proof.
  unfold is_ascii, ascii_digit, isdigit_char, int_char, fold_case. intros Hc.
  destruct ((48 <=? c)%N && (c <=? 57)%N) eqn:Hd.
  - apply andb_true_iff in Hd as [H1%N.leb_le H2%N.leb_le].
    assert ((97 <=? c)%N = false) as -> by (apply N.leb_gt; lia). simpl.
    assert ((c <? 256)%N = true) as -> by (apply N.ltb_lt; lia).
    assert ((48 <=? c)%N = true) as -> by (by apply N.leb_le).
    by assert ((c <=? 57)%N = true) as -> by (by apply N.leb_le).
  - destruct ((97 <=? c)%N && (c <=? 122)%N) eqn:Hl.
    + apply andb_true_iff in Hl as [H1%N.leb_le H2%N.leb_le].
      assert ((c - 32 <? 256)%N = true) as -> by (apply N.ltb_lt; lia).
      assert ((c - 32 <=? 57)%N = false) as -> by (apply N.leb_gt; lia).
      rewrite andb_false_r. simpl.
      repeat (apply orb_false_iff; split); apply N.eqb_neq; lia.
    + assert ((c <? 256)%N = true) as -> by (apply N.ltb_lt; lia).
      rewrite Hd. simpl.
      repeat (apply orb_false_iff; split); apply N.eqb_neq; lia.
Qed.

Lemma body_digits (body : pystr) (suma : Z) (i : nat) :
  Forall is_ascii body →
  match mapM ascii_digit body with
  | Some digits =>
      forallb isdigit_char (map fold_case body) = true ∧
      suma_loop (map fold_case body) suma (weight i)
      = Ok (suma + weighted_sum i digits)
  | None => forallb isdigit_char (map fold_case body) = false
  end.
Proof.
  intros Hb. revert suma i.
  induction Hb as [|c body Hc _ IH]; intros suma i; simpl.
  - split; [done|]. f_equal. lia.
  - pose proof (digit_char_ascii c Hc) as Hd.
    destruct (ascii_digit c) as [v|]; simpl.
    + destruct Hd as [Hd Hv]. rewrite Hd, Hv. simpl.
      specialize (IH (suma + v * weight i) (S i)).
      destruct (mapM ascii_digit body) as [digits|]; simpl.
      * destruct IH as [IHd IHs]. split; [done|].
        rewrite <- weight_next, IHs. f_equal. lia.
      * done.
    + by rewrite Hd.
Qed.

Lemma forallb_rev {A} (p : A → bool) (l : list A) :
  forallb p (rev l) = forallb p l.
Proof.
  induction l as [|x l IH]; simpl; [done|].
  rewrite forallb_app, IH. simpl. rewrite andb_true_r. apply andb_comm.
Qed.

Lemma dv_of_check_digit (suma : Z) (dv : N) :
  bool_decide ([dv] = dv_of (11 - suma mod 11))
  = bool_decide (dv = (let r := 11 - suma mod 11 in
                       if r =? 11 then 48%N else if r =? 10 then 75%N
                       else (48 + Z.to_N r)%N)).
Proof.
  pose proof (Z.mod_pos_bound suma 11 ltac:(lia)) as Hb.
  unfold dv_of. simpl.
  assert (Hr : ∃ r, r = 11 - suma mod 11 ∧ 1 ≤ r ≤ 11) by (eexists; split; [done|lia]).
  destruct Hr as (r & <- & Hr).
  assert (r = 1 ∨ r = 2 ∨ r = 3 ∨ r = 4 ∨ r = 5 ∨ r = 6 ∨ r = 7 ∨ r = 8
          ∨ r = 9 ∨ r = 10 ∨ r = 11) as Hcases by lia.
  destruct_or!; subst r; simpl; apply bool_decide_ext;
    (split; [by intros [= ->] | by intros ->]).
Qed.

Lemma validate_rut_chile_ascii (rut : pystr) :
  Forall is_ascii rut →
  validate_rut_chile rut = Ok (rut_checksum_spec rut).
Proof.
  intros Hascii. unfold validate_rut_chile, rut_checksum_spec.
  destruct rut as [|c0 rut0]; [done|].
  rewrite bool_decide_eq_false_2 by done.
  set (rut := c0 :: rut0) in *.
  rewrite (upper_ascii rut Hascii), strip_fold_case.
  pose proof (filter_ascii (λ c, negb (is_separator c)) rut Hascii) as Hs.
  set (s := List.filter (λ c, negb (is_separator c)) rut) in *.
  clearbody s. clear Hascii.
  assert (Hrev : s = rev (rev s)) by (by rewrite rev_involutive).
  destruct (rev s) as [|dv [|b bs]]; simpl in Hrev; subst s; [done|done|].
  replace (rev ((rev bs ++ [b]) ++ [dv])) with (dv :: b :: bs)
    by (by rewrite !rev_app_distr, rev_involutive).
  lazy beta iota.
  rewrite (map_app _ _ [dv]). simpl (map fold_case [dv]).
  set (cuerpo := map fold_case (rev bs ++ [b])).
  assert (Hlen : (length (cuerpo ++ [fold_case dv]) <? 2)%nat = false).
  { apply Nat.ltb_ge. unfold cuerpo.
    rewrite !length_app, length_map, length_app. simpl. lia. }
  rewrite Hlen, removelast_last.
  replace (length (cuerpo ++ [fold_case dv]) - 1)%nat
    with (length cuerpo + 0)%nat by (rewrite length_app; simpl; lia).
  rewrite drop_app_add. simpl (drop 0 _).
  assert (Hcuerpo : cuerpo = rev (map fold_case (b :: bs))).
  { unfold cuerpo. simpl. by rewrite map_app, map_rev. }
  rewrite Hcuerpo. unfold isdigit. rewrite forallb_rev, rev_involutive.
  rewrite (bool_decide_eq_false_2 (rev _ = []));
    [change (negb false) with true; rewrite andb_true_l|].
  2:{ simpl. intros Hnil. by apply app_eq_nil in Hnil as [_ [=]]. }
  assert (Hbody : Forall is_ascii (b :: bs)).
  { rewrite !Forall_app in Hs. destruct Hs as [[Hbs Hb] _].
    constructor; [by eapply Forall_inv|].
    apply Forall_rev in Hbs. by rewrite rev_involutive in Hbs. }
  pose proof (body_digits (b :: bs) 0 0 Hbody) as Hd.
  change (weight 0) with 2 in Hd.
  destruct (mapM ascii_digit (b :: bs)) as [digits|].
  - destruct Hd as [Hd Hsum]. rewrite Hd, Hsum. simpl. f_equal.
    apply dv_of_check_digit.
  - by rewrite Hd.
Qed.

(** C7. [validate_rut_chile] is the RUT checksum: on every string of
    ASCII characters it answers as the checksum worded in the
    specification does (separators stripped, body digits weighted 2 to 7
    from the least significant one, [11 - sum mod 11] mapped to the check
    digit with 11 as ['0'] and 10 as ['K'], compared without regard to
    case); the empty string and ["12345678-5"] are valid and
    ["12345678-0"] is not. *)
Theorem validate_rut_chile_checksum :
  (∀ rut : pystr,
     Forall (λ c, (c < 128)%N) rut →
     validate_rut_chile rut = Ok (rut_checksum_spec rut)) ∧
  validate_rut_chile (of_string "") = Ok true ∧
  validate_rut_chile (of_string "12345678-5") = Ok true ∧
  validate_rut_chile (of_string "12345678-0") = Ok false.
Proof.
  split; [apply validate_rut_chile_ascii|].
  rewrite !validate_rut_chile_ascii
    by (repeat constructor; unfold is_ascii; simpl; lia).
  by vm_compute.
Qed.

(** C8. [validate_rut_chile] is not total: [isdigit] accepts the
    superscript two (U+00B2), which [int] rejects, so on the two
    characters U+00B2 "5" the body passes the [isdigit] guard and the loop
    raises [ValueError]. *)
Theorem validate_rut_chile_raises :
  isdigit [178%N] = true ∧
  int_char 178 = Raise ValueError ∧
  validate_rut_chile [178%N; 53%N] = Raise ValueError.
Proof. by split_and!. Qed.

End validators_properties.

Section date_properties.
Import Dates.

Lemma days_before_month_succ y m :
  1 ≤ m → days_before_month y (m + 1) = days_before_month y m + days_in_month y m.
Proof.
  intros Hm. unfold days_before_month.
  replace (Z.to_nat (m + 1 - 1)) with (S (Z.to_nat (m - 1))) by lia.
  simpl days_before_month_aux. do 2 f_equal. lia.
Qed.

Lemma div_pred_4 y : (y - 1) / 4 = y / 4 - (if y mod 4 =? 0 then 1 else 0).
Proof. destruct (Z.eqb_spec (y mod 4) 0); Z.to_euclidean_division_equations; lia. Qed.

Lemma div_pred_100 y :
  (y - 1) / 100 = y / 100 - (if y mod 100 =? 0 then 1 else 0).
Proof. destruct (Z.eqb_spec (y mod 100) 0); Z.to_euclidean_division_equations; lia. Qed.

Lemma div_pred_400 y :
  (y - 1) / 400 = y / 400 - (if y mod 400 =? 0 then 1 else 0).
Proof. destruct (Z.eqb_spec (y mod 400) 0); Z.to_euclidean_division_equations; lia. Qed.

Lemma days_before_december y :
  days_before_month y 12 = if is_leap y then 335 else 334.
Proof.
  unfold days_before_month. change (Z.to_nat (12 - 1)) with 11%nat.
  cbn [days_before_month_aux]. unfold days_in_month.
  destruct (is_leap y); reflexivity.
Qed.

Lemma year_length y :
  days_before_year (y + 1) = days_before_year y + days_before_month y 12 + 31.
Proof.
  rewrite days_before_december. unfold days_before_year.
  replace (y + 1 - 1) with y by lia.
  rewrite div_pred_4, div_pred_100, div_pred_400.
  unfold is_leap.
  assert (H4 : y mod 100 = 0 → y mod 4 = 0).
  { intros H. rewrite <- (Z.mod_mod_divide y 100 4) by (by exists 25).
    by rewrite H. }
  assert (H100 : y mod 400 = 0 → y mod 100 = 0).
  { intros H. rewrite <- (Z.mod_mod_divide y 400 100) by (by exists 4).
    by rewrite H. }
  destruct (Z.eqb_spec (y mod 4) 0) as [E4|E4],
    (Z.eqb_spec (y mod 100) 0) as [E100|E100],
    (Z.eqb_spec (y mod 400) 0) as [E400|E400]; cbn [andb orb negb];
    first [lia | tauto].
Qed.

Lemma next_day_in_calendar d : in_calendar d → in_calendar (next_day d).
Proof.
  unfold in_calendar, next_day. intros [Hm Hd].
  destruct (Z.ltb_spec (day d) (days_in_month (year d) (month d))); simpl; [lia|].
  destruct (Z.ltb_spec (month d) 12); simpl.
  - split; [lia|]. unfold days_in_month. repeat case_match; lia.
  - split; [lia|]. done.
Qed.

Lemma toordinal_next_day d :
  in_calendar d → toordinal (next_day d) = toordinal d + 1.
Proof.
  unfold in_calendar, next_day, toordinal. intros [Hm Hd].
  destruct (Z.ltb_spec (day d) (days_in_month (year d) (month d))); simpl; [lia|].
  destruct (Z.ltb_spec (month d) 12); simpl.
  - rewrite days_before_month_succ by lia. lia.
  - assert (month d = 12) as Hm12 by lia. rewrite Hm12 in *.
    rewrite year_length. unfold days_before_month at 2. simpl.
    change (days_in_month (year d) 12) with 31 in *. lia.
Qed.

Lemma toordinal_iter d n :
  in_calendar d →
  in_calendar (Nat.iter n next_day d) ∧
  toordinal (Nat.iter n next_day d) = toordinal d + Z.of_nat n.
Proof.
  intros Hd. induction n as [|n [IHc IHo]]; simpl.
  - split; [done|lia].
  - split; [by apply next_day_in_calendar|].
    rewrite toordinal_next_day by done. lia.
Qed.

Lemma add_days_days_between (today fecha : date) (n : nat) :
  in_calendar today → add_days today n = Ok fecha →
  days_between fecha today = Z.of_nat n.
Proof.
  intros Hc. unfold add_days, days_between.
  destruct (toordinal_iter today n Hc) as [_ Ho].
  destruct (year (Nat.iter n next_day today) <=? 9999); [|done].
  intros [= <-]. lia.
Qed.

End date_properties.

Section alert_properties.
Import Mongo Alertas Juridico.

(* The date arithmetic stays folded while the handlers are unfolded. *)
Opaque Dates.add_days.

Lemma matches_alerta_existente (entidad_tipo id tipo : string) (d : dict) :
  matches (alerta_existente entidad_tipo id tipo) d = true ↔
  d !! "entidad_tipo" = Some (VStr entidad_tipo) ∧
  d !! "entidad_id" = Some (VStr id) ∧
  d !! "tipo" = Some (VStr tipo) ∧
  (d !! "estado" = Some (VStr "activa") ∨
   d !! "estado" = Some (VStr "en_proceso")).
Proof.
  unfold matches, alerta_existente. simpl.
  rewrite !andb_true_iff, !bool_decide_eq_true.
  rewrite !elem_of_cons, elem_of_nil.
  destruct (d !! "entidad_tipo"), (d !! "entidad_id"), (d !! "tipo"),
    (d !! "estado"); simpl; intuition congruence.
Qed.

Lemma not_found_find_one (q : query) (coll : list dict) :
  (∀ d, matches q d = true → d ≠ ∅) →
  not_found (find_one q coll) = negb (existsb (matches q) coll).
Proof.
  intros Hq. unfold find_one, find.
  induction coll as [|d coll IH]; simpl; [done|].
  destruct (matches q d) eqn:Hm; simpl; [|done].
  apply bool_decide_eq_false. by apply Hq.
Qed.

Lemma find_one_alerta (entidad_tipo id tipo : string) (coll : list dict) :
  not_found (find_one (alerta_existente entidad_tipo id tipo) coll)
  = negb (existsb (matches (alerta_existente entidad_tipo id tipo)) coll).
Proof.
  apply not_found_find_one. intros d Hm ->.
  apply matches_alerta_existente in Hm as (Hm & _).
  by rewrite lookup_empty in Hm.
Qed.

Lemma crece_refl (st : db) : crece st st 0.
Proof. repeat split. exists []. by rewrite app_nil_r. Qed.

Lemma crece_trans (st1 st2 st3 : db) (n m : Z) :
  crece st1 st2 n → crece st2 st3 m → crece st1 st3 (n + m).
Proof.
  intros (? & ? & ? & ? & ? & l1 & Hl1 & <-) (? & ? & ? & ? & ? & l2 & Hl2 & <-).
  repeat split; try congruence.
  exists (l1 ++ l2). rewrite Hl2, Hl1, <- app_assoc. split; [done|].
  rewrite length_app. lia.
Qed.

Lemma crece_insert (doc : dict) (st : db) : crece st (insert_alerta doc st) 1.
Proof. repeat split. by eexists [_]. Qed.

Lemma cubierta_crece (entidad_tipo tipo : string) (st st' : db) (n : Z)
    (c : dict) :
  crece st st' n → cubierta entidad_tipo tipo st c →
  cubierta entidad_tipo tipo st' c.
Proof.
  intros (_ & _ & _ & _ & _ & l & Hl & _) (id & Hid & Hex).
  exists id. split; [done|]. by rewrite Hl, existsb_app, Hex.
Qed.

Lemma cubierta_insert (entidad_tipo tipo : string) (st : db) (c doc : dict)
    (id : value) :
  c !! "_id" = Some id →
  matches (alerta_existente entidad_tipo (Bson.str id) tipo)
          (<["_id" := VOid (next_oid st)]> doc) = true →
  cubierta entidad_tipo tipo (insert_alerta doc st) c.
Proof.
  intros Hid Hm. exists id. split; [done|].
  unfold insert_alerta. cbn [alertas].
  rewrite existsb_app. cbn [existsb]. by rewrite Hm, orb_true_r.
Qed.

Section loops.
Variables (entidad_tipo tipo : string) (body : dict → handler bool).
Hypothesis Hbody : deduplica entidad_tipo tipo body.

Lemma for_each_cubiertas (cs : list dict) (n : Z) (st : db) :
  Forall (cubierta entidad_tipo tipo st) cs →
  for_each body cs n st = (st, Ok n).
Proof.
  revert n. induction cs as [|c cs IH]; intros n Hcs; simpl; [done|].
  apply Forall_cons in Hcs as [Hc Hcs]. run.
  rewrite (dedup_omite _ _ _ Hbody c st Hc). by apply IH.
Qed.

Lemma for_each_crece (cs : list dict) (n m : Z) (st st' : db) :
  for_each body cs n st = (st', Ok m) →
  crece st st' (m - n) ∧ Forall (cubierta entidad_tipo tipo st') cs.
Proof.
  revert n st. induction cs as [|c cs IH]; intros n st; simpl.
  - run. intros [= -> ->]. rewrite Z.sub_diag. split; [apply crece_refl|done].
  - run. destruct (body c st) as [st1 [b|e]] eqn:Hstep; simpl; [|done].
    intros Hrest. destruct (dedup_paso _ _ _ Hbody c st st1 b Hstep) as [Hc Hg].
    destruct (IH _ _ Hrest) as [Hg' Hcs].
    split.
    + replace (m - n) with ((if b then 1 else 0)
                            + (m - (if b then n + 1 else n)))
        by (destruct b; lia).
      by eapply crece_trans.
    + constructor; [|done]. by eapply cubierta_crece.
Qed.

Lemma for_each_returns (I : db → Prop) (cs : list dict) :
  (∀ st st' n, I st → crece st st' n → I st') →
  (∀ c st, c ∈ cs → I st → ∃ st' b, body c st = (st', Ok b)) →
  ∀ n st, I st → ∃ st' m, for_each body cs n st = (st', Ok m).
Proof.
  intros HI. induction cs as [|c cs IH]; intros Htotal n st Hst; simpl.
  - by exists st, n.
  - destruct (Htotal c st) as (st1 & b & Hstep); [by left|done|].
    run. rewrite Hstep.
    destruct (dedup_paso _ _ _ Hbody c st st1 b Hstep) as [_ Hg].
    apply IH; [|by eapply HI].
    intros c' st' Hc'. apply Htotal. by right.
Qed.

End loops.

Lemma nna_nombre_state (ref : value) (st st' : db) (r : result string) :
  nna_nombre ref st = (st', r) → st' = st.
Proof.
  unfold nna_nombre, getitem. run.
  repeat (case_match; simplify_eq/=); by intros [= <- _].
Qed.

Ltac step_cases :=
  repeat match goal with
  | |- context [nna_nombre ?ref ?st] =>
      let E := fresh "Hnombre" in
      destruct (nna_nombre ref st) as [? [?|?]] eqn:E;
      apply nna_nombre_state in E as ?; subst; simpl
  | _ => case_match; simplify_eq/=
  end.

Lemma alerta_seguimiento_deduplica (user : Auth.TokenData) (now : Z) :
  deduplica "intervencion" "seguimiento_pendiente"
    (alerta_seguimiento user now).
Proof.
  split.
  - intros c st (id & Hid & Hex). unfold alerta_seguimiento, getitem. run.
    by rewrite Hid; simpl; rewrite find_one_alerta, Hex.
  - intros c st st' b. unfold alerta_seguimiento, getitem. run.
    destruct (c !! "_id") as [id|] eqn:Hid; simpl; [|done].
    rewrite find_one_alerta.
    destruct (existsb _ (alertas st)) eqn:Hex; simpl.
    + intros ?; simplify_eq. split; [by exists id|apply crece_refl].
    + step_cases; try done. intros ?; simplify_eq.
      split; [|apply crece_insert].
      eapply cubierta_insert; [done|].
      apply matches_alerta_existente.
      split_and!; [idtac .. | left]; by simplify_map_eq.
Qed.

Lemma alerta_taller_deduplica (user : Auth.TokenData) (now : Z) :
  deduplica "taller" "taller_proximo" (alerta_taller user now).
Proof.
  split.
  - intros c st (id & Hid & Hex). unfold alerta_taller, getitem. run.
    by rewrite Hid; simpl; rewrite find_one_alerta, Hex.
  - intros c st st' b. unfold alerta_taller, getitem. run.
    destruct (c !! "_id") as [id|] eqn:Hid; simpl; [|done].
    rewrite find_one_alerta.
    destruct (existsb _ (alertas st)) eqn:Hex; simpl.
    + intros ?; simplify_eq. split; [by exists id|apply crece_refl].
    + step_cases; try done. intros ?; simplify_eq.
      split; [|apply crece_insert].
      eapply cubierta_insert; [done|].
      apply matches_alerta_existente.
      split_and!; [idtac .. | left]; by simplify_map_eq.
Qed.

Lemma alerta_medida_deduplica (user : Auth.TokenData) (today : Dates.date)
    (now : Z) :
  deduplica "medida_judicial" "vencimiento_plazo"
    (alerta_medida user today now).
Proof.
  split.
  - intros c st (id & Hid & Hex). unfold alerta_medida, getitem. run.
    by rewrite Hid; simpl; rewrite find_one_alerta, Hex.
  - intros c st st' b. unfold alerta_medida, getitem. run.
    destruct (c !! "_id") as [id|] eqn:Hid; simpl; [|done].
    rewrite find_one_alerta.
    destruct (existsb _ (alertas st)) eqn:Hex; simpl.
    + intros ?; simplify_eq. split; [by exists id|apply crece_refl].
    + step_cases; try done. intros ?; simplify_eq.
      split; [|apply crece_insert].
      eapply cubierta_insert; [done|].
      apply matches_alerta_existente.
      split_and!; [idtac .. | left]; by simplify_map_eq.
Qed.

Lemma crece_residentes (st st' : db) (n : Z) :
  residentes_con_nombre st → crece st st' n → residentes_con_nombre st'.
Proof.
  unfold residentes_con_nombre. by intros Hst (_ & -> & _).
Qed.

Lemma nna_nombre_returns (ref : value) (o : option N) (st : db) :
  residentes_con_nombre st → Bson.ObjectId ref = Ok o →
  ∃ nombre, nna_nombre ref st = (st, Ok nombre).
Proof.
  intros Hst Ho. unfold nna_nombre. run. rewrite Ho. simpl.
  set (found := match o with
                | Some i => find_one [("_id", CEq (VOid i))] (nna st)
                | None => None
                end).
  destruct (not_found found) eqn:Hnf; simpl; [by eexists|].
  destruct found as [d|] eqn:Hfound; [|done].
  assert (Hd : d ∈ nna st).
  { unfold found in Hfound. destruct o; [|done].
    by apply find_one_matches in Hfound as [_ ?]. }
  unfold residentes_con_nombre in Hst. rewrite Forall_forall in Hst.
  destruct (Hst d Hd) as [[nombre Hn] [apellido Ha]]. clear found Hfound.
  simpl. unfold getitem. rewrite Hn, Ha. simpl. by eexists.
Qed.

Lemma nna_nombre_fallback (ref : value) (o : option N) (st : db) :
  Bson.ObjectId ref = Ok o →
  (o ≫= λ i, find_one [("_id", CEq (VOid i))] (nna st)) = None →
  nna_nombre ref st = (st, Ok "NNA").
Proof.
  intros Ho Hnone. unfold nna_nombre. run. rewrite Ho. simpl.
  destruct o as [i|]; simpl in *; [by rewrite Hnone|done].
Qed.

Lemma alerta_seguimiento_returns (user : Auth.TokenData) (now : Z)
    (c : dict) (st : db) :
  residentes_con_nombre st → seguimiento_procesable c →
  ∃ st' b, alerta_seguimiento user now c st = (st', Ok b).
Proof.
  intros Hst ([id Hid] & [fecha Hfecha] & (ref & o & Href & Ho)).
  destruct (nna_nombre_returns ref o st Hst Ho) as [nombre Hnombre].
  unfold alerta_seguimiento, getitem. run. rewrite Hid. simpl.
  destruct (not_found _); simpl; [|by eexists _, _].
  rewrite Href. simpl. rewrite Hnombre, Hfecha. simpl. by eexists _, _.
Qed.

Lemma alerta_taller_returns (user : Auth.TokenData) (now : Z)
    (c : dict) (st : db) :
  taller_procesable c →
  ∃ st' b, alerta_taller user now c st = (st', Ok b).
Proof.
  intros ([id Hid] & [nombre Hnombre] & [fecha Hfecha]).
  unfold alerta_taller, getitem. run. rewrite Hid. simpl.
  destruct (not_found _); simpl; [|by eexists _, _].
  rewrite Hnombre, Hfecha. simpl. by eexists _, _.
Qed.

Lemma alerta_medida_returns (user : Auth.TokenData) (today : Dates.date)
    (now : Z) (c : dict) (st : db) :
  residentes_con_nombre st → medida_procesable c →
  ∃ st' b, alerta_medida user today now c st = (st', Ok b).
Proof.
  intros Hst ([id Hid] & (ref & o & Href & Ho) & (termino & fecha & Ht & Hf)).
  destruct (nna_nombre_returns ref o st Hst Ho) as [nombre Hnombre].
  unfold alerta_medida, getitem. run. rewrite Hid. simpl.
  destruct (not_found _); simpl; [|by eexists _, _].
  rewrite Href. simpl. rewrite Hnombre, Ht. simpl. rewrite Hf. simpl.
  by eexists _, _.
Qed.

Lemma seguimientos_por_vencer_crece (hoy limite : Dates.date) (st st' : db)
    (n : Z) :
  crece st st' n →
  seguimientos_por_vencer hoy limite st' = seguimientos_por_vencer hoy limite st.
Proof. unfold seguimientos_por_vencer. by intros (_ & _ & -> & _). Qed.

Lemma talleres_proximos_crece (hoy limite : Dates.date) (st st' : db) (n : Z) :
  crece st st' n →
  talleres_proximos hoy limite st' = talleres_proximos hoy limite st.
Proof. unfold talleres_proximos. by intros (_ & _ & _ & -> & _). Qed.

Lemma medidas_por_vencer_crece (hoy limite : Dates.date) (st st' : db) (n : Z) :
  crece st st' n →
  medidas_por_vencer hoy limite st' = medidas_por_vencer hoy limite st.
Proof. unfold medidas_por_vencer. by intros (_ & _ & _ & _ & -> & _). Qed.

(** What a completed run of the follow-up and workshop generator leaves. *)
Lemma generar_alertas_vencimientos_run (user : Auth.TokenData)
    (today : Dates.date) (now : Z) (st st1 : db) (r1 : respuesta) :
  generar_alertas_vencimientos user today now st = (st1, Ok r1) →
  ∃ limite,
    Dates.add_days today 7 = Ok limite ∧
    crece st st1 (alertas_creadas r1) ∧
    Forall (cubierta "intervencion" "seguimiento_pendiente" st1)
           (seguimientos_por_vencer today limite st) ∧
    Forall (cubierta "taller" "taller_proximo" st1)
           (talleres_proximos today limite st).
Proof.
  unfold generar_alertas_vencimientos. run.
  destruct (Dates.add_days today 7) as [limite|]; simpl; [|done].
  destruct (for_each (alerta_seguimiento user now) _ 0 st)
    as [sta [n1|]] eqn:H1; simpl; [|done].
  destruct (for_each (alerta_taller user now) _ n1 sta)
    as [stb [n2|]] eqn:H2; simpl; [|done].
  intros ?; simplify_eq.
  apply (for_each_crece _ _ _ (alerta_seguimiento_deduplica user now))
    in H1 as [Hg1 Hc1].
  apply (for_each_crece _ _ _ (alerta_taller_deduplica user now))
    in H2 as [Hg2 Hc2].
  rewrite (talleres_proximos_crece _ _ _ _ _ Hg1) in Hc2.
  exists limite. split_and!; [done| | |done].
  - simpl. replace n2 with ((n1 - 0) + (n2 - n1)) by lia.
    by eapply crece_trans.
  - eapply Forall_impl; [exact Hc1|].
    intros c. by apply cubierta_crece with (n2 - n1).
Qed.

Lemma generar_alertas_vencimiento_run (user : Auth.TokenData)
    (today : Dates.date) (now : Z) (st st1 : db) (r1 : respuesta) :
  generar_alertas_vencimiento user today now st = (st1, Ok r1) →
  ∃ limite,
    Dates.add_days today 30 = Ok limite ∧
    crece st st1 (alertas_creadas r1) ∧
    Forall (cubierta "medida_judicial" "vencimiento_plazo" st1)
           (medidas_por_vencer today limite st).
Proof.
  unfold generar_alertas_vencimiento. run.
  destruct (Dates.add_days today 30) as [limite|]; simpl; [|done].
  destruct (for_each (alerta_medida user today now) _ 0 st)
    as [sta [n1|]] eqn:H1; simpl; [|done].
  intros ?; simplify_eq.
  apply (for_each_crece _ _ _ (alerta_medida_deduplica user today now))
    in H1 as [Hg1 Hc1].
  exists limite. split_and!; [done| |done].
  simpl. by rewrite Z.sub_0_r in Hg1.
Qed.

(** C4, amended. When a run of a generator completes, a second run on the
    same day over the data it left (by any principal, at any clock time)
    inserts no alert, leaves the store as it is and answers
    [alertas_creadas = 0]; the first run added exactly the alerts it
    counted. *)
Theorem generadores_idempotentes (user user' : Auth.TokenData)
    (today : Dates.date) (now now' : Z) (st st1 : db) (r1 : respuesta) :
  (generar_alertas_vencimientos user today now st = (st1, Ok r1) →
   crece st st1 (alertas_creadas r1) ∧
   generar_alertas_vencimientos user' today now' st1
   = (st1, Ok (mk_respuesta "Se generaron 0 alertas automáticas" 0))) ∧
  (generar_alertas_vencimiento user today now st = (st1, Ok r1) →
   crece st st1 (alertas_creadas r1) ∧
   generar_alertas_vencimiento user' today now' st1
   = (st1, Ok (mk_respuesta "Se generaron 0 alertas de vencimiento" 0))).
Proof.
  split; intros Hrun.
  - apply generar_alertas_vencimientos_run in Hrun
      as (limite & Hlim & Hg & Hc1 & Hc2).
    split; [done|].
    unfold generar_alertas_vencimientos. run. rewrite Hlim. simpl.
    rewrite (seguimientos_por_vencer_crece _ _ _ _ _ Hg).
    rewrite (for_each_cubiertas _ _ _ (alerta_seguimiento_deduplica user' now'))
      by done.
    rewrite (talleres_proximos_crece _ _ _ _ _ Hg).
    by rewrite (for_each_cubiertas _ _ _ (alerta_taller_deduplica user' now'))
      by done.
  - apply generar_alertas_vencimiento_run in Hrun as (limite & Hlim & Hg & Hc).
    split; [done|].
    unfold generar_alertas_vencimiento. run. rewrite Hlim. simpl.
    rewrite (medidas_por_vencer_crece _ _ _ _ _ Hg).
    by rewrite (for_each_cubiertas _ _ _
                  (alerta_medida_deduplica user' today now')) by done.
Qed.

Lemma prioridad_vencimiento_thresholds (dias : Z) :
  (dias ≤ 7 → prioridad_vencimiento dias = "critica") ∧
  (8 ≤ dias ≤ 15 → prioridad_vencimiento dias = "alta") ∧
  (15 < dias → prioridad_vencimiento dias = "media").
Proof.
  unfold prioridad_vencimiento.
  destruct (Z.leb_spec dias 7), (Z.leb_spec dias 15); split_and!; intros;
    first [done | lia].
Qed.

Lemma prioridad_seguimiento_cases (interv : dict) :
  (interv !! "prioridad" = Some (VStr "urgente") ∧
   prioridad_seguimiento interv = "alta") ∨
  (interv !! "prioridad" ≠ Some (VStr "urgente") ∧
   prioridad_seguimiento interv = "media").
Proof.
  unfold prioridad_seguimiento, eq_str, get.
  destruct (decide (interv !! "prioridad" = Some (VStr "urgente"))) as [He|Hne].
  - left. by rewrite He.
  - right. split; [done|]. rewrite bool_decide_eq_false_2; [done|].
    intros Hv. apply Hne.
    destruct (interv !! "prioridad"); simpl in *; by simplify_eq.
Qed.

(** C6, amended. A candidate whose resident link does not resolve does
    not abort the batch: the title falls back to the name "NNA". The run
    goes through all the candidates, leaves each with a live alert and
    answers with the number of alerts it inserted, when the limit date is
    representable, every candidate has the fields the generator
    subscripts and a resident link that [ObjectId] accepts, resolving or
    not, every stored resident has [nombre] and [apellido], and the
    [fecha_termino] of every measure parses as a date. *)
Theorem residente_ausente_no_aborta (user : Auth.TokenData)
    (today : Dates.date) (now : Z) (st : db) :
  (∀ ref o,
     Bson.ObjectId ref = Ok o →
     (o ≫= λ i, find_one [("_id", CEq (VOid i))] (nna st)) = None →
     nna_nombre ref st = (st, Ok "NNA")) ∧
  (∀ limite,
     Dates.add_days today 7 = Ok limite →
     residentes_con_nombre st →
     Forall seguimiento_procesable (seguimientos_por_vencer today limite st) →
     Forall taller_procesable (talleres_proximos today limite st) →
     ∃ st' r,
       generar_alertas_vencimientos user today now st = (st', Ok r) ∧
       crece st st' (alertas_creadas r) ∧
       Forall (cubierta "intervencion" "seguimiento_pendiente" st')
              (seguimientos_por_vencer today limite st) ∧
       Forall (cubierta "taller" "taller_proximo" st')
              (talleres_proximos today limite st)) ∧
  (∀ limite,
     Dates.add_days today 30 = Ok limite →
     residentes_con_nombre st →
     Forall medida_procesable (medidas_por_vencer today limite st) →
     ∃ st' r,
       generar_alertas_vencimiento user today now st = (st', Ok r) ∧
       crece st st' (alertas_creadas r) ∧
       Forall (cubierta "medida_judicial" "vencimiento_plazo" st')
              (medidas_por_vencer today limite st)).
Proof.
  split_and!.
  - intros ref o. apply nna_nombre_fallback.
  - intros limite Hlim Hnna Hseg Htal.
    assert (∃ st' r, generar_alertas_vencimientos user today now st
                     = (st', Ok r)) as (st' & r & Hrun).
    { unfold generar_alertas_vencimientos. run. rewrite Hlim. simpl.
      destruct (for_each_returns _ _ _ (alerta_seguimiento_deduplica user now)
                  residentes_con_nombre
                  (seguimientos_por_vencer today limite st)
                  crece_residentes) with (n := 0) (st := st)
        as (sta & n1 & H1); [|done|].
      { intros c st0 Hc Hst0. apply alerta_seguimiento_returns; [done|].
        rewrite Forall_forall in Hseg. by apply Hseg. }
      rewrite H1. simpl.
      apply (for_each_crece _ _ _ (alerta_seguimiento_deduplica user now))
        in H1 as [Hg1 _].
      rewrite (talleres_proximos_crece _ _ _ _ _ Hg1).
      destruct (for_each_returns _ _ _ (alerta_taller_deduplica user now)
                  (λ _, True) (talleres_proximos today limite st))
        with (n := n1) (st := sta) as (stb & n2 & H2); [done| |done|].
      { intros c st0 Hc _. apply alerta_taller_returns.
        rewrite Forall_forall in Htal. by apply Htal. }
      rewrite H2. simpl. by eexists _, _. }
    exists st', r. split; [done|].
    apply generar_alertas_vencimientos_run in Hrun
      as (limite' & Hlim' & Hg & Hc1 & Hc2).
    rewrite Hlim in Hlim'. by simplify_eq.
  - intros limite Hlim Hnna Hmed.
    assert (∃ st' r, generar_alertas_vencimiento user today now st
                     = (st', Ok r)) as (st' & r & Hrun).
    { unfold generar_alertas_vencimiento. run. rewrite Hlim. simpl.
      destruct (for_each_returns _ _ _
                  (alerta_medida_deduplica user today now)
                  residentes_con_nombre
                  (medidas_por_vencer today limite st)
                  crece_residentes) with (n := 0) (st := st)
        as (sta & n1 & H1); [|done|].
      { intros c st0 Hc Hst0. apply alerta_medida_returns; [done|].
        rewrite Forall_forall in Hmed. by apply Hmed. }
      rewrite H1. simpl. by eexists _, _. }
    exists st', r. split; [done|].
    apply generar_alertas_vencimiento_run in Hrun as (limite' & Hlim' & Hg & Hc).
    rewrite Hlim in Hlim'. by simplify_eq.
Qed.

Transparent Dates.add_days.

End alert_properties.

Section priority_properties.
Import Mongo Alertas Juridico Prioridades.

Opaque Dates.add_days.

Ltac step_some :=
  repeat match goal with
  | |- context [nna_nombre ?ref ?st] =>
      let E := fresh "Hnombre" in
      destruct (nna_nombre ref st) as [? [?|?]] eqn:E;
      apply nna_nombre_state in E as ?; subst; simpl
  | _ => case_match; simplify_eq/=
  end.

Lemma for_each_nuevas (body : dict → handler bool) (P : dict → dict → Prop)
    (cs : list dict) :
  (∀ c st st' b, body c st = (st', Ok b) →
     ∃ nuevas, alertas st' = alertas st ++ nuevas ∧ Forall (P c) nuevas) →
  ∀ n st st' m, for_each body cs n st = (st', Ok m) →
    ∃ nuevas, alertas st' = alertas st ++ nuevas ∧
              Forall (λ a, ∃ c, c ∈ cs ∧ P c a) nuevas.
Proof.
  intros Hbody. induction cs as [|c cs IH]; intros n st st' m; simpl.
  - run. intros ?; simplify_eq. exists []. by rewrite app_nil_r.
  - run. destruct (body c st) as [st1 [b|e]] eqn:Hstep; simpl; [|done].
    intros Hrest. destruct (Hbody _ _ _ _ Hstep) as (n1 & Hn1 & HP1).
    destruct (IH _ _ _ _ Hrest) as (n2 & Hn2 & HP2).
    exists (n1 ++ n2). rewrite Hn2, Hn1, <- app_assoc. split; [done|].
    apply Forall_app. split.
    + eapply Forall_impl; [exact HP1|]. intros a Ha. exists c.
      split; [by left|done].
    + eapply Forall_impl; [exact HP2|]. intros a (c' & Hc' & Ha).
      exists c'. split; [by right|done].
Qed.

Lemma alerta_medida_nuevas (user : Auth.TokenData) (today : Dates.date)
    (now : Z) (c : dict) (st st' : db) (b : bool) :
  alerta_medida user today now c st = (st', Ok b) →
  ∃ nuevas, alertas st' = alertas st ++ nuevas ∧
            Forall (alerta_de_medida today c) nuevas.
Proof.
  unfold alerta_medida, getitem. run.
  step_some; try done; intros ?; simplify_eq.
  - exists []. by rewrite app_nil_r.
  - eexists [_]. split; [done|]. constructor; [|constructor].
    eexists _, _, _, _. split_and!; [done..| | | |];
      [by simplify_map_eq..|].
    apply prioridad_vencimiento_thresholds.
Qed.

Lemma alerta_seguimiento_nuevas (user : Auth.TokenData) (now : Z)
    (c : dict) (st st' : db) (b : bool) :
  alerta_seguimiento user now c st = (st', Ok b) →
  ∃ nuevas, alertas st' = alertas st ++ nuevas ∧
            Forall (alerta_de_seguimiento c) nuevas.
Proof.
  unfold alerta_seguimiento, getitem. run.
  step_some; try done; intros ?; simplify_eq.
  - exists []. by rewrite app_nil_r.
  - eexists [_]. split; [done|]. constructor; [|constructor].
    eexists _, (prioridad_seguimiento c).
    split_and!; [done| | | | |]; [by simplify_map_eq..| |];
      destruct (prioridad_seguimiento_cases c) as [[Hu ->]|[Hu ->]];
      split; intros; done.
Qed.

Lemma alerta_taller_nuevas (user : Auth.TokenData) (now : Z)
    (c : dict) (st st' : db) (b : bool) :
  alerta_taller user now c st = (st', Ok b) →
  ∃ nuevas, alertas st' = alertas st ++ nuevas ∧
            Forall (alerta_de_taller c) nuevas.
Proof.
  unfold alerta_taller, getitem. run.
  step_some; try done; intros ?; simplify_eq.
  - exists []. by rewrite app_nil_r.
  - eexists [_]. split; [done|]. constructor; [|constructor].
    eexists. split_and!; [done|..]; by simplify_map_eq.
Qed.

(** A candidate that was not covered before and is covered after has
    its live alert among the new ones. *)
Lemma cubierta_nueva (entidad_tipo tipo : string) (st st' : db)
    (nuevas : list dict) (c : dict) :
  alertas st' = alertas st ++ nuevas →
  ¬ cubierta entidad_tipo tipo st c →
  cubierta entidad_tipo tipo st' c →
  ∃ id a, c !! "_id" = Some id ∧ a ∈ nuevas ∧
          a !! "entidad_tipo" = Some (VStr entidad_tipo) ∧
          a !! "entidad_id" = Some (VStr (Bson.str id)).
Proof.
  intros Hst' Hno (id & Hid & Hex). rewrite Hst', existsb_app in Hex.
  destruct (existsb _ (alertas st)) eqn:Hold.
  { destruct Hno. by exists id. }
  simpl in Hex. apply existsb_exists in Hex as (a & Ha & Hm).
  apply matches_alerta_existente in Hm as (Ht & Hi & _).
  exists id, a. split_and!; [done| |done..]. by apply list_elem_of_In.
Qed.

Lemma crece_nuevas (st st' : db) (n : Z) (nuevas : list dict) :
  crece st st' n → alertas st' = alertas st ++ nuevas →
  Z.of_nat (length nuevas) = n.
Proof.
  intros (_ & _ & _ & _ & _ & l & Hl & <-) Hn. rewrite Hl in Hn.
  by apply app_inv_head in Hn as ->.
Qed.

(** C5. In a run of the judicial generator that returns, the alerts it
    adds are the alerts of selected measures, each with the priority
    given by the days from today to the measure's [fecha_termino] (at
    most 7 "critica", 8 to 15 "alta", more than 15 "media"), and every
    selected measure that had no live alert, and whose identifier no
    other candidate shares, gets such an alert. In a run of the
    follow-up and workshop generator that returns, the alerts it adds
    are alerts of selected follow-ups, "alta" exactly when the
    intervention is "urgente" and "media" otherwise, or of selected
    workshops, "media"; every selected follow-up that had no live alert,
    and whose identifier no other candidate shares, gets such an alert.
    A date [n] days after today has [n] days remaining. *)
Theorem prioridad_de_las_alertas (user : Auth.TokenData)
    (today : Dates.date) (now : Z) (st st' : db) (r : respuesta) :
  (generar_alertas_vencimiento user today now st = (st', Ok r) →
   ∃ limite nuevas,
     Dates.add_days today 30 = Ok limite ∧
     alertas st' = alertas st ++ nuevas ∧
     Z.of_nat (length nuevas) = alertas_creadas r ∧
     (∀ a, a ∈ nuevas →
        ∃ m, m ∈ medidas_por_vencer today limite st ∧
             alerta_de_medida today m a) ∧
     (∀ m, m ∈ medidas_por_vencer today limite st →
        ¬ cubierta "medida_judicial" "vencimiento_plazo" st m →
        unico (medidas_por_vencer today limite st) m →
        ∃ a, a ∈ nuevas ∧ alerta_de_medida today m a)) ∧
  (generar_alertas_vencimientos user today now st = (st', Ok r) →
   ∃ limite nuevas,
     Dates.add_days today 7 = Ok limite ∧
     alertas st' = alertas st ++ nuevas ∧
     Z.of_nat (length nuevas) = alertas_creadas r ∧
     (∀ a, a ∈ nuevas →
        (∃ c, c ∈ seguimientos_por_vencer today limite st ∧
              alerta_de_seguimiento c a) ∨
        (∃ t, t ∈ talleres_proximos today limite st ∧
              alerta_de_taller t a)) ∧
     (∀ c, c ∈ seguimientos_por_vencer today limite st →
        ¬ cubierta "intervencion" "seguimiento_pendiente" st c →
        unico (seguimientos_por_vencer today limite st) c →
        ∃ a, a ∈ nuevas ∧ alerta_de_seguimiento c a)) ∧
  (∀ (fecha : Dates.date) (n : nat),
     Dates.in_calendar today → Dates.add_days today n = Ok fecha →
     Dates.toordinal fecha - Dates.toordinal today = Z.of_nat n).
Proof.
  split_and!.
  - intros Hrun.
    destruct (generar_alertas_vencimiento_run _ _ _ _ _ _ Hrun)
      as (limite & Hlim & Hg & Hcub).
    revert Hrun. unfold generar_alertas_vencimiento. run. rewrite Hlim. simpl.
    destruct (for_each (alerta_medida user today now) _ 0 st)
      as [sta [n1|]] eqn:H1; simpl; [|done].
    intros ?; simplify_eq.
    destruct (for_each_nuevas _ (alerta_de_medida today) _
                (alerta_medida_nuevas user today now) _ _ _ _ H1)
      as (nuevas & Hn & HP).
    rewrite Forall_forall in HP.
    exists limite, nuevas. split_and!; [done|done| |done|].
    { by apply (crece_nuevas st st'). }
    intros m Hm Hno Hunico.
    rewrite Forall_forall in Hcub.
    destruct (cubierta_nueva _ _ _ _ _ m Hn Hno (Hcub m Hm))
      as (id & a & Hid & Ha & Ht & Hi).
    exists a. split; [done|].
    destruct (HP a Ha) as (m' & Hm' & Hal).
    destruct Hal as (id' & termino & fecha & prioridad & Hid' & Hrest).
    assert (m' = m) as <-.
    { apply (Hunico m' id id'); try done.
      destruct Hrest as (_ & _ & _ & Hi' & _). congruence. }
    by exists id', termino, fecha, prioridad.
  - intros Hrun.
    destruct (generar_alertas_vencimientos_run _ _ _ _ _ _ Hrun)
      as (limite & Hlim & Hg & Hcub & _).
    revert Hrun. unfold generar_alertas_vencimientos. run.
    rewrite Hlim. simpl.
    destruct (for_each (alerta_seguimiento user now) _ 0 st)
      as [sta [n1|]] eqn:H1; simpl; [|done].
    destruct (for_each (alerta_taller user now) _ n1 sta)
      as [stb [n2|]] eqn:H2; simpl; [|done].
    intros ?; simplify_eq.
    destruct (for_each_nuevas _ alerta_de_seguimiento _
                (alerta_seguimiento_nuevas user now) _ _ _ _ H1)
      as (nuevas1 & Hn1 & HP1).
    destruct (for_each_nuevas _ alerta_de_taller _
                (alerta_taller_nuevas user now) _ _ _ _ H2)
      as (nuevas2 & Hn2 & HP2).
    apply (for_each_crece _ _ _ (alerta_seguimiento_deduplica user now))
      in H1 as [Hg1 _].
    rewrite (talleres_proximos_crece _ _ _ _ _ Hg1) in HP2.
    rewrite Forall_forall in HP1, HP2.
    assert (Hn : alertas st' = alertas st ++ (nuevas1 ++ nuevas2))
      by (by rewrite Hn2, Hn1, <- app_assoc).
    assert (Hall : ∀ a, a ∈ nuevas1 ++ nuevas2 →
      (∃ c, c ∈ seguimientos_por_vencer today limite st ∧
            alerta_de_seguimiento c a) ∨
      (∃ t, t ∈ talleres_proximos today limite st ∧ alerta_de_taller t a)).
    { intros a [Ha|Ha]%elem_of_app; [left; by apply HP1|right; by apply HP2]. }
    exists limite, (nuevas1 ++ nuevas2). split_and!; [done|done| |done|].
    { by apply (crece_nuevas st st'). }
    intros c Hc Hno Hunico.
    rewrite Forall_forall in Hcub.
    destruct (cubierta_nueva _ _ _ _ _ c Hn Hno (Hcub c Hc))
      as (id & a & Hid & Ha & Ht & Hi).
    exists a. split; [done|].
    destruct (Hall a Ha) as [(c' & Hc' & Hal)|(t & _ & Hal)].
    + destruct Hal as (id' & prioridad & Hid' & Hrest).
      assert (c' = c) as <-.
      { apply (Hunico c' id id'); try done.
        destruct Hrest as (_ & Hi' & _). congruence. }
      by exists id', prioridad.
    + destruct Hal as (? & _ & Ht' & _). congruence.
  - intros fecha n. apply add_days_days_between.
Qed.

Transparent Dates.add_days.

End priority_properties.

Section role_checks_properties.
Context `{!Externals}.
Import Mongo Rbac RoleChecks.

Lemma has_permission_cases (r : string) :
  (r = "viewer" ∨ r = "tecnico" ∨ r = "coordinador" ∨ r = "admin") ∨
  (¬ known_role r ∧ ∀ required, known_role required →
     has_permission r required = false).
Proof.
  destruct (decide (known_role r)) as [Hr|Hr]; [by left|right].
  split; [done|]. intros required Hreq.
  rewrite (has_permission_unknown_user r required Hr).
  destruct (ROLE_HIERARCHY_known required Hreq) as [r' ->].
  by rewrite ROLE_HIERARCHY_role.
Qed.

(** X1. The four predefined checkers are the hierarchy: each admits a role
    exactly when [has_permission] grants it the checker's lowest role. *)
Theorem role_checkers_follow_hierarchy (user : Auth.TokenData) (r : string) :
  Auth.rol user = Some r →
  (RoleChecker require_admin user = Ok user
     ↔ has_permission r "admin" = true) ∧
  (RoleChecker require_coordinador user = Ok user
     ↔ has_permission r "coordinador" = true) ∧
  (RoleChecker require_tecnico user = Ok user
     ↔ has_permission r "tecnico" = true) ∧
  (RoleChecker require_any_user user = Ok user
     ↔ has_permission r "viewer" = true).
Proof.
  intros Hr. unfold RoleChecker. rewrite Hr. simpl.
  destruct (has_permission_cases r) as [[-> | [-> | [-> | ->]]]|[Hu Hden]].
  1-4: by vm_compute; intuition discriminate.
  rewrite !Hden by (unfold known_role; intuition).
  unfold require_admin, require_coordinador, require_tecnico, require_any_user.
  assert (Hno : ∀ l : list string, Forall known_role l →
            bool_decide (r ∈ l) = false).
  { intros l Hl. apply bool_decide_eq_false. intros Hin.
    rewrite Forall_forall in Hl. by apply Hu, Hl. }
  rewrite !Hno by (repeat constructor; unfold known_role; intuition).
  simpl. intuition discriminate.
Qed.

(** X2. The capability predicates are the hierarchy too, for every role
    string, known or not. *)
Theorem capabilities_follow_hierarchy (user_role : string) :
  can_edit_any_record user_role = has_permission user_role "coordinador" ∧
  can_delete_records user_role = has_permission user_role "admin" ∧
  can_manage_users user_role = has_permission user_role "admin" ∧
  can_generate_reports user_role = has_permission user_role "coordinador".
Proof.
  unfold can_edit_any_record, can_delete_records, can_manage_users,
    can_generate_reports.
  destruct (has_permission_cases user_role)
    as [[-> | [-> | [-> | ->]]]|[Hu Hden]].
  1-4: by vm_compute.
  rewrite !Hden by (unfold known_role; intuition).
  split_and!; apply bool_decide_eq_false; unfold known_role in Hu;
    rewrite ?elem_of_cons, ?elem_of_nil; intuition.
Qed.

(** X3. The decorator and the dependency class admit the same principals. *)
Theorem require_role_as_RoleChecker {A} (roles : list string)
    (user : Auth.TokenData) (func : handler A) (st : db) :
  (RoleChecker roles user = Ok user →
     require_role roles (Some user) func st = func st) ∧
  (RoleChecker roles user ≠ Ok user →
     require_role roles (Some user) func st
     = (st, Raise (HTTPException 403
          ("Se requiere uno de los roles: " +:+ join ", " roles)))) ∧
  require_role roles None func st
  = (st, Raise (HTTPException 401 "Usuario no autenticado")).
Proof.
  unfold RoleChecker, require_role.
  destruct (rol_in (Auth.rol user) roles); simpl; split_and!; done.
Qed.

End role_checks_properties.

Section gate_properties.
Context `{!Externals}.
Import Mongo Auth RoleChecks Refresh.

Lemma get_current_user_inv (token : string) (p : TokenData) :
  get_current_user token = Ok p →
  ∃ payload,
    Security.decode_token token = Some payload ∧
    payload !! "type" = Some (VStr "access") ∧
    is_Some (user_id p) ∧ is_Some (email p) ∧
    value_of (user_id p) = get payload "sub" ∧
    value_of (email p) = get payload "email" ∧
    value_of (rol p) = get payload "rol".
Proof.
  unfold get_current_user.
  destruct (Security.decode_token token) as [payload|]; [|done].
  unfold Security.verify_token_type, eq_str, get.
  case_bool_decide as Hty; simpl; [|done].
  destruct (payload !! "type") as [ty|] eqn:Htype; simpl in Hty; [|done].
  subst ty.
  destruct (payload !! "sub") as [[]|] eqn:Hs,
    (payload !! "email") as [[]|] eqn:He,
    (payload !! "rol") as [[]|] eqn:Hr; simpl; try done;
    intros [= <-]; exists payload; unfold get; rewrite Hs, He, Hr; simpl;
    split_and!; eauto.
Qed.

Lemma get_current_active_user_state (cu : TokenData) (st : db) :
  (get_current_active_user cu st).1 = st.
Proof.
  unfold get_current_active_user. run.
  by repeat (case_match; simplify_eq/=).
Qed.

(** X4. A protected endpoint never writes to the store, and it hands the
    handler a principal only for an access token of a stored, active
    account whose token carries an admitted role; the role is the token's
    claim, not the stored one. *)
Theorem protected_sound (allowed_roles : list string) (token : string)
    (st : db) :
  (protected allowed_roles token st).1 = st ∧
  ∀ p, (protected allowed_roles token st).2 = Ok p →
    ∃ payload account,
      Security.decode_token token = Some payload ∧
      payload !! "type" = Some (VStr "access") ∧
      value_of (user_id p) = get payload "sub" ∧
      value_of (rol p) = get payload "rol" ∧
      find_one [("_id", CEq (value_of (user_id p)))] (usuarios st)
        = Some account ∧
      truthy (get_or account "activo" (VBool true)) = true ∧
      rol_in (rol p) allowed_roles = true.
Proof.
  unfold protected. run.
  destruct (get_current_user token) as [cu|e] eqn:Hcu; simpl; [|done].
  pose proof (get_current_active_user_state cu st) as Hst.
  destruct (get_current_active_user cu st) as [st1 [user|e]] eqn:Hact;
    simpl in *; subst st1; [|done].
  split; [done|]. intros p Hp.
  apply get_current_user_inv in Hcu
    as (payload & Hdec & Hty & _ & _ & Hsub & _ & Hrol).
  assert (∃ account,
            find_one [("_id", CEq (value_of (user_id cu)))] (usuarios st)
              = Some account ∧
            truthy (get_or account "activo" (VBool true)) = true ∧
            user = cu) as (account & Hfind & Hactive & ->).
  { revert Hact. unfold get_current_active_user. run.
    destruct (find_one _ (usuarios st)) as [account|]; [|done].
    destruct (truthy (get_or account "activo" (VBool true))) eqn:Hactive;
      simpl; [|done].
    intros ?; simplify_eq. by exists account. }
  unfold RoleChecker in Hp.
  destruct (rol_in (rol cu) allowed_roles) eqn:Hin; simpl in Hp; [|done].
  simplify_eq. by exists payload, account.
Qed.

(** X5. The active-user check looks the account up by the token's subject, a
    string. When every stored account is keyed by an ObjectId, as
    [insert_one] keys them, no account is found: the check answers 404
    for every principal, and no protected endpoint passes. *)
Theorem object_id_accounts_not_found (st : db) :
  Forall (λ d, ∃ o, d !! "_id" = Some (VOid o)) (usuarios st) →
  (∀ cu, get_current_active_user cu st
         = (st, Raise (HTTPException 404 "Usuario no encontrado"))) ∧
  (∀ allowed_roles token p,
     (protected allowed_roles token st).2 ≠ Ok p).
Proof.
  intros Hids.
  assert (Hnone : ∀ cu,
    find_one [("_id", CEq (value_of (user_id cu)))] (usuarios st) = None).
  { intros cu. unfold find_one, find.
    induction Hids as [|d ds [o Ho] _ IH]; simpl; [done|].
    rewrite Ho. simpl.
    rewrite bool_decide_eq_false_2; [done|]. by destruct (user_id cu). }
  assert (H404 : ∀ cu, get_current_active_user cu st
                 = (st, Raise (HTTPException 404 "Usuario no encontrado"))).
  { intros cu. unfold get_current_active_user. run. by rewrite Hnone. }
  split; [done|]. intros allowed_roles token p. unfold protected. run.
  destruct (get_current_user token); simpl; [|done]. by rewrite H404.
Qed.

(** X6. The refresh endpoint takes refresh tokens only; the access token it
    issues, decoded by the gate, is the principal of the refresh token. *)
Theorem refresh_token_exchange (token : string) (payload : dict) (now : Z) :
  Security.decode_token token = Some payload →
  (payload !! "type" ≠ Some (VStr "refresh") →
     refresh_token token now
     = Raise (HTTPException 401 "Tipo de token inválido")) ∧
  (codec_roundtrip →
   ∀ issued uid mail,
     refresh_token token now = Ok issued →
     payload !! "sub" = Some (VStr uid) →
     payload !! "email" = Some (VStr mail) →
     payload !! "type" = Some (VStr "refresh") ∧
     get_current_user (new_access_token issued)
     = (r ← optional_str (get payload "rol");
        Ok (mk_TokenData (Some uid) (Some mail) r))).
Proof.
  intros Hdec. unfold refresh_token. rewrite Hdec. split.
  - intros Hty. unfold eq_str. rewrite bool_decide_eq_false_2; [done|].
    unfold get. intros Heq.
    destruct (payload !! "type"); simpl in *; by simplify_eq.
  - intros Hcodec issued uid mail. unfold eq_str.
    case_bool_decide as Hty; simpl; [|done].
    unfold Security.create_access_token.
    destruct (jwt_encode _) as [new|] eqn:Henc; simpl; [|done].
    intros [= <-] Hsub Hmail. split.
    { unfold get in Hty. destruct (payload !! "type"); simpl in *;
        by simplify_eq. }
    destruct (Hcodec _ _ Henc) as (decoded & Hdecoded & Hkeys). simpl.
    unfold get_current_user, Security.decode_token. rewrite Hdecoded.
    unfold Security.verify_token_type, eq_str, get.
    rewrite !Hkeys by (rewrite !elem_of_cons; intuition).
    simplify_map_eq. unfold get. rewrite Hsub, Hmail. simpl.
    by destruct (optional_str _).
Qed.

Lemma login_inv (mail password : string) (now : Z) (st st' : db)
    (tok : AuthRouter.Token) :
  AuthRouter.login mail password now st = (st', Ok tok) →
  ∃ account uid role name,
    find_one [("email", CEq (VStr mail))] (usuarios st) = Some account ∧
    account !! "_id" = Some uid ∧
    account !! "rol" = Some role ∧
    account !! "nombre" = Some name ∧
    let token_data : dict :=
      <["sub" := VStr (Bson.str uid)]> (<["email" := VStr mail]>
        (<["rol" := role]> (<["nombre" := name]> ∅))) in
    Security.create_access_token token_data now
      = Ok (AuthRouter.access_token tok) ∧
    Security.create_refresh_token token_data now
      = Ok (AuthRouter.refresh_token tok).
Proof.
  unfold AuthRouter.login. run.
  destruct (find_one [("email", CEq (VStr mail))] (usuarios st))
    as [account|] eqn:Hf; [|done].
  destruct (login_found mail password now st account Hf) as [Hnf Hmail].
  rewrite Hnf. simpl. unfold getitem, Security.verify_password,
    AuthRouter.validated. rewrite Hmail.
  repeat (case_match; simplify_eq/=); try done.
  intros ?; simplify_eq/=. by eexists _, _, _, _.
Qed.

(** X7. The tokens of a login: the access token passes the gate as the
    account that logged in (its identifier, email and role), and the
    refresh token is refused there. *)
Theorem login_tokens_at_the_gate (mail password : string) (now : Z)
    (st st' : db) (tok : AuthRouter.Token) :
  codec_roundtrip →
  AuthRouter.login mail password now st = (st', Ok tok) →
  ∃ account uid role,
    find_one [("email", CEq (VStr mail))] (usuarios st) = Some account ∧
    account !! "_id" = Some uid ∧
    account !! "rol" = Some role ∧
    get_current_user (AuthRouter.access_token tok)
    = (r ← optional_str role;
       Ok (mk_TokenData (Some (Bson.str uid)) (Some mail) r)) ∧
    get_current_user (AuthRouter.refresh_token tok)
    = Raise (HTTPException 401 "Tipo de token inválido").
Proof.
  intros Hcodec Hlogin.
  apply login_inv in Hlogin
    as (account & uid & role & name & Hf & Hid & Hrol & Hnom & Hacc & Href).
  exists account, uid, role. split_and!; [done..| |].
  - unfold Security.create_access_token in Hacc.
    destruct (jwt_encode _) as [a|] eqn:Henc; simplify_eq/=.
    destruct (Hcodec _ _ Henc) as (decoded & Hdecoded & Hkeys).
    unfold get_current_user, Security.decode_token. rewrite Hdecoded.
    unfold Security.verify_token_type, eq_str, get.
    rewrite !Hkeys by (rewrite !elem_of_cons; intuition).
    simplify_map_eq. by destruct (optional_str _).
  - unfold Security.create_refresh_token in Href.
    destruct (jwt_encode _) as [a|] eqn:Henc; simplify_eq/=.
    destruct (Hcodec _ _ Henc) as (decoded & Hdecoded & Hkeys).
    unfold get_current_user, Security.decode_token. rewrite Hdecoded.
    unfold Security.verify_token_type, eq_str, get.
    rewrite !Hkeys by (rewrite !elem_of_cons; intuition).
    by simplify_map_eq.
Qed.

End gate_properties.

Section rut_format_properties.
Context `{!UnicodeData}.
Import PyStr Validators RutFormat.

Lemma fold_case_ascii (c : N) : is_ascii c → is_ascii (fold_case c).
Proof.
  unfold is_ascii, fold_case. intros Hc.
  destruct ((97 <=? c)%N && (c <=? 122)%N); lia.
Qed.

Lemma fold_case_idem (c : N) : fold_case (fold_case c) = fold_case c.
Proof.
  unfold fold_case.
  destruct ((97 <=? c)%N && (c <=? 122)%N) eqn:Hc; [|by rewrite Hc].
  apply andb_true_iff in Hc as [H1%N.leb_le H2%N.leb_le].
  assert ((97 <=? c - 32)%N = false) as -> by (apply N.leb_gt; lia). done.
Qed.

Lemma clean_limpio (rut : pystr) :
  Forall is_ascii rut →
  remove_char 45 (remove_char 46 (upper rut))
    = map fold_case (List.filter (λ c, negb (is_separator c)) rut)
  ∧ limpio (remove_char 45 (remove_char 46 (upper rut))).
Proof.
  intros Hascii. rewrite (upper_ascii rut Hascii), strip_fold_case.
  split; [done|]. unfold limpio.
  induction Hascii as [|c s Hc _ IH]; simpl; [constructor|].
  destruct (is_separator c) eqn:Hsep; simpl; [done|].
  constructor; [|done]. split_and!.
  - by apply fold_case_ascii.
  - by rewrite is_separator_fold_case.
  - apply fold_case_idem.
Qed.

Lemma limpio_fixed (s : pystr) :
  limpio s → remove_char 45 (remove_char 46 (upper s)) = s.
Proof.
  intros Hs.
  assert (Hascii : Forall is_ascii s).
  { eapply Forall_impl; [exact Hs|]. by intros c (? & _). }
  rewrite (upper_ascii s Hascii), strip_fold_case.
  induction Hs as [|c s (_ & Hsep & Hfix) _ IH]; simpl; [done|].
  rewrite Hsep. simpl. rewrite Hfix. f_equal. apply IH.
  by apply Forall_inv_tail in Hascii.
Qed.

Lemma formatear_spec (ds : pystr) (i : nat) (acc : pystr) :
  Forall (λ c, is_ascii c ∧ is_separator c = false) ds →
  Forall is_ascii acc →
  Forall is_ascii (formatear ds i acc) ∧
  List.filter (λ c, negb (is_separator c)) (formatear ds i acc)
  = rev ds ++ List.filter (λ c, negb (is_separator c)) acc.
Proof.
  intros Hds. revert i acc.
  induction Hds as [|d ds [Hd Hsep] _ IH]; intros i acc Hacc; [by split|].
  cbn [formatear].
  set (con_punto := if (0 <? i)%nat && (i mod 3 =? 0)%nat
                    then 46%N :: acc else acc).
  assert (Hp : Forall is_ascii con_punto ∧
               List.filter (λ c, negb (is_separator c)) con_punto
               = List.filter (λ c, negb (is_separator c)) acc).
  { unfold con_punto. destruct ((0 <? i)%nat && (i mod 3 =? 0)%nat);
      [|done]. split; [|done]. constructor; [|done]. unfold is_ascii. lia. }
  destruct Hp as [Hp1 Hp2].
  destruct (IH (S i) (d :: con_punto)) as [IH1 IH2]; [by constructor|].
  split; [done|]. rewrite IH2. cbn [List.filter rev]. rewrite Hsep.
  cbn [negb]. by rewrite Hp2, <- app_assoc.
Qed.

Lemma removelast_drop_last {A} (l : list A) :
  l ≠ [] → removelast l ++ drop (length l - 1) l = l.
Proof.
  intros Hl. destruct (exists_last Hl) as (l' & x & ->).
  rewrite removelast_last, length_app. simpl.
  replace (length l' + 1 - 1)%nat with (length l' + 0)%nat by lia.
  by rewrite drop_app_add.
Qed.

(** The text [format_rut] returns, cleaned again, whatever the length. *)
Lemma format_rut_clean (rut : pystr) :
  Forall is_ascii rut →
  let c := remove_char 45 (remove_char 46 (upper rut)) in
  Forall is_ascii (format_rut rut) ∧
  (rut ≠ [] →
   remove_char 45 (remove_char 46 (upper (format_rut rut))) = c ∧
   (2 ≤ length c → format_rut rut ≠ [])%nat).
Proof.
  intros Hascii c. destruct (clean_limpio rut Hascii) as [_ Hc].
  fold c in Hc. unfold format_rut.
  destruct rut as [|c0 rut0]; [by split|].
  rewrite bool_decide_eq_false_2 by done.
  set (rut := c0 :: rut0) in *. fold c.
  assert (Hc_ascii : Forall is_ascii c).
  { eapply Forall_impl; [exact Hc|]. by intros x (? & _). }
  destruct (Nat.ltb_spec (length c) 2) as [Hlen|Hlen].
  { split; [done|]. intros _. split; [by apply limpio_fixed|lia]. }
  assert (Hne : c ≠ []) by (intros E; rewrite E in Hlen; simpl in Hlen; lia).
  pose proof (removelast_drop_last c Hne) as Hsplit.
  set (cuerpo := removelast c) in *. set (dv := drop (length c - 1) c) in *.
  assert (Hparts : limpio cuerpo ∧ limpio dv).
  { unfold limpio in *. rewrite <- Hsplit in Hc.
    by apply Forall_app in Hc. }
  destruct Hparts as [Hcuerpo Hdv].
  destruct (formatear_spec (rev cuerpo) 0 []) as [Hf1 Hf2]; [|done|].
  { apply Forall_rev. eapply Forall_impl; [exact Hcuerpo|].
    by intros x (? & ? & _). }
  rewrite rev_involutive, app_nil_r in Hf2.
  assert (Hall : Forall is_ascii (formatear (rev cuerpo) 0 [] ++ [45%N] ++ dv)).
  { apply Forall_app. split; [done|].
    constructor; [unfold is_ascii; lia|].
    eapply Forall_impl; [exact Hdv|]. by intros x (? & _). }
  split; [done|]. intros _. split.
  - rewrite (upper_ascii _ Hall), strip_fold_case.
    rewrite !List.filter_app, Hf2. simpl.
    assert (Hnosep : ∀ s, limpio s →
      List.filter (λ c, negb (is_separator c)) s = s).
    { intros s Hs. induction Hs as [|x s (_ & Hsep & _) _ IH];
        simpl; [done|]. rewrite Hsep. simpl. by rewrite IH. }
    assert (Hfix : ∀ s, limpio s → map fold_case s = s).
    { intros s Hs. induction Hs as [|x s (_ & _ & Hfix) _ IH];
        simpl; [done|]. by rewrite Hfix, IH. }
    by rewrite (Hnosep dv Hdv), Hsplit, (Hfix c Hc).
  - intros _ Hnil. by apply app_eq_nil in Hnil as [_ [=]].
Qed.

(** X8. Formatting keeps the normalised digits and check digit: cleaning
    the formatted text gives what cleaning the input gives. *)
Theorem clean_rut_format_rut (rut : pystr) :
  Forall is_ascii rut → clean_rut (format_rut rut) = clean_rut rut.
Proof.
  intros Hascii. destruct (format_rut_clean rut Hascii) as [_ Hfmt].
  unfold clean_rut at 2.
  destruct (decide (rut = [])) as [->|Hne]; [done|].
  rewrite (bool_decide_eq_false_2 (rut = [])) by done.
  destruct (Hfmt Hne) as [Hclean _].
  unfold clean_rut. case_bool_decide as Hnil; [|done].
  rewrite Hnil in Hclean. by rewrite <- Hclean.
Qed.

(** X9. Formatting is idempotent, and a RUT that validates still validates
    once formatted. *)
Theorem format_rut_stable (rut : pystr) :
  Forall is_ascii rut →
  format_rut (format_rut rut) = format_rut rut ∧
  (validate_rut_chile rut = Ok true →
   validate_rut_chile (format_rut rut) = Ok true).
Proof.
  intros Hascii. destruct (format_rut_clean rut Hascii) as [Hfa Hfmt].
  destruct (decide (rut = [])) as [->|Hne]; [done|].
  destruct (Hfmt Hne) as [Hclean Hnonempty]. split.
  - destruct (decide (format_rut rut = [])) as [Hnil|Hfne];
      [by rewrite Hnil|].
    unfold format_rut at 1. rewrite bool_decide_eq_false_2 by done.
    rewrite Hclean. unfold format_rut.
    by rewrite bool_decide_eq_false_2 by done.
  - unfold validate_rut_chile at 1.
    rewrite bool_decide_eq_false_2 by done. cbv zeta.
    destruct (Nat.ltb_spec
      (length (remove_char 45 (remove_char 46 (upper rut)))) 2)
      as [Hlen|Hlen]; [done|].
    intros Hvalid. unfold validate_rut_chile.
    rewrite bool_decide_eq_false_2 by (by apply Hnonempty).
    cbv zeta. rewrite Hclean.
    destruct (Nat.ltb_spec
      (length (remove_char 45 (remove_char 46 (upper rut)))) 2); [lia|].
    exact Hvalid.
Qed.

End rut_format_properties.

Section accounts_properties.
Context `{!Externals}.
Import Mongo Users Accounts.

Lemma update_one_identities (q : query) (fields : dict) (coll : list dict) :
  fields !! "_id" = None → fields !! "email" = None →
  (λ d : dict, (d !! "_id", d !! "email")) <$> update_one q fields coll
  = (λ d : dict, (d !! "_id", d !! "email")) <$> coll.
Proof.
  intros Hid Hmail. induction coll as [|d coll IH]; csimpl; [done|].
  destruct (matches q d); csimpl; [|by rewrite IH].
  by rewrite !lookup_union_r.
Qed.

Lemma emails_identities (st st' : db) :
  identities st' = identities st → emails st' = emails st.
Proof.
  unfold identities, emails. intros Hid.
  assert (Hom : ∀ l : list dict,
    omap (λ d : dict, d !! "email") l
    = omap snd ((λ d : dict, (d !! "_id", d !! "email")) <$> l)).
  { induction l as [|d l IH]; csimpl; [done|].
    destruct (d !! "email"); csimpl; by rewrite IH. }
  by rewrite !Hom, Hid.
Qed.

Lemma identities_update (q : query) (fields : dict) (st : db) :
  fields !! "_id" = None → fields !! "email" = None →
  identities (set_usuarios (update_one q fields) st) = identities st.
Proof. intros. by apply update_one_identities. Qed.

Lemma delete_one_split (q : query) (coll : list dict) (target : dict) :
  find_one q coll = Some target →
  ∃ before after,
    coll = before ++ target :: after ∧
    delete_one q coll = before ++ after ∧
    Forall (λ d, matches q d = false) before.
Proof.
  unfold find_one, find.
  induction coll as [|d coll IH]; simpl; [done|].
  destruct (matches q d) eqn:Hm; simpl.
  - intros [= ->]. by exists [], coll.
  - intros Hf. destruct (IH Hf) as (before & after & -> & Hdel & Hbefore).
    exists (d :: before), after. rewrite Hdel. split_and!; [done..|].
    by constructor.
Qed.

Lemma find_one_update_one (q : query) (fields : dict) (coll : list dict)
    (target : dict) :
  find_one q coll = Some target →
  matches q (fields ∪ target) = true →
  find_one q (update_one q fields coll) = Some (fields ∪ target).
Proof.
  unfold find_one, find. intros Hf Hm.
  induction coll as [|d coll IH]; simpl in *; [done|].
  destruct (matches q d) eqn:Hd; simpl in *.
  - simplify_eq. by rewrite Hm.
  - rewrite Hd. by apply IH.
Qed.

Lemma by_id_matches_update (user_id : string) (fields target : dict) :
  fields !! "_id" = None →
  matches (by_id user_id) target = true →
  matches (by_id user_id) (fields ∪ target) = true.
Proof.
  unfold by_id, matches. simpl. intros Hid. by rewrite lookup_union_r.
Qed.

Lemma emails_insert (doc : dict) (e : string) (st : db) :
  doc !! "email" = Some (VStr e) →
  emails (insert_usuario doc st) = emails st ++ [VStr e].
Proof.
  intros He. unfold emails, insert_usuario. simpl.
  rewrite omap_app. simpl. by rewrite lookup_insert_ne, He.
Qed.

Lemma email_not_stored (e : string) (st : db) :
  not_found (find_one [("email", CEq (VStr e))] (usuarios st)) = true →
  VStr e ∉ emails st.
Proof.
  rewrite not_found_find_one.
  2:{ intros d Hm ->. unfold matches in Hm. simpl in Hm.
      rewrite andb_true_r, lookup_empty in Hm.
      by apply bool_decide_eq_true in Hm. }
  intros Hex%negb_true_iff. unfold emails. intros Hin.
  apply list_elem_of_omap in Hin as (d & Hd & Hmail).
  assert (existsb (matches [("email", CEq (VStr e))]) (usuarios st) = true)
    as Habs; [|by rewrite Habs in Hex].
  apply existsb_exists. exists d. split; [by apply list_elem_of_In|].
  unfold matches. simpl. by rewrite Hmail, bool_decide_eq_true_2.
Qed.

Lemma unique_insert (doc : dict) (e : string) (st : db) :
  doc !! "email" = Some (VStr e) →
  not_found (find_one [("email", CEq (VStr e))] (usuarios st)) = true →
  emails_unique st → emails_unique (insert_usuario doc st).
Proof.
  intros He Hnf Hu. unfold emails_unique. rewrite (emails_insert doc e st He).
  apply NoDup_app. split_and!; [done| |apply NoDup_singleton].
  intros x Hx Hin. apply list_elem_of_singleton in Hin as ->.
  by apply (email_not_stored e st Hnf).
Qed.

Lemma unique_update (q : query) (fields : dict) (st : db) :
  fields !! "_id" = None → fields !! "email" = None →
  emails_unique st → emails_unique (set_usuarios (update_one q fields) st).
Proof.
  intros Hid Hmail Hu. unfold emails_unique.
  by rewrite (emails_identities st _ (identities_update q fields st Hid Hmail)).
Qed.

Lemma unique_delete (q : query) (st : db) :
  emails_unique st → emails_unique (set_usuarios (delete_one q) st).
Proof.
  unfold emails_unique, emails. simpl.
  generalize (usuarios st). intros coll.
  induction coll as [|d coll IH]; simpl; [done|].
  destruct (matches q d); simpl.
  - destruct (d !! "email"); [by intros ?%NoDup_cons_1_2|done].
  - destruct (d !! "email") as [m|]; [|done].
    intros [Hnin Hnd]%NoDup_cons. apply NoDup_cons. split; [|by apply IH].
    intros Hin. apply Hnin. clear -Hin.
    induction coll as [|x coll IH]; simpl in *; [done|].
    destruct (matches q x); simpl in *.
    + destruct (x !! "email"); [by right|done].
    + destruct (x !! "email"); [|by apply IH].
      apply elem_of_cons in Hin as [->|Hin]; [left|right; by apply IH].
Qed.

Lemma serve_unique (r : request) (st : db) :
  emails_unique st → emails_unique (serve r st).
Proof.
  intros Hu. destruct r; simpl.
  - unfold AuthRouter.login, Security.verify_password,
      Security.create_access_token, Security.create_refresh_token,
      AuthRouter.validated, getitem. run.
    repeat (case_match; simplify_eq/=); try done; by apply unique_update.
  - unfold AuthRouter.change_password, Security.verify_password, getitem. run.
    repeat (case_match; simplify_eq/=); try done; by apply unique_update.
  - unfold create_user, AuthRouter.validated. run.
    destruct (not_found _) eqn:Hnf; simpl; [|done].
    repeat (case_match; simplify_eq/=);
      by eapply unique_insert.
  - unfold update_user, user_response, AuthRouter.validated, getitem. run.
    repeat (case_match; simplify_eq/=); try done;
      (apply unique_update; [..|done]; by rewrite !set_field_lookup_ne).
  - unfold delete_user, getitem. run.
    repeat (case_match; simplify_eq/=); try done; by apply unique_delete.
  - unfold reset_password, getitem. run.
    repeat (case_match; simplify_eq/=); try done; by apply unique_update.
  - unfold init_admin_user. run.
    destruct (not_found _) eqn:Hnf; simpl; [|done].
    by eapply unique_insert.
Qed.

(** X10. Email uniqueness is kept by the handlers themselves: whatever
    requests are served, no two accounts end up with the same email. *)
Theorem emails_stay_unique (requests : list request) (st : db) :
  emails_unique st → emails_unique (serve_all requests st).
Proof.
  unfold serve_all. revert st.
  induction requests as [|r rs IH]; intros st Hu; simpl; [done|].
  apply IH. by apply serve_unique.
Qed.

End accounts_properties.

Section account_handlers_properties.
Context `{!Externals}.
Import Mongo Users Accounts.

(** X11. What [delete_user] can do: raise and leave the store as it was, or
    remove exactly one account, the first with the given identifier,
    which is neither the root administrator's nor the caller's own. *)
Theorem delete_user_outcome (user_id : string) (caller : Auth.TokenData)
    (st : db) :
  match delete_user user_id caller st with
  | (st', Raise _) => st' = st
  | (st', Ok _) =>
      ∃ target uid before after,
        find_one (by_id user_id) (usuarios st) = Some target ∧
        target !! "email" ≠ Some (VStr "admin@residencia.cl") ∧
        target !! "_id" = Some uid ∧
        Some (Bson.str uid) ≠ Auth.user_id caller ∧
        usuarios st = before ++ target :: after ∧
        st' = set_usuarios (λ _, before ++ after) st
  end.
Proof.
  unfold delete_user.
  destruct (Bson.is_valid user_id); simpl; [|done]. run.
  destruct (find_one (by_id user_id) (usuarios st)) as [target|] eqn:Hf;
    simpl; [|done].
  case_bool_decide; simpl; [done|].
  unfold getitem. destruct (target !! "email") as [mail|] eqn:Hmail;
    simpl; [|done].
  unfold eq_str. case_bool_decide as Hroot; simpl; [done|].
  destruct (target !! "_id") as [uid|] eqn:Hid; simpl; [|done].
  case_bool_decide as Hself; simpl; [done|].
  destruct (delete_one_split _ _ _ Hf) as (before & after & Hcoll & Hdel & _).
  exists target, uid, before, after. split_and!; try done.
  - rewrite Hmail. intros [= ->]. by apply Hroot.
  - unfold set_usuarios. by rewrite Hdel.
Qed.

(** X12. Logging in, changing or resetting a password and updating an
    account never add or remove an account, and never change an
    identifier or an email. *)
Theorem identities_kept (r : request) (st : db) :
  match r with
  | CreateUser _ _ _ | DeleteUser _ _ | InitAdmin _ => True
  | _ => identities (serve r st) = identities st
  end.
Proof.
  destruct r; simpl; try done.
  - unfold AuthRouter.login, Security.verify_password,
      Security.create_access_token, Security.create_refresh_token,
      AuthRouter.validated, getitem. run.
    repeat (case_match; simplify_eq/=); try done; by apply identities_update.
  - unfold AuthRouter.change_password, Security.verify_password, getitem. run.
    repeat (case_match; simplify_eq/=); try done; by apply identities_update.
  - unfold update_user, user_response, AuthRouter.validated, getitem. run.
    repeat (case_match; simplify_eq/=); try done;
      (apply identities_update; by rewrite !set_field_lookup_ne).
  - unfold reset_password, getitem. run.
    repeat (case_match; simplify_eq/=); try done; by apply identities_update.
Qed.

(** X13. Only the root administrator edits the root administrator's
    account: for any other caller [update_user] raises 403 and writes
    nothing. *)
Theorem update_user_root_protected (user_id : string) (data : UserUpdate)
    (caller : Auth.TokenData) (now : Z) (st : db) (target : dict) :
  Bson.is_valid user_id = true →
  find_one (by_id user_id) (usuarios st) = Some target →
  target !! "email" = Some (VStr "admin@residencia.cl") →
  Auth.email caller ≠ Some "admin@residencia.cl" →
  update_user user_id data caller now st
  = (st, Raise (HTTPException 403
       "No se puede editar el usuario administrador principal")).
Proof.
  intros Hv Hf Hmail Hcaller. unfold update_user. rewrite Hv. run.
  rewrite Hf.
  assert (Hnf : not_found (Some target) = false).
  { simpl. apply bool_decide_eq_false. intros ->.
    by rewrite lookup_empty in Hmail. }
  rewrite Hnf. simpl. unfold getitem. rewrite Hmail. simpl.
  by rewrite (bool_decide_eq_false_2 _ Hcaller).
Qed.

(** X14. [reset_password]: a password of fewer than eight characters is
    refused before the store is touched; when the reset succeeds, the
    account found by the identifier now stores the hash of the new
    password, its other fields apart from [actualizado_en] unchanged. *)
Theorem reset_password_stores_hash (user_id new_password : string)
    (caller : Auth.TokenData) (now : Z) (st : db) :
  Bson.is_valid user_id = true →
  (py_len new_password < 8 →
   reset_password user_id new_password caller now st
   = (st, Raise (HTTPException 400
        "La contraseña debe tener al menos 8 caracteres"))) ∧
  (∀ st' message,
     reset_password user_id new_password caller now st = (st', Ok message) →
     8 ≤ py_len new_password ∧
     ∃ target updated,
       find_one (by_id user_id) (usuarios st) = Some target ∧
       find_one (by_id user_id) (usuarios st') = Some updated ∧
       updated !! "password_hash"
         = Some (VStr (Security.hash_password new_password)) ∧
       ∀ k, k ≠ "password_hash" → k ≠ "actualizado_en" →
            updated !! k = target !! k).
Proof.
  intros Hv. unfold reset_password. rewrite Hv. simpl. split.
  - intros Hshort. by rewrite (proj2 (Z.ltb_lt _ _) Hshort).
  - intros st' message. destruct (Z.ltb_spec (py_len new_password) 8);
      [done|]. run.
    destruct (find_one (by_id user_id) (usuarios st)) as [target|] eqn:Hf;
      simpl; [|done].
    case_bool_decide; simpl; [done|].
    unfold getitem. destruct (target !! "email"); simpl; [|done].
    intros ?; simplify_eq. split; [lia|].
    eexists target, _. split; [done|]. split.
    { simpl. apply find_one_update_one; [done|].
      apply by_id_matches_update; [done|].
      by apply find_one_matches in Hf as [? _]. }
    split; [by simplify_map_eq|].
    intros k Hk1 Hk2. rewrite lookup_union_r; [done|].
    by rewrite lookup_insert_ne, lookup_singleton_ne.
Qed.


(** X16. A login that fails on the email and one that fails on the password
    are answered with the same 401, and neither writes to the store. *)
Theorem login_failures (mail password : string) (now : Z) (st : db) :
  (find_one [("email", CEq (VStr mail))] (usuarios st) = None →
   AuthRouter.login mail password now st = (st, Raise AuthRouter.bad_login)) ∧
  (∀ account stored,
     find_one [("email", CEq (VStr mail))] (usuarios st) = Some account →
     truthy (get_or account "activo" (VBool true)) = true →
     account !! "password_hash" = Some stored →
     pwd_verify password stored = Some false →
     AuthRouter.login mail password now st = (st, Raise AuthRouter.bad_login)).
Proof.
  split.
  - intros Hf. unfold AuthRouter.login. run. by rewrite Hf.
  - intros account stored Hf Hact Hstored Hver.
    destruct (login_found mail password now st account Hf) as [Hnf _].
    unfold AuthRouter.login. run. rewrite Hf, Hnf. simpl. rewrite Hact. simpl.
    unfold getitem, Security.verify_password. by rewrite Hstored, Hver.
Qed.

(** X17. [init_admin_user] makes sure a root administrator account is
    stored, and running it again changes nothing. *)
Theorem init_admin_user_idempotent (now now' : Z) (st : db) :
  let st1 := (init_admin_user now st).1 in
  (∃ d, d ∈ usuarios st1 ∧ d !! "email" = Some (VStr "admin@residencia.cl")) ∧
  init_admin_user now' st1 = (st1, Ok tt) ∧
  (not_found (find_one [("email", CEq (VStr "admin@residencia.cl"))]
                (usuarios st)) = false → st1 = st).
Proof.
  assert (Hq : ∀ d, matches [("email", CEq (VStr ROOT_ADMIN_EMAIL))] d = true
                    → d ≠ ∅).
  { intros d Hm ->. unfold matches in Hm. simpl in Hm.
    rewrite andb_true_r, lookup_empty in Hm.
    by apply bool_decide_eq_true in Hm. }
  assert (Hstored : ∀ s : db,
    (∃ d, d ∈ usuarios s ∧ d !! "email" = Some (VStr ROOT_ADMIN_EMAIL)) →
    not_found (find_one [("email", CEq (VStr ROOT_ADMIN_EMAIL))] (usuarios s))
    = false).
  { intros s (d & Hd & Hmail). rewrite not_found_find_one by done.
    apply negb_false_iff, existsb_exists. exists d.
    split; [by apply list_elem_of_In|].
    unfold matches. simpl. by rewrite Hmail. }
  assert (Hafter : ∃ d, d ∈ usuarios (init_admin_user now st).1 ∧
                        d !! "email" = Some (VStr ROOT_ADMIN_EMAIL)).
  { unfold init_admin_user. run.
    destruct (not_found _) eqn:Hnf; simpl.
    - eexists. split; [apply elem_of_app; right; by left|by simplify_map_eq].
    - rewrite not_found_find_one in Hnf by done.
      apply negb_false_iff, existsb_exists in Hnf as (d & Hd & Hm).
      exists d. split; [by apply list_elem_of_In|].
      unfold matches in Hm. simpl in Hm. rewrite andb_true_r in Hm.
      apply bool_decide_eq_true in Hm.
      destruct (d !! "email"); simpl in *; by simplify_eq. }
  intros st1. split_and!; [done| |].
  - unfold init_admin_user at 1. run. fold st1.
    by rewrite (Hstored st1 Hafter).
  - intros Hnf. unfold st1, init_admin_user. run.
    change "admin@residencia.cl" with ROOT_ADMIN_EMAIL in Hnf.
    by rewrite Hnf.
Qed.

End account_handlers_properties.

Section alert_state_properties.
Import Mongo Alertas Juridico AlertasEstado.

Opaque Dates.add_days.

Lemma matches_clave_viva (entidad_tipo id tipo : string) (d : dict) :
  matches (alerta_existente entidad_tipo id tipo) d = true ↔
  clave_viva d = Some (entidad_tipo, id, tipo).
Proof.
  rewrite matches_alerta_existente. unfold clave_viva.
  destruct (d !! "entidad_tipo") as [[]|], (d !! "entidad_id") as [[]|],
    (d !! "tipo") as [[]|], (d !! "estado") as [[]|];
    try (split; [intros (? & ? & ? & [?|?]); congruence | congruence]).
  repeat case_bool_decide; simpl; subst;
    split; try intros (? & ? & ? & [?|?]); try intros ?; simplify_eq;
    try done; try (split_and!; auto; fail).
Qed.







Lemma for_each_bound (body : dict → handler bool) (cs : list dict)
    (n m : Z) (st st' : db) :
  for_each body cs n st = (st', Ok m) → n ≤ m ≤ n + Z.of_nat (length cs).
Proof.
  revert n st. induction cs as [|c cs IH]; intros n st; simpl.
  - run. intros ?; simplify_eq. lia.
  - run. destruct (body c st) as [st1 [b|e]]; simpl; [|done].
    intros Hrest%IH. destruct b; lia.
Qed.


(** X19. A run looks at no more than 100 candidates of each kind, so it
    creates at most 200 alerts (100 for judicial measures). *)
Theorem alertas_creadas_bound (user : Auth.TokenData) (today : Dates.date)
    (now : Z) (st st' : db) (r : respuesta) :
  (generar_alertas_vencimientos user today now st = (st', Ok r) →
   0 ≤ alertas_creadas r ≤ 200) ∧
  (generar_alertas_vencimiento user today now st = (st', Ok r) →
   0 ≤ alertas_creadas r ≤ 100).
Proof.
  split.
  - unfold generar_alertas_vencimientos. run.
    destruct (Dates.add_days today 7) as [limite|]; simpl; [|done].
    destruct (for_each (alerta_seguimiento user now) _ 0 st)
      as [sta [n1|]] eqn:H1; simpl; [|done].
    destruct (for_each (alerta_taller user now) _ n1 sta)
      as [stb [n2|]] eqn:H2; simpl; [|done].
    intros ?; simplify_eq. simpl.
    apply for_each_bound in H1, H2.
    unfold seguimientos_por_vencer, talleres_proximos, to_list in *.
    rewrite length_take in H1, H2. lia.
  - unfold generar_alertas_vencimiento. run.
    destruct (Dates.add_days today 30) as [limite|]; simpl; [|done].
    destruct (for_each (alerta_medida user today now) _ 0 st)
      as [sta [n1|]] eqn:H1; simpl; [|done].
    intros ?; simplify_eq. simpl.
    apply for_each_bound in H1.
    unfold medidas_por_vencer, to_list in *.
    rewrite length_take in H1. lia.
Qed.

Transparent Dates.add_days.

End alert_state_properties.

Section alert_lifecycle_properties.
Import Mongo Alertas AlertasEstado.

Lemma update_one_no_match (q : query) (fields : dict) (coll : list dict) :
  find_one q coll = None → update_one q fields coll = coll.
Proof.
  unfold find_one, find. induction coll as [|d coll IH]; simpl; [done|].
  destruct (matches q d); simpl; [done|]. intros Hf. by rewrite IH.
Qed.

Lemma update_one_length (q : query) (fields : dict) (coll : list dict) :
  length (update_one q fields coll) = length coll.
Proof.
  induction coll as [|d coll IH]; simpl; [done|].
  destruct (matches q d); simpl; by rewrite ?IH.
Qed.

Lemma claves_update_one (q : query) (fields : dict) (coll : list dict) :
  (∀ d, clave_viva (fields ∪ d) = clave_viva d ∨
        clave_viva (fields ∪ d) = None) →
  omap clave_viva (update_one q fields coll)
    `sublist_of` omap clave_viva coll.
Proof.
  intros Hf. induction coll as [|d coll IH]; csimpl; [done|].
  destruct (matches q d); csimpl.
  - destruct (Hf d) as [-> | ->]; [done|].
    destruct (clave_viva d); [by apply sublist_cons|done].
  - destruct (clave_viva d); [by apply sublist_skip|done].
Qed.

Lemma claves_delete_one (q : query) (coll : list dict) :
  omap clave_viva (delete_one q coll) `sublist_of` omap clave_viva coll.
Proof.
  induction coll as [|d coll IH]; csimpl; [done|].
  destruct (matches q d); csimpl.
  - destruct (clave_viva d); [by apply sublist_cons|done].
  - destruct (clave_viva d); [by apply sublist_skip|done].
Qed.

Lemma by_oid_not_empty (id : string) (d : dict) :
  matches (by_oid id) d = true → d ≠ ∅.
Proof.
  intros Hm ->. unfold matches, by_oid in Hm. simpl in Hm.
  rewrite andb_true_r, lookup_empty in Hm.
  by apply bool_decide_eq_true in Hm.
Qed.

Lemma by_oid_found (id : string) (coll : list dict) (d : dict) :
  find_one (by_oid id) coll = Some d → not_found (Some d) = false.
Proof.
  intros [Hm _]%find_one_matches. simpl.
  apply bool_decide_eq_false. by apply (by_oid_not_empty id).
Qed.

Lemma clave_viva_resuelta (fields d : dict) :
  fields !! "estado" = Some (VStr "resuelta") →
  clave_viva (fields ∪ d) = None.
Proof.
  intros He. unfold clave_viva.
  rewrite (lookup_union_Some_l fields d "estado" _ He).
  by repeat case_match.
Qed.

Lemma clave_viva_otros_campos (fields d : dict) :
  fields !! "entidad_tipo" = None → fields !! "entidad_id" = None →
  fields !! "tipo" = None → fields !! "estado" = None →
  clave_viva (fields ∪ d) = clave_viva d.
Proof.
  intros H1 H2 H3 H4. unfold clave_viva. by rewrite !lookup_union_r.
Qed.

(** X20. What [resolver_alerta] can do: raise and leave the store as it
    was, or mark the first alert with the given identifier as resolved,
    keeping its other fields and the number of alerts. A resolved alert
    is no longer found by any of the generators' duplicate checks. *)
Theorem resolver_alerta_outcome (alerta_id : string)
    (comentario : option string) (user : Auth.TokenData) (now : Z)
    (st : db) :
  match resolver_alerta alerta_id comentario user now st with
  | (st', Raise _) => st' = st
  | (st', Ok _) =>
      ∃ target updated,
        find_one (by_oid alerta_id) (alertas st) = Some target ∧
        find_one (by_oid alerta_id) (alertas st') = Some updated ∧
        updated !! "estado" = Some (VStr "resuelta") ∧
        (∀ k, k ∉ ["estado"; "resuelta_en"; "resuelta_por";
                   "actualizado_en"; "comentario_resolucion"] →
              updated !! k = target !! k) ∧
        (∀ entidad_tipo id tipo,
           matches (alerta_existente entidad_tipo id tipo) updated = false) ∧
        length (alertas st') = length (alertas st)
  end.
Proof.
  unfold resolver_alerta.
  destruct (Bson.is_valid alerta_id); simpl; [|done]. run.
  destruct (find_one (by_oid alerta_id) (alertas st)) as [target|] eqn:Hf;
    [|done].
  rewrite (by_oid_found _ _ _ Hf). simpl.
  eexists target, _. split; [done|]. split.
  { apply find_one_update_one; [done|].
    apply find_one_matches in Hf as [Hm _].
    unfold matches, by_oid in *. simpl in *. by rewrite lookup_union_r. }
  split; [by simplify_map_eq|]. split_and!.
  - intros k Hk. rewrite !elem_of_cons, elem_of_nil in Hk.
    rewrite lookup_union_r; [done|].
    rewrite !lookup_insert_ne, lookup_singleton_ne; intuition.
  - intros entidad_tipo id tipo. apply not_true_is_false.
    intros Hm%matches_clave_viva.
    rewrite clave_viva_resuelta in Hm; [done|by simplify_map_eq].
  - apply update_one_length.
Qed.

(** X21. [asignar_alerta] does not look the alert up. With a user identifier
    that is not an ObjectId it ends in [InvalidId], not in a 400; with an
    existing user and the identifier of no stored alert it reports the
    assignment although nothing was written. *)
Theorem asignar_alerta_edges (alerta_id usuario_id : string)
    (user : Auth.TokenData) (now : Z) (st : db) :
  Bson.is_valid alerta_id = true →
  (Bson.is_valid usuario_id = false →
   asignar_alerta alerta_id usuario_id user now st = (st, Raise InvalidId)) ∧
  (∀ usuario nombre,
     Bson.is_valid usuario_id = true →
     find_one (by_oid usuario_id) (usuarios st) = Some usuario →
     usuario !! "nombre" = Some nombre →
     find_one (by_oid alerta_id) (alertas st) = None →
     asignar_alerta alerta_id usuario_id user now st
     = (st, Ok ("Alerta asignada a " +:+ Bson.str nombre))).
Proof.
  intros Hv. unfold asignar_alerta. rewrite Hv. simpl. split.
  - intros Hu. run. by rewrite Hu.
  - intros usuario nombre Hu Hf Hnombre Hnone. run. rewrite Hu. simpl.
    fold (by_oid usuario_id). rewrite Hf, (by_oid_found _ _ _ Hf). simpl.
    unfold getitem. rewrite Hnombre. simpl.
    unfold set_alertas. rewrite (update_one_no_match _ _ _ Hnone).
    by destruct st.
Qed.

(** X22. Resolving, assigning and deleting alerts keep the alerts collection
    free of duplicates, however the request ends. *)
Theorem ciclo_de_vida_sin_duplicados (alerta_id usuario_id : string)
    (comentario : option string) (user : Auth.TokenData) (now : Z)
    (st : db) :
  sin_duplicados st →
  sin_duplicados (resolver_alerta alerta_id comentario user now st).1 ∧
  sin_duplicados (asignar_alerta alerta_id usuario_id user now st).1 ∧
  sin_duplicados (delete_alerta alerta_id user st).1.
Proof.
  intros Hnd. unfold sin_duplicados in *. split_and!.
  - unfold resolver_alerta. run.
    repeat (case_match; simplify_eq/=); try done.
    eapply sublist_NoDup; [exact Hnd|]. apply claves_update_one.
    intros d. right. apply clave_viva_resuelta. by simplify_map_eq.
  - unfold asignar_alerta, getitem. run.
    repeat (case_match; simplify_eq/=); try done;
      (eapply sublist_NoDup; [exact Hnd|]; apply claves_update_one;
       intros d; left; by apply clave_viva_otros_campos).
  - unfold delete_alerta. run.
    repeat (case_match; simplify_eq/=); try done.
    eapply sublist_NoDup; [exact Hnd|]. apply claves_delete_one.
Qed.

End alert_lifecycle_properties.

(** * The handlers on sample data *)

Import Samples.

Lemma get_current_user_rejects_non_access_witness :
  Auth.get_current_user "refresh-token"
    = Raise (HTTPException 401 "Tipo de token inválido")
  ∧ ∀ principal, Auth.get_current_user "refresh-token" ≠ Ok principal.
Proof.
  eapply get_current_user_rejects_non_access;
    [reflexivity | vm_compute; discriminate].
Defined.



Lemma root_admin_never_deleted_witness :
  Users.delete_user "000000000000000000000001" coordinadora cuentas
  = (cuentas, Raise (HTTPException 403
       "No se puede eliminar el usuario administrador principal"))
  ∧ Users.root_admin_stored (VOid 1)
      (Users.serve_all
         [Users.DeleteUser "000000000000000000000001" coordinadora;
          Users.ResetPassword "000000000000000000000001" "otra-clave"
            coordinadora 5;
          Users.InitAdmin 6]
         cuentas).
Proof.
  destruct root_admin_never_deleted as [Hdelete Hkept]. split.
  - by apply (Hdelete _ _ _ root).
  - apply Hkept. exists root. split; [|done]. unfold cuentas; simpl. by left.
Defined.

Lemma validate_rut_chile_checksum_witness :
  Validators.validate_rut_chile (PyStr.of_string "12.345.678-5")
  = Ok (Validators.rut_checksum_spec (PyStr.of_string "12.345.678-5")).
Proof.
  destruct validate_rut_chile_checksum as [Hspec _].
  apply Hspec. repeat constructor.
Defined.

Ltac procesables :=
  repeat match goal with
  | |- Forall _ [] => constructor
  | |- Forall _ (_ :: _) => constructor
  | |- _ ∧ _ => split
  | |- is_Some _ => eexists; reflexivity
  | |- Alertas.seguimiento_procesable _ =>
      unfold Alertas.seguimiento_procesable
  | |- Alertas.taller_procesable _ => unfold Alertas.taller_procesable
  | |- Juridico.medida_procesable _ => unfold Juridico.medida_procesable
  | |- Alertas.enlace_valido _ => eexists _, _; split; reflexivity
  | |- ∃ termino fecha, _ ∧ _ => eexists _, _; split; reflexivity
  end.

Lemma generadores_idempotentes_witness :
  ∃ st1,
    generar_alertas_vencimientos_first_run st1 ∧
    Alertas.generar_alertas_vencimientos coordinadora hoy 60 st1
    = (st1, Ok (Alertas.mk_respuesta "Se generaron 0 alertas automáticas" 0)).
Proof.
  pose (run1 := Alertas.generar_alertas_vencimientos coordinadora hoy 0
                  vencimientos).
  assert (Hrun : run1
                 = (run1.1, Ok (Alertas.mk_respuesta
                      "Se generaron 3 alertas automáticas" 3)))
    by (vm_compute; reflexivity).
  exists run1.1.
  destruct (generadores_idempotentes coordinadora coordinadora hoy 0 60
              vencimientos run1.1
              (Alertas.mk_respuesta "Se generaron 3 alertas automáticas" 3))
    as [Hidem _].
  destruct (Hidem Hrun) as [Hcrece Hsecond].
  split; [|exact Hsecond]. split; [exact Hrun|exact Hcrece].
Defined.

(** C4, as stated, fails on a store with a candidate that makes the run
    raise: the first run raises at the follow-up stored without [nna_id],
    and so does the second, which therefore answers no count at all. *)
Lemma generadores_idempotentes_counterexample :
  ¬ (∀ (user : Auth.TokenData) (today : Dates.date) (now : Z) (st : Mongo.db),
       ∃ message,
         (Alertas.generar_alertas_vencimientos user today now
            (Alertas.generar_alertas_vencimientos user today now st).1).2
         = Ok (Alertas.mk_respuesta message 0)).
Proof.
  intros Hclaim.
  destruct (Hclaim coordinadora hoy 0 con_registro_incompleto) as [message Hrun].
  vm_compute in Hrun. discriminate Hrun.
Qed.

Ltac sin_alertas :=
  let H := fresh in intros (? & _ & H); vm_compute in H; discriminate H.

Ltac candidato_unico Hcs :=
  let Hin := fresh "Hin" in
  let Hid := fresh "Hid" in
  let Hid' := fresh "Hid'" in
  let Hstr := fresh "Hstr" in
  intros ? ? ? Hin Hid Hid' Hstr; rewrite Hcs in Hin;
  repeat (apply elem_of_cons in Hin as [->|Hin]);
  [..|apply elem_of_nil in Hin; destruct Hin];
  first [reflexivity
        | vm_compute in Hid, Hid'; injection Hid as <-;
          injection Hid' as <-; vm_compute in Hstr; discriminate Hstr].

Lemma prioridad_de_las_alertas_witness :
  (∃ a1 a2 a3,
     let st' := (Juridico.generar_alertas_vencimiento coordinadora hoy 0
                   vencimientos).1 in
     a1 ∈ Mongo.alertas st' ∧ a2 ∈ Mongo.alertas st' ∧
     a3 ∈ Mongo.alertas st' ∧
     a1 !! "entidad_id" = Some (VStr (Bson.str (VOid 1))) ∧
     a1 !! "prioridad" = Some (VStr "critica") ∧
     a2 !! "entidad_id" = Some (VStr (Bson.str (VOid 2))) ∧
     a2 !! "prioridad" = Some (VStr "alta") ∧
     a3 !! "entidad_id" = Some (VStr (Bson.str (VOid 3))) ∧
     a3 !! "prioridad" = Some (VStr "media")) ∧
  (∃ a1 a2,
     let st' := (Alertas.generar_alertas_vencimientos coordinadora hoy 0
                   vencimientos).1 in
     a1 ∈ Mongo.alertas st' ∧ a2 ∈ Mongo.alertas st' ∧
     a1 !! "entidad_id" = Some (VStr (Bson.str (VOid 7))) ∧
     a1 !! "prioridad" = Some (VStr "alta") ∧
     a2 !! "entidad_id" = Some (VStr (Bson.str (VOid 8))) ∧
     a2 !! "prioridad" = Some (VStr "media")).
Proof.
  set (run1 := Juridico.generar_alertas_vencimiento coordinadora hoy 0
                 vencimientos).
  set (run2 := Alertas.generar_alertas_vencimientos coordinadora hoy 0
                 vencimientos).
  assert (Hrun1 : run1 = (run1.1, Ok (Alertas.mk_respuesta
                    "Se generaron 3 alertas de vencimiento" 3)))
    by (vm_compute; reflexivity).
  assert (Hrun2 : run2 = (run2.1, Ok (Alertas.mk_respuesta
                    "Se generaron 3 alertas automáticas" 3)))
    by (vm_compute; reflexivity).
  assert (Hm : Juridico.medidas_por_vencer hoy (Dates.mk_date 2026 12 4)
                 vencimientos
               = [medida 1 "2026-11-09"; medida 2 "2026-11-16";
                  medida 3 "2026-11-29"])
    by (vm_compute; reflexivity).
  assert (Hs : Alertas.seguimientos_por_vencer hoy (Dates.mk_date 2026 11 11)
                 vencimientos
               = [seguimiento 7 "urgente"; seguimiento 8 "media"])
    by (vm_compute; reflexivity).
  destruct (prioridad_de_las_alertas coordinadora hoy 0 vencimientos run1.1
              (Alertas.mk_respuesta "Se generaron 3 alertas de vencimiento" 3))
    as (Hmedidas & _ & _).
  destruct (prioridad_de_las_alertas coordinadora hoy 0 vencimientos run2.1
              (Alertas.mk_respuesta "Se generaron 3 alertas automáticas" 3))
    as (_ & Hseguimientos & _).
  destruct (Hmedidas Hrun1) as (limite & nuevas & Hlim & Hn & _ & _ & Hcada).
  destruct (Hseguimientos Hrun2)
    as (limite' & nuevas' & Hlim' & Hn' & _ & _ & Hcada').
  clear Hmedidas Hseguimientos Hrun1 Hrun2. clearbody run1 run2.
  vm_compute in Hlim, Hlim'. injection Hlim as <-. injection Hlim' as <-.
  assert (Hin : ∀ a, a ∈ nuevas → a ∈ Mongo.alertas run1.1).
  { intros a Ha. rewrite Hn. apply elem_of_app. right. exact Ha. }
  assert (Hin' : ∀ a, a ∈ nuevas' → a ∈ Mongo.alertas run2.1).
  { intros a Ha. rewrite Hn'. apply elem_of_app. right. exact Ha. }
  clear Hn Hn'. split.
  - destruct (Hcada (medida 1 "2026-11-09"))
      as (a1 & Ha1 & id1 & t1 & f1 & p1 & Hid1 & Ht1 & Hf1 & _ & He1 & Hp1
          & Hcritica & _ & _);
      [rewrite Hm; left | sin_alertas | candidato_unico Hm |].
    destruct (Hcada (medida 2 "2026-11-16"))
      as (a2 & Ha2 & id2 & t2 & f2 & p2 & Hid2 & Ht2 & Hf2 & _ & He2 & Hp2
          & _ & Halta & _);
      [rewrite Hm; right; left | sin_alertas | candidato_unico Hm |].
    destruct (Hcada (medida 3 "2026-11-29"))
      as (a3 & Ha3 & id3 & t3 & f3 & p3 & Hid3 & Ht3 & Hf3 & _ & He3 & Hp3
          & _ & _ & Hmedia);
      [rewrite Hm; right; right; left | sin_alertas | candidato_unico Hm |].
    clear Hcada Hcada'.
    vm_compute in Hid1, Hid2, Hid3, Ht1, Ht2, Ht3.
    injection Hid1 as <-. injection Hid2 as <-. injection Hid3 as <-.
    injection Ht1 as <-. injection Ht2 as <-. injection Ht3 as <-.
    vm_compute in Hf1, Hf2, Hf3.
    injection Hf1 as <-. injection Hf2 as <-. injection Hf3 as <-.
    assert (p1 = "critica") as -> by (apply Hcritica; vm_compute; discriminate).
    assert (p2 = "alta") as ->
      by (apply Halta; split; vm_compute; discriminate).
    assert (p3 = "media") as -> by (apply Hmedia; vm_compute; reflexivity).
    exists a1, a2, a3. cbv zeta. repeat split; auto.
  - destruct (Hcada' (seguimiento 7 "urgente"))
      as (a1 & Ha1 & id1 & p1 & Hid1 & _ & He1 & Hp1 & [_ Halta] & _);
      [rewrite Hs; left | sin_alertas | candidato_unico Hs |].
    destruct (Hcada' (seguimiento 8 "media"))
      as (a2 & Ha2 & id2 & p2 & Hid2 & _ & He2 & Hp2 & _ & [_ Hmedia]);
      [rewrite Hs; right; left | sin_alertas | candidato_unico Hs |].
    clear Hcada Hcada'.
    vm_compute in Hid1, Hid2.
    injection Hid1 as <-. injection Hid2 as <-.
    assert (p1 = "alta") as -> by (apply Halta; vm_compute; reflexivity).
    assert (p2 = "media") as -> by (apply Hmedia; vm_compute; discriminate).
    exists a1, a2. cbv zeta. repeat split; auto.
Defined.

(** C6, as stated, fails when the resident link is missing altogether:
    the subscript [interv["nna_id"]] raises at the first candidate, the
    request ends there and the well-formed candidate that follows gets no
    alert; the same happens to the judicial measures. *)
Lemma registro_incompleto_counterexample :
  Alertas.generar_alertas_vencimientos coordinadora hoy 0 con_registro_incompleto
  = (con_registro_incompleto, Raise (KeyError "nna_id")) ∧
  Juridico.generar_alertas_vencimiento coordinadora hoy 0 con_registro_incompleto
  = (con_registro_incompleto, Raise (KeyError "nna_id")) ∧
  Mongo.alertas con_registro_incompleto = [].
Proof. vm_compute. done. Qed.

Lemma residente_ausente_no_aborta_witness :
  (∃ st' r,
     Alertas.generar_alertas_vencimientos coordinadora hoy 0 vencimientos
     = (st', Ok r) ∧
     Alertas.crece vencimientos st' (Alertas.alertas_creadas r) ∧
     Forall (Alertas.cubierta "intervencion" "seguimiento_pendiente" st')
       (Alertas.seguimientos_por_vencer hoy (Dates.mk_date 2026 11 11)
          vencimientos) ∧
     Forall (Alertas.cubierta "taller" "taller_proximo" st')
       (Alertas.talleres_proximos hoy (Dates.mk_date 2026 11 11)
          vencimientos)) ∧
  (∃ st' r,
     Juridico.generar_alertas_vencimiento coordinadora hoy 0 vencimientos
     = (st', Ok r) ∧
     Alertas.crece vencimientos st' (Alertas.alertas_creadas r) ∧
     Forall (Alertas.cubierta "medida_judicial" "vencimiento_plazo" st')
       (Juridico.medidas_por_vencer hoy (Dates.mk_date 2026 12 4)
          vencimientos)).
Proof.
  destruct (residente_ausente_no_aborta coordinadora hoy 0 vencimientos)
    as (_ & Hseguimientos & Hmedidas).
  assert (Hs : Alertas.seguimientos_por_vencer hoy (Dates.mk_date 2026 11 11)
                 vencimientos
               = [seguimiento 7 "urgente"; seguimiento 8 "media"])
    by (vm_compute; reflexivity).
  assert (Ht : Alertas.talleres_proximos hoy (Dates.mk_date 2026 11 11)
                 vencimientos = [taller 9])
    by (vm_compute; reflexivity).
  assert (Hm : Juridico.medidas_por_vencer hoy (Dates.mk_date 2026 12 4)
                 vencimientos
               = [medida 1 "2026-11-09"; medida 2 "2026-11-16";
                  medida 3 "2026-11-29"])
    by (vm_compute; reflexivity).
  split.
  - apply Hseguimientos; [reflexivity | constructor | rewrite Hs | rewrite Ht];
      procesables.
  - apply Hmedidas; [reflexivity | constructor | rewrite Hm]; procesables.
Defined.

Lemma role_checkers_follow_hierarchy_witness :
  (RoleChecks.RoleChecker RoleChecks.require_admin coordinadora
     = Ok coordinadora ↔ Rbac.has_permission "coordinador" "admin" = true) ∧
  (RoleChecks.RoleChecker RoleChecks.require_coordinador coordinadora
     = Ok coordinadora
     ↔ Rbac.has_permission "coordinador" "coordinador" = true) ∧
  (RoleChecks.RoleChecker RoleChecks.require_tecnico coordinadora
     = Ok coordinadora ↔ Rbac.has_permission "coordinador" "tecnico" = true) ∧
  (RoleChecks.RoleChecker RoleChecks.require_any_user coordinadora
     = Ok coordinadora ↔ Rbac.has_permission "coordinador" "viewer" = true).
Proof.
  apply (role_checkers_follow_hierarchy coordinadora "coordinador").
  reflexivity.
Defined.

Lemma require_role_as_RoleChecker_witness :
  RoleChecks.require_role ["admin"] (Some coordinadora)
    (Users.delete_user "000000000000000000000001" coordinadora) cuentas
  = (cuentas, Raise (HTTPException 403 "Se requiere uno de los roles: admin")).
Proof.
  destruct (require_role_as_RoleChecker ["admin"] coordinadora
              (Users.delete_user "000000000000000000000001" coordinadora)
              cuentas) as (_ & Hdenied & _).
  apply Hdenied. vm_compute. discriminate.
Defined.

Lemma object_id_accounts_not_found_witness :
  Auth.get_current_active_user
    (Auth.mk_TokenData (Some "000000000000000000000001")
       (Some "admin@residencia.cl") (Some "admin"))
    SampleTokens.solo_root
  = (SampleTokens.solo_root,
     Raise (HTTPException 404 "Usuario no encontrado")).
Proof.
  destruct (object_id_accounts_not_found SampleTokens.solo_root) as [H404 _].
  - repeat constructor. by exists 1%N.
  - apply H404.
Defined.

Lemma clean_rut_format_rut_witness :
  RutFormat.clean_rut (RutFormat.format_rut (PyStr.of_string "12345678-k"))
  = RutFormat.clean_rut (PyStr.of_string "12345678-k").
Proof.
  apply clean_rut_format_rut. repeat constructor.
Defined.

Lemma format_rut_stable_witness :
  RutFormat.format_rut (RutFormat.format_rut (PyStr.of_string "12345678-5"))
  = RutFormat.format_rut (PyStr.of_string "12345678-5") ∧
  Validators.validate_rut_chile
    (RutFormat.format_rut (PyStr.of_string "12345678-5")) = Ok true.
Proof.
  destruct (format_rut_stable (PyStr.of_string "12345678-5")) as [Hidem Hvalid].
  - repeat constructor.
  - split; [exact Hidem|]. apply Hvalid. vm_compute. reflexivity.
Defined.

Lemma emails_stay_unique_witness :
  Accounts.emails_unique
    (Users.serve_all
       [Users.CreateUser
          (Users.mk_UserCreate "ana@residencia.cl" "Otra Ana" "viewer" true
             "clave-larga-1")
          coordinadora 5;
        Users.InitAdmin 6]
       cuentas).
Proof.
  apply emails_stay_unique.
  unfold Accounts.emails_unique. vm_compute.
  apply NoDup_cons. split; [|apply NoDup_singleton].
  rewrite list_elem_of_singleton. discriminate.
Defined.

Lemma update_user_root_protected_witness :
  Users.update_user "000000000000000000000001"
    (Users.mk_UserUpdate None (Some "viewer") None None) coordinadora 5 cuentas
  = (cuentas, Raise (HTTPException 403
       "No se puede editar el usuario administrador principal")).
Proof.
  apply (update_user_root_protected _ _ _ _ _ root);
    [reflexivity | reflexivity | reflexivity | discriminate].
Defined.

Lemma reset_password_stores_hash_witness :
  Users.reset_password "000000000000000000000001" "corta" coordinadora 5 cuentas
  = (cuentas, Raise (HTTPException 400
       "La contraseña debe tener al menos 8 caracteres")).
Proof.
  destruct (reset_password_stores_hash "000000000000000000000001" "corta"
              coordinadora 5 cuentas) as [Hshort _].
  - reflexivity.
  - apply Hshort. vm_compute. reflexivity.
Defined.


Lemma login_failures_witness :
  AuthRouter.login "ana@residencia.cl" "otra" 5 cuentas
  = (cuentas, Raise AuthRouter.bad_login).
Proof.
  destruct (login_failures "ana@residencia.cl" "otra" 5 cuentas)
    as [_ Hpassword].
  apply (Hpassword ana (VStr "h:secreto123")); reflexivity.
Defined.

Lemma init_admin_user_idempotent_witness :
  (Users.init_admin_user 5 cuentas).1 = cuentas.
Proof.
  destruct (init_admin_user_idempotent 5 6 cuentas) as (_ & _ & Hstored).
  apply Hstored. reflexivity.
Defined.


Lemma alertas_creadas_bound_witness :
  0 ≤ Alertas.alertas_creadas
        (Alertas.mk_respuesta "Se generaron 3 alertas automáticas" 3) ≤ 200.
Proof.
  pose (run1 := Alertas.generar_alertas_vencimientos coordinadora hoy 0
                  vencimientos).
  destruct (alertas_creadas_bound coordinadora hoy 0 vencimientos run1.1
              (Alertas.mk_respuesta "Se generaron 3 alertas automáticas" 3))
    as [Hbound _].
  apply Hbound. vm_compute. reflexivity.
Defined.

Lemma asignar_alerta_edges_witness :
  AlertasEstado.asignar_alerta "000000000000000000000005"
    "000000000000000000000001" coordinadora 5 cuentas
  = (cuentas, Ok "Alerta asignada a Administrador del Sistema").
Proof.
  destruct (asignar_alerta_edges "000000000000000000000005"
              "000000000000000000000001" coordinadora 5 cuentas)
    as [_ Hmissing]; [reflexivity|].
  apply (Hmissing root (VStr "Administrador del Sistema")); reflexivity.
Defined.

Lemma ciclo_de_vida_sin_duplicados_witness :
  AlertasEstado.sin_duplicados
    (AlertasEstado.resolver_alerta "000000000000000000000005" None
       coordinadora 5 SampleTokens.con_alerta).1 ∧
  AlertasEstado.sin_duplicados
    (AlertasEstado.asignar_alerta "000000000000000000000005"
       "000000000000000000000001" coordinadora 5 SampleTokens.con_alerta).1 ∧
  AlertasEstado.sin_duplicados
    (AlertasEstado.delete_alerta "000000000000000000000005" coordinadora
       SampleTokens.con_alerta).1.
Proof.
  apply ciclo_de_vida_sin_duplicados.
  unfold AlertasEstado.sin_duplicados. vm_compute. apply NoDup_singleton.
Defined.

Section sample_tokens.
#[local] Existing Instance SampleTokens.codec | 0.

Lemma codec_roundtrip_sample : Refresh.codec_roundtrip.
Proof.
  intros claims token. simpl.
  repeat case_bool_decide; intros ?; simplify_eq.
  - exists SampleTokens.access_claims. split; [reflexivity|done].
  - exists SampleTokens.refresh_claims. split; [reflexivity|done].
Qed.

Lemma protected_sound_witness :
  ∃ payload account,
    Security.decode_token "A" = Some payload ∧
    payload !! "type" = Some (VStr "access") ∧
    VStr "u1" = get payload "sub" ∧
    VStr "coordinador" = get payload "rol" ∧
    Mongo.find_one [("_id", Mongo.CEq (VStr "u1"))] (Mongo.usuarios cuentas)
      = Some account ∧
    truthy (get_or account "activo" (VBool true)) = true ∧
    RoleChecks.rol_in (Some "coordinador") RoleChecks.require_tecnico = true.
Proof.
  destruct (protected_sound RoleChecks.require_tecnico "A" cuentas)
    as [_ Hsound].
  apply (Hsound coordinadora). vm_compute. reflexivity.
Defined.

Lemma refresh_token_exchange_witness :
  SampleTokens.refresh_claims !! "type" = Some (VStr "refresh") ∧
  Auth.get_current_user "A" = Ok coordinadora.
Proof.
  destruct (refresh_token_exchange "R" SampleTokens.refresh_claims 1000)
    as [_ Hexchange]; [reflexivity|].
  apply (Hexchange codec_roundtrip_sample
           (Refresh.mk_AccessToken "A" "bearer" 1800) "u1"
           "ana@residencia.cl"); [vm_compute| |]; reflexivity.
Defined.

Lemma login_tokens_at_the_gate_witness :
  ∃ account uid role,
    Mongo.find_one [("email", Mongo.CEq (VStr "ana@residencia.cl"))]
      (Mongo.usuarios cuentas) = Some account ∧
    account !! "_id" = Some uid ∧
    account !! "rol" = Some role ∧
    Auth.get_current_user "A"
    = (r ← Auth.optional_str role;
       Ok (Auth.mk_TokenData (Some (Bson.str uid))
             (Some "ana@residencia.cl") r)) ∧
    Auth.get_current_user "R"
    = Raise (HTTPException 401 "Tipo de token inválido").
Proof.
  pose (run1 := AuthRouter.login "ana@residencia.cl" "secreto123" 1000
                  cuentas).
  assert (Hrun : run1
    = (run1.1,
       Ok (AuthRouter.mk_Token "A" "R" "bearer" 1800
             (<["id" := VStr "u1"]> (<["email" := VStr "ana@residencia.cl"]>
             (<["nombre" := VStr "Ana"]> (<["rol" := VStr "coordinador"]>
             (<["activo" := VBool true]> (<["ultimo_acceso" := VTime 1000]>
             (<["creado_en" := VTime 1000]> ∅))))))))))
    by (vm_compute; reflexivity).
  exact (login_tokens_at_the_gate "ana@residencia.cl" "secreto123" 1000
           cuentas run1.1 _ codec_roundtrip_sample Hrun).
Defined.

End sample_tokens.
